(** * BioSteg-Locker vault pipeline: a shallow embedding and its properties

    The development follows the four components of the repository:
    - [Codec]: the LSB steganography scripts [embed.py] / [extract.py] that
      the steganography service writes to disk and runs;
    - [Biometric]: the feature comparison, quality assessment and
      verification of the biometric service;
    - [Encryption]: the two encryption services (the package-based one and
      the identity-keyed one);
    - [Gate]: the [POST /verify/:documentId] and [POST /register] routes.

    Numbers of the JavaScript side are IEEE binary64 values, modelled with
    the primitive floats of the kernel.  Pixel values are 8-bit unsigned
    integers, modelled as [Z] with the range written out. *)

From Stdlib Require Import ZArith Lia Bool Ascii String Strings.Byte.
From Stdlib Require Import Floats.
From Stdlib Require Uint63.
From stdpp Require Import base option list strings pretty gmap.

Local Open Scope Z_scope.

(** ** The steganographic codec (embed.py, extract.py) *)

Module Codec.

(** A Python string over the characters '0' and '1' is a list of booleans,
    [true] standing for '1'. *)
Abbreviation bitstring := (list bool).

(** ['1111111111111110'], the 16-bit end-of-data marker. *)
Definition delimiter : bitstring := replicate 15 true ++ [false].

(** [format(byte, '08b')]: eight binary digits, most significant first. *)
Definition format_08b (b : byte) : bitstring :=
  let n := Z.of_N (Byte.to_N b) in
  (fun i => Z.testbit n i) <$> [7; 6; 5; 4; 3; 2; 1; 0].

(** [int(s, 2)] *)
Definition int_base2 (s : bitstring) : Z :=
  foldl (fun acc (c : bool) => 2 * acc + Z.b2z c) 0 s.

(** [bytearray.append(v)] for a value in range. *)
Definition byte_of_Z (v : Z) : byte :=
  default "000"%byte (Byte.of_N (Z.to_N v)).

(** [''.join(format(byte, '08b') for byte in data)] *)
Definition to_binary (data : list byte) : bitstring :=
  mjoin (format_08b <$> data).

(** An image as [cv2.imread] returns it: its shape and its values in raster
    order ([img.flatten()]); each value is a uint8. *)
Record image := Image {
  rows : nat;
  cols : nat;
  channels : nat;
  flat : list Z
}.

Definition wf_image (img : image) : Prop :=
  length (flat img) = (rows img * cols img * channels img)%nat ∧
  Forall (fun p => 0 ≤ p < 256) (flat img).

(** [img.shape[0] * img.shape[1] * img.shape[2]] *)
Definition total_pixels (img : image) : nat :=
  (rows img * cols img * channels img)%nat.

Inductive exn :=
  | ValueError (msg : string)
  | IndexError.

(** [(flat_img[i] & 0xFE) | int(bit)] *)
Definition set_lsb (p : Z) (bit : bool) : Z :=
  Z.lor (Z.land p 254) (Z.b2z bit).

(** [for i, bit in enumerate(binary_data): flat_img[i] = ...], started at
    index [i].  Indexing past the end of a numpy array raises. *)
Fixpoint embed_loop (i : nat) (binary_data : bitstring) (flat_img : list Z)
  : exn + list Z :=
  match binary_data with
  | [] => inr flat_img
  | bit :: rest =>
      match flat_img !! i with
      | None => inl IndexError
      | Some p => embed_loop (S i) rest (<[i := set_lsb p bit]> flat_img)
      end
  end.

(** [binary_data.endswith(delimiter)] *)
Definition endswith (s d : bitstring) : bool :=
  bool_decide (length d ≤ length s)%nat &&
  bool_decide (drop (length s - length d) s = d).

(** [pixel & 1], as the character [str] makes of it. *)
Definition lsb (pixel : Z) : bool := Z.land pixel 1 =? 1.

(** The extraction loop: one LSB is appended per value, and the loop is
    left as soon as the accumulated string ends with the delimiter, which
    is then cut off.  When the values are exhausted the loop ends with all
    the bits read. *)
Fixpoint extract_loop (flat_img : list Z) (binary_data : bitstring) : bitstring :=
  match flat_img with
  | [] => binary_data
  | pixel :: rest =>
      let binary_data := binary_data ++ [lsb pixel] in
      if endswith binary_data delimiter
      then take (length binary_data - length delimiter) binary_data
      else extract_loop rest binary_data
  end.

(** [if len(binary_data) % 8 != 0: binary_data += '0' * (8 - len % 8)] *)
Definition pad_to_byte (binary_data : bitstring) : bitstring :=
  if (length binary_data mod 8 =? 0)%nat then binary_data
  else binary_data ++ replicate (8 - length binary_data mod 8) false.

(** [for i in range(0, len(binary_data), 8)]: each full group of eight
    digits gives one byte; a shorter last group is skipped. *)
Fixpoint bytes_of_binary (binary_data : bitstring) : list byte :=
  match binary_data with
  | b7 :: b6 :: b5 :: b4 :: b3 :: b2 :: b1 :: b0 :: rest =>
      byte_of_Z (int_base2 [b7; b6; b5; b4; b3; b2; b1; b0]) :: bytes_of_binary rest
  | _ => []
  end.

(** [d] occurs in [s] as a contiguous run, at any bit offset. *)
Definition occurs_in (d s : bitstring) : Prop :=
  ∃ l1 l2, s = l1 ++ d ++ l2.

Definition occurs_inb (d s : bitstring) : bool :=
  existsb (fun k => endswith (take k s) d) (seq 0 (S (length s))).

(** The closed form of a fitting embed, used to state its effect: the
    carrier's shape, and its values with the LSBs under the digits
    replaced. *)
Definition stego_of (img : image) (data : list byte) : image :=
  let bits := to_binary data ++ delimiter in
  Image (rows img) (cols img) (channels img)
        (zip_with set_lsb (take (length bits) (flat img)) bits
         ++ drop (length bits) (flat img)).

Section Files.

(** The image files on disk.  [cv2.imread] gives [None] for a path it
    cannot read; [cv2.imwrite] reports whether it could write (the
    carrier and the output are PNG files, so what is written is read back
    unchanged). *)
Variable can_write : string → bool.

Definition imread (fs : gmap string image) (path : string) : option image :=
  fs !! path.

Definition imwrite (fs : gmap string image) (path : string) (img : image)
  : bool * gmap string image :=
  if can_write path then (true, <[path := img]> fs) else (false, fs).

(** The body of the [try] block of [embed_data_in_image]. *)
Definition embed_try (fs : gmap string image) (image_path : string)
    (data : list byte) (output_path : string) : exn + gmap string image :=
  match imread fs image_path with
  | None => inl (ValueError "Could not read image file")
  | Some img =>
      let binary_data := to_binary data ++ delimiter in
      if bool_decide (total_pixels img < length binary_data)%nat
      then inl (ValueError "Image too small to hold the data")
      else
        match embed_loop 0 binary_data (flat img) with
        | inl e => inl e
        | inr flat_img =>
            let stego_img := Image (rows img) (cols img) (channels img) flat_img in
            let '(success, fs') := imwrite fs output_path stego_img in
            if success then inr fs'
            else inl (ValueError "Could not save steganographic image")
        end
  end.

(** [embed_data_in_image]: [True] and the new files on success; on any
    exception [False], the exception (printed to stderr) and the files as
    they were. *)
Definition embed_data_in_image (fs : gmap string image) (image_path : string)
    (data : list byte) (output_path : string)
  : bool * option exn * gmap string image :=
  match embed_try fs image_path data output_path with
  | inr fs' => (true, None, fs')
  | inl e => (false, Some e, fs)
  end.

(** [extract_data_from_image]: the bytes, or [None] when the image cannot
    be read. *)
Definition extract_data_from_image (fs : gmap string image) (image_path : string)
  : option (list byte) :=
  match imread fs image_path with
  | None => None
  | Some img =>
      let binary_data := extract_loop (flat img) [] in
      Some (bytes_of_binary (pad_to_byte binary_data))
  end.

End Files.

(** Concrete files for the examples: a 4x4 and a 1x1 three-channel image,
    and a disk on which every path can be written. *)
Definition carrier_4x4 : image := Image 4 4 3 (Z.of_nat <$> seq 100 48).

Definition pixel_1x1 : image := Image 1 1 3 [2; 4; 7].

Definition any_path : string → bool := fun _ => true.

(** A 2x5 two-channel image whose LSBs are the digits 101, the delimiter
    and one more digit. *)
Definition tagged_2x5 : image :=
  Image 2 5 2 ([3; 2; 5] ++ replicate 15 255 ++ [4; 9]).

End Codec.


(** ** The biometric matcher (the service behind [../services/biometric.js]) *)

Module Biometric.

Local Open Scope float_scope.
Local Set Warnings "-inexact-float".

(** JavaScript numbers are binary64 values.  [Math.fround], the rounding a
    [Float32Array] applies to what is stored in it: round to nearest even
    at 24 bits of precision. *)
Definition fround (x : float) : float :=
  match Prim2SF x with
  | S754_finite s m e => SF2Prim (binary_round 24 128 s m e)
  | _ => x
  end.

Definition float_of_nat (n : nat) : float :=
  of_uint63 (Uint63.of_Z (Z.of_nat n)).

Definition float_of_byte (b : byte) : float :=
  of_uint63 (Uint63.of_Z (Z.of_N (Byte.to_N b))).

(** [Math.pow(x, 2)] *)
Definition Math_pow2 (x : float) : float := x * x.

(** [Math.min(a, b)]: NaN if either is, and -0 below +0. *)
Definition Math_min (a b : float) : float :=
  if is_nan a || is_nan b then nan
  else if a <? b then a
  else if b <? a then b
  else match classify a with NZero => a | _ => b end.

(** A result object: [{success: true, ...}] or
    [{success: false, error, quality?}]. *)
Inductive result (A : Type) :=
  | Success (a : A)
  | Failed (error : string) (quality : option float).
Arguments Success {A} a.
Arguments Failed {A} error quality.

Record comparison := Comparison {
  similarity : float;
  threshold : float;
  is_match : bool;
  confidence : float
}.

Record verification := Verification {
  verified : bool;
  v_confidence : float;
  v_similarity : float;
  v_threshold : float;
  v_quality : float;
  v_timestamp : Z
}.

(** The stored template, as far as verification reads it. *)
Record template := Template {
  features : list float;
  hash : string
}.

(** The three sums of the loop of [cosineSimilarity]; an index past the end
    of [vec2] reads [undefined], which is NaN in arithmetic. *)
Definition cosine_step (vec1 vec2 : list float)
    (sums : float * float * float) (i : nat) : float * float * float :=
  let '(dotProduct, norm1, norm2) := sums in
  let a := default nan (vec1 !! i) in
  let b := default nan (vec2 !! i) in
  (dotProduct + a * b, norm1 + a * a, norm2 + b * b).

Definition cosine_sums (vec1 vec2 : list float) : float * float * float :=
  foldl (cosine_step vec1 vec2) (0, 0, 0) (seq 0 (length vec1)).

Definition cosineSimilarity (vec1 vec2 : list float) : float :=
  let '(dotProduct, norm1, norm2) := cosine_sums vec1 vec2 in
  let norm1 := PrimFloat.sqrt norm1 in
  let norm2 := PrimFloat.sqrt norm2 in
  if (norm1 =? 0) || (norm2 =? 0) then 0
  else dotProduct / (norm1 * norm2).

(** The Euclidean norm as the loop computes it. *)
Definition norm (vec : list float) : float :=
  PrimFloat.sqrt (foldl (fun acc x => acc + x * x) 0 vec).

(** [compareFeatures]; a missing vector is [None]. *)
Definition compareFeatures (features1 features2 : option (list float))
    (type : string) : result comparison :=
  match features1, features2 with
  | Some features1, Some features2 =>
      if negb (length features1 =? length features2)%nat
      then Failed "Feature vector dimension mismatch" None
      else
        let similarity := cosineSimilarity features1 features2 in
        let threshold := if String.eqb type "fingerprint" then 0.85 else 0.90 in
        let is_match := threshold <=? similarity in
        Success (Comparison similarity threshold is_match similarity)
  | _, _ => Failed "Invalid feature vectors" None
  end.

(** [assessQuality] *)
Definition assessQuality (features : list float) (type : string) : float :=
  let mean := foldl (fun sum val => sum + val) 0 features
              / float_of_nat (length features) in
  let variance := foldl (fun sum val => sum + Math_pow2 (val - mean)) 0 features
                  / float_of_nat (length features) in
  let stdDev := PrimFloat.sqrt variance in
  Math_min (stdDev * 2) 1.

Section Service.

(** What the runtime provides: the SHA-256 digest of a buffer, and the hex
    SHA-256 digest of [JSON.stringify] of a feature array. *)
Variable sha256 : list byte → list byte.
Variable hash_features : list float → string.

(** [generateMockFeatures]: 512 values, the [i]-th from byte
    [i % hash.length] of the digest, stored in a [Float32Array]. *)
Definition generateMockFeatures (data : list byte) (type : string) : list float :=
  let hash := sha256 data in
  (fun i => match hash !! (i mod length hash)%nat with
            | Some b => fround (float_of_byte b / 255 * 2 - 1)
            | None => nan
            end) <$> seq 0 512.

(** [extractFeatures]: the mock session always loads. *)
Definition extractFeatures (data : list byte) (type : string)
  : result (list float) :=
  Success (generateMockFeatures data type).

(** [verifyBiometric]; [now] is what [Date.now()] returns. *)
Definition verifyBiometric (biometricData : list byte)
    (storedTemplate : template) (type : string) (now : Z)
  : result verification :=
  match extractFeatures biometricData type with
  | Failed e q => Failed e q
  | Success feats =>
      if negb (String.eqb (hash_features (features storedTemplate))
                          (hash storedTemplate))
      then Failed "Template integrity check failed" None
      else
        match compareFeatures (Some feats) (Some (features storedTemplate)) type with
        | Failed e q => Failed e q
        | Success comparisonResult =>
            let qualityCheck := assessQuality feats type in
            if qualityCheck <? 0.5
            then Failed "Biometric quality too low" (Some qualityCheck)
            else Success (Verification (is_match comparisonResult)
                            (confidence comparisonResult)
                            (similarity comparisonResult)
                            (threshold comparisonResult)
                            qualityCheck now)
        end
  end.

End Service.

(** The template [enrollBiometric] builds, and what verification reads of
    it. *)
Record enrolled_template := EnrolledTemplate {
  t_userId : string;
  t_type : string;
  t_features : list float;
  t_enrolledAt : Z;
  t_version : string;
  t_quality : float;
  t_hash : string
}.

Definition stored (t : enrolled_template) : template :=
  Template (t_features t) (t_hash t).

(** [{challenge, timestamp, expires}] *)
Record challenge := Challenge {
  c_challenge : string;
  c_timestamp : Z;
  c_expires : Z
}.

Section Enrollment.

Variable sha256 : list byte → list byte.
Variable hash_features : list float → string.
Variable base64 : list byte → string.

(** [enrollBiometric]: the result carries the template and its quality;
    [now] is what [Date.now()] returns. *)
Definition enrollBiometric (userId : string) (biometricData : list byte)
    (type : string) (now : Z) : result (enrolled_template * float) :=
  match extractFeatures sha256 biometricData type with
  | Failed e q => Failed e q
  | Success feats =>
      let quality := assessQuality feats type in
      Success (EnrolledTemplate userId type feats now "1.0" quality
                 (hash_features feats), quality)
  end.

(** [generateChallenge]: [draw] is the result of [crypto.randomBytes(32)],
    [now1] and [now2] the two readings of [Date.now()]. *)
Definition generateChallenge (draw : list byte) (now1 now2 : Z) : challenge :=
  Challenge (base64 draw) now1 (now2 + 5 * 60 * 1000).

End Enrollment.

(** [validateChallenge(challenge, timestamp)], for a timestamp that is a
    whole number of milliseconds; [now] is what [Date.now()] returns. *)
Definition validateChallenge (challenge : string) (timestamp : Z) (now : Z)
  : bool :=
  let challengeAge := (now - timestamp)%Z in
  let maxAge := (5 * 60 * 1000)%Z in
  (challengeAge <=? maxAge)%Z.

(** Stand-ins for the runtime's digests in the examples: a digest of 32
    zero bytes, and a template hash that spells the number of features. *)
Definition zero_digest (data : list byte) : list byte :=
  replicate 32 "000"%byte.

Definition count_hash (features : list float) : string :=
  String.concat "" (replicate (length features) "f").

(** A digest whose bytes stay close to the middle of the range: the
    features it gives differ, and their spread is small. *)
Definition narrow_digest (data : list byte) : list byte :=
  concat (replicate 8 [Byte.x70; Byte.x80; Byte.x90; Byte.xa0]).

End Biometric.

(** ** Node buffers *)

Module Buffer.

(** [buf.slice(start, end)] and [buf.slice(start)]; both clamp. *)
Definition slice (start stop : nat) (buf : list byte) : list byte :=
  take (stop - start) (drop start buf).

Definition slice_from (start : nat) (buf : list byte) : list byte :=
  drop start buf.

Definition byte_of_N (n : N) : byte :=
  default "000"%byte (Byte.of_N (n mod 256)%N).

(** [Buffer.alloc(4)] after [writeUInt32BE(n, 0)], for [n] below 2^32. *)
Definition writeUInt32BE (n : N) : list byte :=
  [byte_of_N (n / 16777216); byte_of_N (n / 65536); byte_of_N (n / 256);
   byte_of_N n]%N.

(** [buf.readUInt32BE(0)]; a buffer of fewer than four bytes raises. *)
Definition readUInt32BE (buf : list byte) : option N :=
  match buf with
  | b3 :: b2 :: b1 :: b0 :: _ =>
      Some (((Byte.to_N b3 * 256 + Byte.to_N b2) * 256 + Byte.to_N b1) * 256
            + Byte.to_N b0)%N
  | _ => None
  end.

Definition hex_digit (n : N) : ascii :=
  match n with
  | 0 => "0" | 1 => "1" | 2 => "2" | 3 => "3" | 4 => "4" | 5 => "5"
  | 6 => "6" | 7 => "7" | 8 => "8" | 9 => "9" | 10 => "a" | 11 => "b"
  | 12 => "c" | 13 => "d" | 14 => "e" | _ => "f"
  end%N%char.

Definition hex_value (c : ascii) : option N :=
  let n := N_of_ascii c in
  if (48 <=? n)%N && (n <=? 57)%N then Some (n - 48)%N
  else if (97 <=? n)%N && (n <=? 102)%N then Some (n - 87)%N
  else if (65 <=? n)%N && (n <=? 70)%N then Some (n - 55)%N
  else None.

(** [buf.toString('hex')] *)
Fixpoint to_hex (buf : list byte) : string :=
  match buf with
  | [] => ""
  | b :: rest =>
      String (hex_digit (Byte.to_N b / 16)%N)
        (String (hex_digit (Byte.to_N b mod 16)%N) (to_hex rest))
  end.

(** [Buffer.from(s, 'hex')]: decoding stops at the first pair that is not
    two hex digits. *)
Fixpoint from_hex (s : string) : list byte :=
  match s with
  | String c1 (String c2 rest) =>
      match hex_value c1, hex_value c2 with
      | Some h, Some l => byte_of_N (h * 16 + l)%N :: from_hex rest
      | _, _ => []
      end
  | _ => []
  end.

(** [Buffer.from(s, 'utf8')] and [buf.toString('utf8')] on strings that are
    byte sequences already. *)
Definition utf8 (s : string) : list byte := list_byte_of_string s.
Definition of_utf8 (buf : list byte) : string := string_of_list_byte buf.

(** Truthiness of a value that is a string, [null] or [undefined]. *)
Definition truthy (v : option string) : bool :=
  match v with
  | Some s => negb (String.eqb s "")
  | None => false
  end.

End Buffer.

(** ** The identity-keyed encryption service ([../services/encryption.js]) *)

Module Encryption.
Import Buffer.

Inductive result (A : Type) :=
  | Success (a : A)
  | Failure (error : string).
Arguments Success {A} a.
Arguments Failure {A} error.

Record encrypted := Encrypted {
  data : list byte;
  iv_hex : string;
  tag_hex : string
}.

Record metadata := Metadata {
  userId : string;
  documentId : string;
  timestamp : Z;
  size : nat;
  checksum : string
}.

Record encrypted_document := EncryptedDocument {
  encryptedData : list byte;
  doc_metadata : metadata;
  encryptionMethod : string
}.

Record decrypted_document := DecryptedDocument {
  document : list byte;
  dec_metadata : metadata
}.

Definition algorithm : string := "aes-256-gcm".
Definition ivLength : nat := 16.
Definition tagLength : nat := 16.
Definition saltLength : nat := 32.
Definition keyLength : nat := 32.

Section Runtime.

(** What Node provides.  [cipher alg password aad plaintext] is the
    ciphertext and the authentication tag of
    [crypto.createCipher(alg, password)] (after [setAAD(aad)] when [aad] is
    not empty); [decipher alg password aad tag ciphertext] is the plaintext
    of [crypto.createDecipher(alg, password)] with that tag set, or [None]
    when [final()] raises.  Both derive the AES key and the IV from
    [password] alone; no property of an options argument is read as an
    IV. *)
Variable cipher : string → list byte → list byte → list byte → list byte * list byte.
Variable decipher : string → list byte → list byte → list byte → list byte → option (list byte).
Variable pbkdf2 : string → list byte → N → nat → list byte.
Variable sha256 : list byte → list byte.
Variable JSON_stringify : metadata → string.
Variable JSON_parse : string → option metadata.

(** [encrypt(data, key)]; [iv] is what [generateIV()] draws. *)
Definition encrypt (plain key iv : list byte) : result encrypted :=
  let '(encrypted, tag) := cipher algorithm key [] plain in
  Success (Encrypted (iv ++ tag ++ encrypted) (to_hex iv) (to_hex tag)).

(** [decrypt(encryptedData, key)] *)
Definition decrypt (encryptedData key : list byte) : result (list byte) :=
  let iv := slice 0 ivLength encryptedData in
  let tag := slice ivLength (ivLength + tagLength) encryptedData in
  let encrypted := slice_from (ivLength + tagLength) encryptedData in
  match decipher algorithm key [] tag encrypted with
  | Some decrypted => Success decrypted
  | None => Failure "Unsupported state or unable to authenticate data"
  end.

(** [encryptWithPassword]; [salt] and [iv] are the two draws. *)
Definition encryptWithPassword (plain : list byte) (password : string)
    (salt iv : list byte) : result encrypted :=
  let key := pbkdf2 password salt 100000 keyLength in
  match encrypt plain key iv with
  | Failure e => Failure e
  | Success r => Success (Encrypted (salt ++ data r) (to_hex salt) (tag_hex r))
  end.

Definition decryptWithPassword (encryptedData : list byte) (password : string)
  : result (list byte) :=
  let salt := slice 0 saltLength encryptedData in
  let encrypted := slice_from saltLength encryptedData in
  let key := pbkdf2 password salt 100000 keyLength in
  decrypt encrypted key.

(** [generateDocumentKey(userId, documentId)]; [now] is [Date.now()]. *)
Definition generateDocumentKey (userId documentId : string) (now : Z)
  : list byte :=
  sha256 (utf8 (userId +:+ ":" +:+ documentId +:+ ":" +:+ pretty now)).

(** [createHash(data)], the hex digest. *)
Definition createHash (buf : list byte) : string := to_hex (sha256 buf).

(** [encryptDocument]; [now] is the reading of [Date.now()] for the
    metadata, [now_key] the later one inside [generateDocumentKey]. *)
Definition encryptDocument (documentBuffer : list byte)
    (userId documentId : string) (password : option string)
    (now now_key : Z) (salt iv : list byte) : result encrypted_document :=
  let metadata :=
    Metadata userId documentId now (length documentBuffer)
             (createHash documentBuffer) in
  let metadataBuffer := utf8 (JSON_stringify metadata) in
  if (4294967296 <=? N.of_nat (length metadataBuffer))%N
  then Failure "The value is out of range"
  else
    let metadataLength := writeUInt32BE (N.of_nat (length metadataBuffer)) in
    let combinedData := metadataLength ++ metadataBuffer ++ documentBuffer in
    let encryptionResult :=
      match password with
      | Some pw =>
          if truthy password
          then encryptWithPassword combinedData pw salt iv
          else encrypt combinedData (generateDocumentKey userId documentId now_key) iv
      | None =>
          encrypt combinedData (generateDocumentKey userId documentId now_key) iv
      end in
    match encryptionResult with
    | Failure e => Failure e
    | Success r =>
        Success (EncryptedDocument (data r) metadata
                   (if truthy password then "password" else "key"))
    end.

(** [decryptDocument]; [now_key] is the reading of [Date.now()] inside
    [generateDocumentKey]. *)
Definition decryptDocument (encryptedData : list byte)
    (userId documentId : string) (password : option string) (now_key : Z)
  : result decrypted_document :=
  let decryptionResult :=
    match password with
    | Some pw =>
        if truthy password
        then decryptWithPassword encryptedData pw
        else decrypt encryptedData (generateDocumentKey userId documentId now_key)
    | None =>
        decrypt encryptedData (generateDocumentKey userId documentId now_key)
    end in
  match decryptionResult with
  | Failure e => Failure e
  | Success decryptedData =>
      match readUInt32BE decryptedData with
      | None => Failure "Attempt to access memory outside buffer bounds"
      | Some metadataLength =>
          let metadataBuffer :=
            slice 4 (4 + N.to_nat metadataLength) decryptedData in
          let documentBuffer :=
            slice_from (4 + N.to_nat metadataLength) decryptedData in
          match JSON_parse (of_utf8 metadataBuffer) with
          | None => Failure "Unexpected token in JSON"
          | Some metadata =>
              if negb (String.eqb (createHash documentBuffer) metadata.(checksum))
              then Failure "Document integrity check failed"
              else if negb (String.eqb metadata.(Encryption.userId) userId)
              then Failure "Document ownership verification failed"
              else Success (DecryptedDocument documentBuffer metadata)
          end
      end
  end.

End Runtime.

End Encryption.

(** ** The package-based encryption service *)

Module PackageEncryption.
Import Buffer.

Inductive result (A : Type) :=
  | Success (a : A)
  | Failure (error : string).
Arguments Success {A} a.
Arguments Failure {A} error.

Record encrypted_package := Package {
  encrypted : list byte;
  iv : list byte;
  tag : list byte;
  key : option (list byte);
  salt : option (list byte);
  algorithm : string;
  timestamp : Z
}.

(** The object [serializeEncryptedPackage] writes as JSON. *)
Record package_metadata := PackageMetadata {
  m_algorithm : string;
  m_timestamp : Z;
  ivLength : nat;
  tagLength : nat;
  encryptedLength : nat;
  hasKey : bool;
  hasSalt : bool;
  keyLength : nat;
  saltLength : nat
}.

Record encryption_result := EncryptionResult {
  encryptedData : list byte;
  key_hex : string;
  e_algorithm : string;
  e_timestamp : Z;
  e_size : nat
}.

Record decryption_result := DecryptionResult {
  documentBuffer : list byte;
  d_algorithm : string;
  d_timestamp : Z;
  d_size : nat
}.

Definition aes_256_gcm : string := "aes-256-gcm".

(** [Buffer.from('biosteg-locker-document', 'utf8')] *)
Definition AAD : list byte := utf8 "biosteg-locker-document".

Definition metadata_of (pkg : encrypted_package) : package_metadata :=
  PackageMetadata (algorithm pkg) (timestamp pkg)
    (length (iv pkg)) (length (tag pkg)) (length (encrypted pkg))
    (match key pkg with Some _ => true | None => false end)
    (match salt pkg with Some _ => true | None => false end)
    (from_option length 0%nat (key pkg))
    (from_option length 0%nat (salt pkg)).

(** The package with another IV in the place of its own. *)
Definition with_iv (pkg : encrypted_package) (iv' : list byte) : encrypted_package :=
  Package (encrypted pkg) iv' (tag pkg) (key pkg) (salt pkg) (algorithm pkg)
    (timestamp pkg).

Section Runtime.

(** The runtime, as in [Encryption]: the cipher and the decipher are keyed
    by the password alone. *)
Variable cipher : string → list byte → list byte → list byte → list byte * list byte.
Variable decipher : string → list byte → list byte → list byte → list byte → option (list byte).
Variable pbkdf2 : string → list byte → N → nat → list byte.
Variable JSON_stringify : package_metadata → string.
Variable JSON_parse : string → option package_metadata.

(** [serializeEncryptedPackage] *)
Definition serializeEncryptedPackage (pkg : encrypted_package)
  : result (list byte) :=
  let metadataBuffer := utf8 (JSON_stringify (metadata_of pkg)) in
  if (4294967296 <=? N.of_nat (length metadataBuffer))%N
  then Failure "The value is out of range"
  else
    let metadataLengthBuffer := writeUInt32BE (N.of_nat (length metadataBuffer)) in
    Success (metadataLengthBuffer ++ metadataBuffer ++ iv pkg ++ tag pkg
             ++ encrypted pkg
             ++ from_option id [] (key pkg)
             ++ from_option id [] (salt pkg)).

(** [deserializeEncryptedPackage] *)
Definition deserializeEncryptedPackage (serializedData : list byte)
  : result encrypted_package :=
  match readUInt32BE serializedData with
  | None => Failure "Attempt to access memory outside buffer bounds"
  | Some metadataLength =>
      let offset := 4%nat in
      let metadataBuffer :=
        slice offset (offset + N.to_nat metadataLength) serializedData in
      match JSON_parse (of_utf8 metadataBuffer) with
      | None => Failure "Unexpected token in JSON"
      | Some metadata =>
          let offset := (offset + N.to_nat metadataLength)%nat in
          let iv := slice offset (offset + ivLength metadata) serializedData in
          let offset := (offset + ivLength metadata)%nat in
          let tag := slice offset (offset + tagLength metadata) serializedData in
          let offset := (offset + tagLength metadata)%nat in
          let encrypted :=
            slice offset (offset + encryptedLength metadata) serializedData in
          let offset := (offset + encryptedLength metadata)%nat in
          let key :=
            if hasKey metadata
            then Some (slice offset (offset + keyLength metadata) serializedData)
            else None in
          let offset :=
            if hasKey metadata then (offset + keyLength metadata)%nat else offset in
          let salt :=
            if hasSalt metadata
            then Some (slice offset (offset + saltLength metadata) serializedData)
            else None in
          Success (Package encrypted iv tag key salt
                     (m_algorithm metadata) (m_timestamp metadata))
      end
  end.

(** [encryptDocument]; [draw1], [draw2] and [draw3] are the successive
    results of [crypto.randomBytes] (the key or the derivation salt, the IV,
    and with a password the salt that is stored), [now] is [Date.now()]. *)
Definition encryptDocument (documentBuffer : list byte)
    (userPassword : option string) (draw1 draw2 draw3 : list byte) (now : Z)
  : result encryption_result :=
  let key :=
    match userPassword with
    | Some pw => if truthy userPassword then pbkdf2 pw draw1 100000 32%nat else draw1
    | None => draw1
    end in
  let iv := draw2 in
  let '(encrypted, tag) := cipher aes_256_gcm key AAD documentBuffer in
  let encryptedPackage :=
    Package encrypted iv tag
      (if truthy userPassword then None else Some key)
      (if truthy userPassword then Some draw3 else None)
      aes_256_gcm now in
  match serializeEncryptedPackage encryptedPackage with
  | Failure e => Failure e
  | Success serialized =>
      Success (EncryptionResult serialized (to_hex key) aes_256_gcm now
                 (length serialized))
  end.

(** [decryptDocument(encryptedData, key, userPassword)]; [key] is a hex
    string. *)
Definition decryptDocument (encryptedData : list byte)
    (key userPassword : option string) : result decryption_result :=
  match deserializeEncryptedPackage encryptedData with
  | Failure e => Failure e
  | Success encryptedPackage =>
      let decryptionKey :=
        match userPassword, salt encryptedPackage with
        | Some pw, Some s =>
            if truthy userPassword then Some (pbkdf2 pw s 100000 32%nat)
            else if truthy key then Some (from_hex (default "" key))
            else PackageEncryption.key encryptedPackage
        | _, _ =>
            if truthy key then Some (from_hex (default "" key))
            else PackageEncryption.key encryptedPackage
        end in
      match decryptionKey with
      | None => Failure "No valid decryption key provided"
      | Some decryptionKey =>
          match decipher (algorithm encryptedPackage) decryptionKey AAD
                  (tag encryptedPackage) (encrypted encryptedPackage) with
          | None => Failure "Unsupported state or unable to authenticate data"
          | Some decrypted =>
              Success (DecryptionResult decrypted (algorithm encryptedPackage)
                         (timestamp encryptedPackage) (length decrypted))
          end
      end
  end.

End Runtime.

End PackageEncryption.

(** ** The document-access route ([POST /verify/:documentId]) *)

Module Gate.
Import Buffer.

Inductive error_class :=
  | ValidationError
  | AuthorizationError
  | NotFoundError
  | PlainError.

Record exception := Exception {
  class : error_class;
  message : string
}.

Record challenge_t := Challenge {
  challenge_value : string;
  challenge_timestamp : Z
}.

(** The request: [req.params.documentId], the body ([biometricData] as the
    JSON text of the value sent, [None] when it is missing or falsy; [type]
    with its default applied; [challenge]) and [req.user.id]. *)
Record request := Request {
  documentId : string;
  biometricData : option string;
  type : string;
  challenge : option challenge_t;
  userId : string
}.

(** Rows of [documents]; the two times are what [new Date(..).getTime()]
    gives for the stored strings. *)
Record document_row := DocumentRow {
  doc_id : string;
  doc_user_id : string;
  title : string;
  original_filename : string;
  original_mimetype : string;
  s3_key : string;
  start_time : Z;
  end_time : Z;
  document_status : string
}.

Record template_row := TemplateRow {
  tpl_user_id : string;
  tpl_biometric_type : string;
  template_data : Biometric.template
}.

Record access_log := AccessLog {
  log_user_id : string;
  log_document_id : string;
  access_type : string;
  success : bool;
  failure_reason : option string;
  confidence_score : option float;
  log_timestamp : Z
}.

Record database := Database {
  documents : list document_row;
  biometric_templates : list template_row;
  access_logs : list access_log
}.

Record response := Response {
  res_id : string;
  res_title : string;
  res_originalFilename : string;
  res_originalMimetype : string;
  res_data : list byte;
  res_size : nat;
  res_confidence : float;
  res_quality : float;
  res_type : string
}.

(** The services the route imports. *)
Record services := Services {
  validateChallenge : string → Z → bool;
  processWebAuthnData : string → string → Biometric.result (list byte);
  verifyBiometric :
    list byte → Biometric.template → string →
    Biometric.result Biometric.verification;
  downloadFromS3 : string → Encryption.result (list byte);
  extractDocument : list byte → Encryption.result (list byte);
  decryptDocument :
    list byte → string → string →
    Encryption.result Encryption.decrypted_document
}.

(** A handler runs against the database and either returns or throws.  The
    caller is an authenticated user, whose rows the client may read and
    write. *)
Definition M (A : Type) : Type := database → (exception + A) * database.

#[export] Instance M_ret : MRet M := fun A a db => (inr a, db).

#[export] Instance M_bind : MBind M := fun A B k m db =>
  match m db with
  | (inl e, db') => (inl e, db')
  | (inr a, db') => k a db'
  end.

Definition throw {A : Type} (e : exception) : M A :=
  fun db => (inl e, db).

(** [try { m } catch (error) { handler error }] *)
Definition try_catch {A : Type} (m : M A) (handler : exception → M A) : M A :=
  fun db =>
    match m db with
    | (inl e, db') => handler e db'
    | (inr a, db') => (inr a, db')
    end.

(** The foreign key of the schema,
    [document_id VARCHAR(32) NOT NULL REFERENCES documents(id)]: a record
    can be written only for an id that a row of [documents] carries. *)
Definition references_document (db : database) (row : access_log) : bool :=
  bool_decide (log_document_id row ∈ doc_id <$> documents db).

(** [await supabase.from('access_logs').insert(row)]: the record is
    appended when the foreign key holds and refused otherwise.  The client
    hands a refusal back as the [error] of its answer and does not throw;
    the route reads nothing of the answer, so the handler goes on in both
    cases. *)
Definition insert_access_log (row : access_log) : M unit :=
  fun db =>
    if references_document db row
    then (inr tt, Database (documents db) (biometric_templates db)
                    (access_logs db ++ [row]))
    else (inr tt, db).

(** [.select('*').eq(..).eq(..).single()]: the row when exactly one
    matches. *)
Definition single {A : Type} (rows : list A) : option A :=
  match rows with
  | [row] => Some row
  | _ => None
  end.

Definition select_document (documentId userId : string) : M (option document_row) :=
  fun db =>
    (inr (single (filter (fun d => doc_id d = documentId ∧ doc_user_id d = userId)
                    (documents db))), db).

Definition select_template (userId type : string) : M (option template_row) :=
  fun db =>
    (inr (single (filter (fun t => tpl_user_id t = userId ∧
                                   tpl_biometric_type t = type)
                    (biometric_templates db))), db).

Definition truthy_string (s : string) : bool := negb (String.eqb s "").

(** The body of the [try] block. *)
Definition verify_try (svc : services) (req : request)
    (biometricData : string) (challenge : challenge_t) (now : Z) : M response :=
  if negb (validateChallenge svc (challenge_value challenge)
             (challenge_timestamp challenge))
  then throw (Exception AuthorizationError "Invalid or expired biometric challenge")
  else
    document ← select_document (documentId req) (userId req);
    match document with
    | None => throw (Exception NotFoundError "Document not found")
    | Some document =>
        if now <? start_time document
        then throw (Exception AuthorizationError "Document access not yet available")
        else if end_time document <? now
        then throw (Exception AuthorizationError "Document access has expired")
        else if negb (String.eqb (document_status document) "active")
        then throw (Exception AuthorizationError "Document is not active")
        else
          template ← select_template (userId req) (type req);
          match template with
          | None =>
              throw (Exception NotFoundError
                "Biometric template not found. Please enroll your biometric first.")
          | Some template =>
              match processWebAuthnData svc biometricData (type req) with
              | Biometric.Failed e _ =>
                  throw (Exception PlainError
                           ("Biometric data processing failed: " +:+ e))
              | Biometric.Success processedData =>
                  match verifyBiometric svc processedData
                          (template_data template) (type req) with
                  | Biometric.Failed e _ =>
                      throw (Exception PlainError
                               ("Biometric verification failed: " +:+ e))
                  | Biometric.Success verifyResult =>
                      if negb (Biometric.verified verifyResult)
                      then
                        insert_access_log
                          (AccessLog (userId req) (documentId req)
                             "biometric_verification" false
                             (Some "biometric_mismatch")
                             (Some (Biometric.v_confidence verifyResult)) now);;
                        throw (Exception AuthorizationError
                                 "Biometric verification failed")
                      else
                        match downloadFromS3 svc (s3_key document) with
                        | Encryption.Failure e =>
                            throw (Exception PlainError
                                     ("Failed to retrieve document: " +:+ e))
                        | Encryption.Success body =>
                        match extractDocument svc body with
                        | Encryption.Failure e =>
                            throw (Exception PlainError
                                     ("Document extraction failed: " +:+ e))
                        | Encryption.Success extracted =>
                        match decryptDocument svc extracted (userId req)
                                (documentId req) with
                        | Encryption.Failure e =>
                            throw (Exception PlainError
                                     ("Document decryption failed: " +:+ e))
                        | Encryption.Success decryptResult =>
                            insert_access_log
                              (AccessLog (userId req) (documentId req)
                                 "biometric_verification" true None
                                 (Some (Biometric.v_confidence verifyResult))
                                 now);;
                            mret (Response (doc_id document) (title document)
                                    (original_filename document)
                                    (original_mimetype document)
                                    (Encryption.document decryptResult)
                                    (length (Encryption.document decryptResult))
                                    (Biometric.v_confidence verifyResult)
                                    (Biometric.v_quality verifyResult)
                                    (type req))
                        end end end
                  end
              end
          end
    end.

(** The [catch] block: log the failure when the ids are there, rethrow. *)
Definition verify_catch (req : request) (now : Z) (error : exception)
  : M response :=
  (if truthy_string (documentId req) && truthy_string (userId req)
   then insert_access_log
          (AccessLog (userId req) (documentId req) "biometric_verification"
             false (Some (message error)) None now)
   else mret tt);;
  throw error.

(** The handler of [router.post('/verify/:documentId')]; [now] is the
    clock reading of the request. *)
Definition verify_route (svc : services) (req : request) (now : Z) : M response :=
  match biometricData req with
  | None => throw (Exception ValidationError "Biometric data is required")
  | Some biometricData =>
      match challenge req with
      | None => throw (Exception ValidationError "Biometric challenge is required")
      | Some challenge =>
          try_catch (verify_try svc req biometricData challenge now)
                    (verify_catch req now)
      end
  end.

(** The database with one more access record, and the error thrown on a
    biometric mismatch. *)
Definition add_log (db : database) (row : access_log) : database :=
  Database (documents db) (biometric_templates db) (access_logs db ++ [row]).

Definition mismatch_error : exception :=
  Exception AuthorizationError "Biometric verification failed".

(** Services with fixed answers, a database with one active document and
    one template, and two requests, for the examples. *)
Definition fixed_services (verified : bool) : services :=
  Services (fun _ _ => true)
    (fun data _ => Biometric.Success (utf8 data))
    (fun _ _ _ =>
       Biometric.Success (Biometric.Verification verified 0.5 0.5 0.875 1 0))
    (fun _ => Encryption.Success [])
    (fun _ => Encryption.Success [])
    (fun _ userId documentId =>
       Encryption.Success
         (Encryption.DecryptedDocument (utf8 "plain")
            (Encryption.Metadata userId documentId 0 5 ""))).

Definition one_document_db : database :=
  Database
    [DocumentRow "d1" "u1" "Will" "will.pdf" "application/pdf"
       "documents/u1/d1.png" 1000 2000 "active"]
    [TemplateRow "u1" "fingerprint" (Biometric.Template [] "")]
    [].

Definition full_request : request :=
  Request "d1" (Some "{}") "fingerprint" (Some (Challenge "c" 1500)) "u1".



End Gate.

(** ** Template registration ([POST /register]) *)

Module Registration.
Import Buffer.

Local Open Scope float_scope.
Local Set Warnings "-inexact-float".

Record process_result := ProcessResult {
  template : list float;
  templateId : string;
  confidence : float;
  biometricType : string
}.

(** Rows of [biometric_templates], with the three entries of the
    [metadata] column side by side. *)
Record template_row := TemplateRow {
  id : nat;
  user_id : string;
  biometric_type : string;
  template_data : string;
  template_id : string;
  encryption_key : string;
  confidence_score : float;
  is_active : option bool;
  created_at : option string;
  updated_at : option string;
  meta_biometricType : string;
  meta_registrationTime : string;
  meta_deviceInfo : option string
}.

(** [AppError(message, statusCode, code)] *)
Record app_error := AppError {
  message : string;
  statusCode : nat;
  code : string
}.

Record response := Response {
  status : nat;
  res_message : string;
  res_row : template_row
}.

(** The request: [credentialData] as the JSON text of the value sent
    ([None] when missing or falsy), [biometricType] with its default
    applied, [req.user.id] and the User-Agent header. *)
Record request := Request {
  credentialData : option string;
  req_biometricType : string;
  userId : string;
  userAgent : option string
}.

Section Runtime.

(** The runtime: the SHA-256 digest, [template.join(',')],
    [JSON.stringify(template)], the password-keyed cipher of
    [createCipher] and [toString('base64')]. *)
Variable sha256 : list byte → list byte.
Variable join_comma : list float → string.
Variable JSON_stringify : list float → string.
Variable cipher : string → list byte → list byte → list byte → list byte * list byte.
Variable base64 : list byte → string.

(** [createMockBiometricTemplate] *)
Definition createMockBiometricTemplate (credentialData : string) : list float :=
  let hash := sha256 (utf8 credentialData) in
  (fun i => match hash !! (i mod length hash)%nat with
            | Some b => Biometric.fround (Biometric.float_of_byte b / 255 * 2 - 1)
            | None => nan
            end) <$> seq 0 128.

(** [generateTemplateId] *)
Definition generateTemplateId (template : list float) : string :=
  String.substring 0 16 (to_hex (sha256 (utf8 (join_comma template)))).

(** [processWebAuthnCredential]; it always succeeds. *)
Definition processWebAuthnCredential (credentialData : string) : process_result :=
  let template := createMockBiometricTemplate credentialData in
  ProcessResult template (generateTemplateId template) 0.95 "fingerprint".

(** [encryptTemplate(template, key)]; [iv] is drawn after the cipher has
    run and is only written in front of the tag. *)
Definition encryptTemplate (template : list float) (key iv : list byte) : string :=
  let templateJson := JSON_stringify template in
  let '(encrypted, tag) := cipher "aes-256-gcm" key [] (utf8 templateJson) in
  base64 (iv ++ tag ++ encrypted).

Definition matches (userId biometricType : string) (row : template_row) : bool :=
  String.eqb (user_id row) userId && String.eqb (biometric_type row) biometricType.

(** [.update({...}).eq('user_id', ..).eq('biometric_type', ..)] *)
Definition update_row (processResult : process_result)
    (encryptedTemplate encryption_key now : string) (userAgent : option string)
    (row : template_row) : template_row :=
  TemplateRow (id row) (user_id row) (biometric_type row)
    encryptedTemplate (templateId processResult) encryption_key
    (confidence processResult) (is_active row) (created_at row) (Some now)
    (biometricType processResult) now userAgent.

(** The handler of [router.post('/register')]: [encryptionKey] and [iv]
    are the draws of [crypto.randomBytes], [now] is
    [new Date().toISOString()]; the database accepts the write. *)
Definition register_route (req : request) (encryptionKey iv : list byte)
    (now : string) (table : list template_row)
  : (app_error + response) * list template_row :=
  match credentialData req with
  | None =>
      (inl (AppError "Biometric credential data is required" 400
              "MISSING_CREDENTIAL_DATA"), table)
  | Some credentialData =>
      let processResult := processWebAuthnCredential credentialData in
      let encryptedTemplate :=
        encryptTemplate (template processResult) encryptionKey iv in
      let existingTemplate :=
        Gate.single (filter (fun row => matches (userId req) (req_biometricType req) row = true)
                       table) in
      match existingTemplate with
      | Some existing =>
          let updated :=
            update_row processResult encryptedTemplate (to_hex encryptionKey)
              now (userAgent req) existing in
          (inr (Response 200 "Biometric template updated successfully" updated),
           (fun row =>
              if matches (userId req) (req_biometricType req) row
              then update_row processResult encryptedTemplate
                     (to_hex encryptionKey) now (userAgent req) row
              else row) <$> table)
      | None =>
          let inserted :=
            TemplateRow (S (foldr Nat.max 0%nat (id <$> table)))
              (userId req) (req_biometricType req)
              encryptedTemplate (templateId processResult)
              (to_hex encryptionKey) (confidence processResult)
              (Some true) (Some now) None
              (biometricType processResult) now (userAgent req) in
          (inr (Response 201 "Biometric template registered successfully" inserted),
           table ++ [inserted])
      end
  end.

End Runtime.

Section TemplateDecryption.

(** The decipher of [createDecipher], [Buffer.from(.., 'base64')] and
    [JSON.parse] on the text of a template. *)
Variable decipher : string → list byte → list byte → list byte → list byte → option (list byte).
Variable from_base64 : string → list byte.
Variable JSON_parse : string → option (list float).

(** [decryptTemplate(encryptedTemplate, key)]; the sixteen bytes in front
    are sliced off and not used. *)
Definition decryptTemplate (encryptedTemplate : string) (key : list byte)
  : PackageEncryption.result (list float) :=
  let buffer := from_base64 encryptedTemplate in
  let iv := slice 0 16 buffer in
  let tag := slice 16 32 buffer in
  let encrypted := slice_from 32 buffer in
  match decipher "aes-256-gcm" key [] tag encrypted with
  | None =>
      PackageEncryption.Failure "Unsupported state or unable to authenticate data"
  | Some decrypted =>
      match JSON_parse (of_utf8 decrypted) with
      | None => PackageEncryption.Failure "Unexpected token in JSON"
      | Some template => PackageEncryption.Success template
      end
  end.

End TemplateDecryption.

End Registration.

(** ** The document routes: the upload window and the access status *)

Module Documents.
Import Gate.

(** [validateTimeWindow(startTime, endTime)]: [start] and [end_] are what
    [new Date(..).getTime()] gives for the two arguments, [None] for NaN;
    [now] is [Date.now()]. *)
Definition validateTimeWindow (start end_ : option Z) (now : Z)
  : exception + Z * Z :=
  match start, end_ with
  | Some start, Some end_ =>
      if end_ <=? start
      then inl (Exception ValidationError "Start time must be before end time")
      else if start <? now - 5 * 60 * 1000
      then inl (Exception ValidationError "Start time cannot be in the past")
      else if end_ - start <? 60 * 1000
      then inl (Exception ValidationError "Time window must be at least 1 minute")
      else if 30 * 24 * 60 * 60 * 1000 <? end_ - start
      then inl (Exception ValidationError "Time window cannot exceed 30 days")
      else inr (start, end_)
  | _, _ => inl (Exception ValidationError "Invalid date format for time window")
  end.

(** The body of the answer of [GET /:documentId/access-status]; the two
    times are given as the row has them. *)
Record access_status := AccessStatus {
  status : string;
  status_message : string;
  isAccessible : bool;
  timeRemaining : Z;
  startTime : Z;
  endTime : Z
}.

(** The handler of [router.get('/:documentId/access-status')]. *)
Definition access_status_route (documentId userId : string) (now : Z)
  : M access_status :=
  document ← select_document documentId userId;
  match document with
  | None => throw (Exception NotFoundError "Document not found")
  | Some document =>
      let startTime := start_time document in
      let endTime := end_time document in
      let '(status, message) :=
        if now <? startTime
        then ("pending",
              "Document access will be available at the scheduled start time")
        else if endTime <? now
        then ("expired", "Document access has expired")
        else if negb (String.eqb (document_status document) "active")
        then ("inactive", "Document is not active")
        else ("accessible", "Document is accessible for biometric verification") in
      mret (AccessStatus status message (String.eqb status "accessible")
              (Z.max 0 (endTime - now)) startTime endTime)
  end.

End Documents.

(** ** Stand-ins for the runtime

    The services are stated over an arbitrary runtime, and so are the
    general lemmas about them.  To run the services on concrete inputs the
    examples use these stand-ins, which have the shape of the Node
    functions they replace: a cipher keyed by its password alone that
    returns a ciphertext and a 16-byte authentication tag, a decipher that
    refuses a tag that does not fit, a digest of 32 bytes, and a JSON text
    for the two metadata objects with its reader. *)

Module Standin.
Import Buffer.

Definition mix (buf : list byte) : N :=
  foldl (fun acc b => (acc * 33 + Byte.to_N b + 1) mod 4294967291)%N 5381%N buf.

Definition sha256 (buf : list byte) : list byte :=
  (fun i => byte_of_N (mix (byte_of_N (N.of_nat i) :: buf))) <$> seq 0 32.

Definition keystream (key : list byte) (n : nat) : list byte :=
  (fun i => default "000"%byte (key !! (i mod length key)%nat)) <$> seq 0 n.

Definition add_byte (a b : byte) : byte :=
  byte_of_N (Byte.to_N a + Byte.to_N b).

Definition sub_byte (a b : byte) : byte :=
  byte_of_N (256 + Byte.to_N a - Byte.to_N b).

Definition tag_of (alg : string) (key aad ct : list byte) : list byte :=
  take 16 (sha256 (utf8 alg ++ key ++ aad ++ ct)).

Definition cipher (alg : string) (key aad plain : list byte)
  : list byte * list byte :=
  let ct := zip_with add_byte plain (keystream key (length plain)) in
  (ct, tag_of alg key aad ct).

Definition decipher (alg : string) (key aad tag ct : list byte)
  : option (list byte) :=
  if String.eqb (to_hex tag) (to_hex (tag_of alg key aad ct))
  then Some (zip_with sub_byte ct (keystream key (length ct)))
  else None.

Definition pbkdf2 (password : string) (salt : list byte) (iterations : N)
    (keylen : nat) : list byte :=
  take keylen (sha256 (utf8 password ++ salt)).

(** A JSON text of a flat object, and its reading back. *)
Definition dquote : string := String "034"%char "".

Definition json_string (s : string) : string := dquote +:+ s +:+ dquote.

Definition json_bool (b : bool) : string := if b then "true" else "false".

Definition json_field (name value : string) : string :=
  json_string name +:+ ":" +:+ value.

Definition json_object (fields : list string) : string :=
  "{" +:+ String.concat "," fields +:+ "}".

Fixpoint split_on (c : ascii) (s : string) : list string :=
  match s with
  | EmptyString => [EmptyString]
  | String x rest =>
      match split_on c rest with
      | [] => []
      | hd :: tl =>
          if Ascii.eqb x c then EmptyString :: hd :: tl
          else String x hd :: tl
      end
  end.

(** The text without its first and last character. *)
Definition inner (s : string) : string :=
  String.substring 1 (String.length s - 2) s.

Definition field_value (field : string) : string :=
  match split_on ":" field with
  | [_; v] => v
  | _ => ""
  end.

Fixpoint parse_digits (s : string) (acc : N) : option N :=
  match s with
  | EmptyString => Some acc
  | String c rest =>
      let n := N_of_ascii c in
      if (48 <=? n)%N && (n <=? 57)%N
      then parse_digits rest (acc * 10 + (n - 48))%N
      else None
  end.

Definition parse_N (s : string) : option N :=
  match s with
  | EmptyString => None
  | _ => parse_digits s 0%N
  end.

Definition parse_bool (s : string) : option bool :=
  if String.eqb s "true" then Some true
  else if String.eqb s "false" then Some false
  else None.

Definition stringify_metadata (m : Encryption.metadata) : string :=
  json_object
    [json_field "userId" (json_string (Encryption.userId m));
     json_field "documentId" (json_string (Encryption.documentId m));
     json_field "timestamp" (pretty (Encryption.timestamp m));
     json_field "size" (pretty (Encryption.size m));
     json_field "checksum" (json_string (Encryption.checksum m))].

Definition parse_metadata (s : string) : option Encryption.metadata :=
  match field_value <$> split_on "," (inner s) with
  | [u; d; t; z; c] =>
      t ← parse_N t; z ← parse_N z;
      Some (Encryption.Metadata (inner u) (inner d) (Z.of_N t) (N.to_nat z)
              (inner c))
  | _ => None
  end.

Definition stringify_package (m : PackageEncryption.package_metadata) : string :=
  json_object
    [json_field "algorithm" (json_string (PackageEncryption.m_algorithm m));
     json_field "timestamp" (pretty (PackageEncryption.m_timestamp m));
     json_field "ivLength" (pretty (PackageEncryption.ivLength m));
     json_field "tagLength" (pretty (PackageEncryption.tagLength m));
     json_field "encryptedLength" (pretty (PackageEncryption.encryptedLength m));
     json_field "hasKey" (json_bool (PackageEncryption.hasKey m));
     json_field "hasSalt" (json_bool (PackageEncryption.hasSalt m));
     json_field "keyLength" (pretty (PackageEncryption.keyLength m));
     json_field "saltLength" (pretty (PackageEncryption.saltLength m))].

Definition parse_package (s : string)
  : option PackageEncryption.package_metadata :=
  match field_value <$> split_on "," (inner s) with
  | [a; t; il; tl; el; hk; hs; kl; sl] =>
      t ← parse_N t; il ← parse_N il; tl ← parse_N tl; el ← parse_N el;
      hk ← parse_bool hk; hs ← parse_bool hs;
      kl ← parse_N kl; sl ← parse_N sl;
      Some (PackageEncryption.PackageMetadata (inner a) (Z.of_N t)
              (N.to_nat il) (N.to_nat tl) (N.to_nat el) hk hs
              (N.to_nat kl) (N.to_nat sl))
  | _ => None
  end.

(** For the registration examples: a sign per feature for
    [template.join(',')] and [JSON.stringify(template)], and hex digits in
    the place of base64. *)
Definition join_comma (template : list float) : string :=
  String.concat ","
    ((fun x => if (x <? 0)%float then "-1" else "1") <$> template).

Definition stringify_floats (template : list float) : string :=
  "[" +:+ join_comma template +:+ "]".

Definition base64 (buf : list byte) : string := to_hex buf.

(** Sixteen and thirty-two bytes that stand for draws of
    [crypto.randomBytes]. *)
Definition draw16 : list byte := byte_of_N <$> [17; 34; 51; 68; 85; 102; 119;
  136; 153; 170; 187; 204; 221; 238; 255; 1]%N.

Definition draw32 : list byte :=
  (fun i => byte_of_N (N.of_nat (7 * i + 3))) <$> seq 0 32.

Definition draw32' : list byte :=
  (fun i => byte_of_N (N.of_nat (11 * i + 5))) <$> seq 0 32.

(** [flip i buf]: bit [i mod 8] of byte [i / 8] inverted. *)
Definition flip_byte (k : nat) (b : byte) : byte :=
  byte_of_N (N.lxor (Byte.to_N b) (2 ^ N.of_nat k)).

Definition flip (i : nat) (buf : list byte) : list byte :=
  alter (flip_byte (i mod 8)) (i / 8)%nat buf.

(** The readings that undo [base64] and, on vectors of 1 and -1,
    [stringify_floats]. *)
Definition from_base64 (text : string) : list byte := from_hex text.

Definition parse_floats (text : string) : option (list float) :=
  Some ((fun t => if String.eqb t "-1" then (-1)%float else 1%float)
          <$> split_on "," (inner text)).

(** A package with every field present. *)
Definition sample_package : PackageEncryption.encrypted_package :=
  PackageEncryption.Package (Buffer.utf8 "ciphertext") draw16
    (Buffer.utf8 "0123456789abcdef") (Some draw32) (Some draw32')
    PackageEncryption.aes_256_gcm 1000.

End Standin.

(** * Properties *)

Module CodecProofs.
Import Codec.

Lemma endswith_suffix (s d : bitstring) :
  endswith s d = true ↔ d `suffix_of` s.
Proof.
  unfold endswith. rewrite andb_true_iff, !bool_decide_eq_true. split.
  - intros [_ Hd]. exists (take (length s - length d) s).
    rewrite <- (take_drop (length s - length d) s) at 1. by rewrite Hd.
  - intros [k ->]. rewrite length_app. split; [lia|].
    replace (length k + length d - length d)%nat with (length k) by lia.
    by rewrite drop_app_length.
Qed.

Lemma endswith_false_not_suffix (s d : bitstring) :
  endswith s d = false ↔ ¬ d `suffix_of` s.
Proof.
  rewrite <- endswith_suffix. destruct (endswith s d); split; done.
Qed.

Lemma occurs_inb_spec (d s : bitstring) :
  occurs_inb d s = true ↔ occurs_in d s.
Proof.
  unfold occurs_inb, occurs_in. rewrite existsb_exists. split.
  - intros (k & _ & Hk). apply endswith_suffix in Hk as [l1 Hl1].
    exists l1, (drop k s). rewrite app_assoc, <- Hl1. by rewrite take_drop.
  - intros (l1 & l2 & ->). exists (length (l1 ++ d)). split.
    + apply in_seq. rewrite !length_app. lia.
    + apply endswith_suffix. rewrite app_assoc, take_app_length. by exists l1.
Qed.

Lemma occurs_inb_false (d s : bitstring) :
  occurs_inb d s = false → ¬ occurs_in d s.
Proof. intros H Ho. apply occurs_inb_spec in Ho. congruence. Qed.

(** *** Bytes and binary digits *)

Example format_08b_A :
  format_08b "A"%byte = [false; true; false; false; false; false; false; true].
Proof. reflexivity. Qed.

Example to_binary_hi : bytes_of_binary (to_binary ["h"; "i"]%byte) = ["h"; "i"]%byte.
Proof. reflexivity. Qed.

Example endswith_delimiter :
  endswith ([false; true] ++ delimiter) delimiter = true ∧
  endswith (replicate 16 true) delimiter = false.
Proof. split; reflexivity. Qed.

Lemma byte_of_format_08b (b : byte) :
  byte_of_Z (int_base2 (format_08b b)) = b.
Proof. destruct b; reflexivity. Qed.

Lemma length_format_08b (b : byte) : length (format_08b b) = 8%nat.
Proof. reflexivity. Qed.

Lemma to_binary_cons (b : byte) (data : list byte) :
  to_binary (b :: data) = format_08b b ++ to_binary data.
Proof. reflexivity. Qed.

Lemma length_to_binary (data : list byte) :
  length (to_binary data) = (8 * length data)%nat.
Proof.
  induction data as [|b data IH]; [done|].
  rewrite to_binary_cons, length_app, length_format_08b, IH. cbn [length]. lia.
Qed.

Lemma bytes_of_to_binary (data : list byte) :
  bytes_of_binary (to_binary data) = data.
Proof.
  induction data as [|b data IH]; [done|].
  rewrite to_binary_cons.
  change (format_08b b ++ to_binary data) with
    (let n := Z.of_N (Byte.to_N b) in
     Z.testbit n 7 :: Z.testbit n 6 :: Z.testbit n 5 :: Z.testbit n 4 ::
     Z.testbit n 3 :: Z.testbit n 2 :: Z.testbit n 1 :: Z.testbit n 0 ::
     to_binary data).
  cbv zeta. cbn [bytes_of_binary]. rewrite IH. f_equal.
  apply (byte_of_format_08b b).
Qed.

Lemma pad_to_binary (data : list byte) :
  pad_to_byte (to_binary data) = to_binary data.
Proof.
  unfold pad_to_byte. rewrite length_to_binary.
  replace (8 * length data)%nat with (length data * 8)%nat by lia.
  by rewrite Nat.Div0.mod_mul.
Qed.

(** *** The embedding loop *)

Lemma lsb_set_lsb (p : Z) (bit : bool) : lsb (set_lsb p bit) = bit.
Proof.
  unfold lsb, set_lsb. rewrite Z.land_lor_distr_l, <- Z.land_assoc.
  change (Z.land 254 1) with 0. rewrite Z.land_0_r, Z.lor_0_l.
  by destruct bit.
Qed.

Lemma testbit_set_lsb (p : Z) (bit : bool) (j : Z) :
  0 ≤ p < 256 → 0 < j → Z.testbit (set_lsb p bit) j = Z.testbit p j.
Proof.
  intros Hp Hj. unfold set_lsb. rewrite Z.lor_spec, Z.land_spec.
  replace (Z.testbit (Z.b2z bit) j) with false.
  2:{ symmetry. destruct bit; cbn; [|apply Z.bits_0].
      destruct j; try lia. reflexivity. }
  rewrite orb_false_r.
  destruct (decide (j < 8)) as [Hlt|Hge].
  - replace (Z.testbit 254 j) with true; [by rewrite andb_true_r|].
    assert (j = 1 ∨ j = 2 ∨ j = 3 ∨ j = 4 ∨ j = 5 ∨ j = 6 ∨ j = 7) as Hc by lia.
    by destruct Hc as [->|[->|[->|[->|[->|[->| ->]]]]]].
  - replace (Z.testbit p j) with false; [done|].
    symmetry. destruct (decide (p = 0)) as [->|Hne]; [apply Z.bits_0|].
    apply Z.bits_above_log2; [lia|].
    assert (Z.log2 p < 8); [|lia]. apply Z.log2_lt_pow2; lia.
Qed.


(** The loop rewrites exactly the values under the digits written. *)
Lemma embed_loop_middle (bits : bitstring) (pre mid post : list Z) :
  length mid = length bits →
  embed_loop (length pre) bits (pre ++ mid ++ post)
  = inr (pre ++ zip_with set_lsb mid bits ++ post).
Proof.
  revert pre mid. induction bits as [|bit bits IH]; intros pre mid Hlen.
  - destruct mid; [done|discriminate].
  - destruct mid as [|p mid]; [discriminate|]. cbn [embed_loop].
    cbn [app]. rewrite list_lookup_middle by done.
    rewrite insert_app_r_alt, Nat.sub_diag by done. cbn [insert list_insert].
    specialize (IH (pre ++ [set_lsb p bit]) mid).
    rewrite length_app in IH. cbn [length] in IH.
    replace (length pre + 1)%nat with (S (length pre)) in IH by lia.
    rewrite <- !app_assoc in IH. cbn [app] in IH.
    rewrite IH by (cbn in Hlen; lia). reflexivity.
Qed.

Lemma embed_loop_fits (bits : bitstring) (flat_img : list Z) :
  (length bits ≤ length flat_img)%nat →
  embed_loop 0 bits flat_img
  = inr (zip_with set_lsb (take (length bits) flat_img) bits
         ++ drop (length bits) flat_img).
Proof.
  intros Hle.
  rewrite <- (take_drop (length bits) flat_img) at 1.
  apply (embed_loop_middle bits []). rewrite length_take. lia.
Qed.

Lemma fmap_lsb_zip (mid : list Z) (bits : bitstring) :
  length mid = length bits → lsb <$> zip_with set_lsb mid bits = bits.
Proof.
  revert mid. induction bits as [|b bits IH]; intros [|p mid] Hlen;
    try done. cbn. rewrite lsb_set_lsb. f_equal. apply IH. cbn in Hlen. lia.
Qed.

(** *** The extraction loop *)

(** While no prefix read so far ends with the delimiter the loop goes on;
    at the first prefix that does, it returns what precedes the delimiter. *)
Lemma extract_loop_found (s : bitstring) :
  ∀ (flat_img : list Z) (acc tail : bitstring) (b : bool),
    lsb <$> flat_img = s ++ b :: tail →
    (∀ k, (0 < k ≤ length s)%nat → endswith (acc ++ take k s) delimiter = false) →
    endswith (acc ++ s ++ [b]) delimiter = true →
    extract_loop flat_img acc
    = take (length (acc ++ s ++ [b]) - length delimiter) (acc ++ s ++ [b]).
Proof.
  induction s as [|x s IH]; intros flat_img acc tail b Hflat Hno Hyes.
  - destruct flat_img as [|p rest]; [discriminate|].
    cbn in Hflat. injection Hflat as Hp _. cbn [extract_loop app] in *.
    subst b. by rewrite Hyes.
  - destruct flat_img as [|p rest]; [discriminate|].
    cbn in Hflat. injection Hflat as Hp Hrest. cbn [extract_loop].
    rewrite Hp. specialize (Hno 1%nat) as H1. cbn [take] in H1.
    rewrite take_0 in H1. rewrite H1 by (cbn; lia).
    rewrite (IH rest (acc ++ [x]) tail b Hrest).
    + by rewrite <- !app_assoc.
    + intros k Hk. specialize (Hno (S k)). cbn [take] in Hno.
      rewrite <- app_assoc. apply Hno. cbn. lia.
    + by rewrite <- app_assoc.
Qed.

(** When no prefix ever ends with the delimiter, the loop runs to the end
    of the values and keeps every bit read. *)
Lemma extract_loop_exhausted (flat_img : list Z) :
  ∀ acc : bitstring,
    (∀ k, (0 < k ≤ length flat_img)%nat →
          endswith (acc ++ take k (lsb <$> flat_img)) delimiter = false) →
    extract_loop flat_img acc = acc ++ (lsb <$> flat_img).
Proof.
  induction flat_img as [|p rest IH]; intros acc Hno.
  - cbn. by rewrite app_nil_r.
  - cbn [extract_loop]. specialize (Hno 1%nat) as H1.
    cbn [fmap list_fmap take] in H1. rewrite take_0 in H1.
    rewrite H1 by (cbn; lia). rewrite IH.
    + by rewrite <- app_assoc.
    + intros k Hk. specialize (Hno (S k)). rewrite <- app_assoc. apply Hno.
      cbn. lia.
Qed.

(** Once some prefix read ends with the delimiter, what the loop returns
    is at least sixteen digits shorter than that prefix. *)
Lemma extract_loop_bound (flat_img : list Z) :
  ∀ (acc : bitstring) (k : nat),
    (0 < k ≤ length flat_img)%nat →
    endswith (acc ++ take k (lsb <$> flat_img)) delimiter = true →
    (length (extract_loop flat_img acc) + 16 ≤ length acc + k)%nat.
Proof.
  induction flat_img as [|p rest IH]; intros acc k Hk Hend; [cbn in Hk; lia|].
  cbn [extract_loop].
  destruct (endswith (acc ++ [lsb p]) delimiter) eqn:Hnow.
  - apply endswith_suffix in Hnow as [front Hfront].
    apply (f_equal length) in Hfront. rewrite !length_app in Hfront.
    rewrite length_take, length_app.
    change (length delimiter) with 16%nat in *. cbn [length] in *.
    lia.
  - destruct k as [|[|k]]; [lia| |].
    + cbn [fmap list_fmap take] in Hend. rewrite take_0 in Hend. congruence.
    + specialize (IH (acc ++ [lsb p]) (S k)).
      rewrite length_app in IH. cbn [length] in *.
      rewrite <- app_assoc in IH. cbn [fmap list_fmap take app] in *.
      specialize (IH ltac:(lia) Hend). lia.
Qed.

Lemma length_bytes_of_binary (l : bitstring) :
  (8 * length (bytes_of_binary l) ≤ length l)%nat.
Proof.
  induction l as [l IH] using (induction_ltof1 _ length). unfold ltof in IH.
  destruct l as [|b7 [|b6 [|b5 [|b4 [|b3 [|b2 [|b1 [|b0 rest]]]]]]]];
    cbn [bytes_of_binary length]; try lia.
  specialize (IH rest). cbn [length] in IH. lia.
Qed.

Lemma length_pad_to_byte (l : bitstring) :
  (length (pad_to_byte l) < length l + 8)%nat.
Proof.
  unfold pad_to_byte. destruct (_ =? _)%nat eqn:Hmod; [lia|].
  apply Nat.eqb_neq in Hmod. rewrite length_app, length_replicate. lia.
Qed.

Lemma last_delimiter (l : bitstring) :
  delimiter `suffix_of` l → last l = Some false.
Proof. intros [k ->]. unfold delimiter. by rewrite !app_assoc, last_snoc. Qed.

(** In payload digits followed by at most fifteen ones, a prefix ends with
    the delimiter only if the delimiter lies within the payload digits. *)
Lemma no_early_delimiter (pb : bitstring) (k : nat) :
  ¬ occurs_in delimiter pb →
  endswith (take k (pb ++ replicate 15 true)) delimiter = false.
Proof.
  intros Hno. apply endswith_false_not_suffix. intros Hsuf.
  destruct (decide (k ≤ length pb)%nat) as [Hk|Hk].
  - rewrite take_app_le in Hsuf by done. destruct Hsuf as [l1 Hl1].
    apply Hno. exists l1, (drop k pb).
    by rewrite app_assoc, <- Hl1, take_drop.
  - apply last_delimiter in Hsuf.
    rewrite take_app_ge in Hsuf by lia. rewrite take_replicate in Hsuf.
    destruct (Nat.min (k - length pb) 15) as [|j] eqn:Hj; [lia|].
    rewrite replicate_S_end, app_assoc, last_snoc in Hsuf. discriminate.
Qed.

Section FileProperties.

Variable can_write : string → bool.

Lemma length_binary_data (data : list byte) :
  length (to_binary data ++ delimiter) = (8 * length data + 16)%nat.
Proof. rewrite length_app, length_to_binary. reflexivity. Qed.

Lemma embed_fits fs image_path data output_path img :
  fs !! image_path = Some img →
  wf_image img →
  can_write output_path = true →
  (8 * length data + 16 ≤ total_pixels img)%nat →
  embed_data_in_image can_write fs image_path data output_path
  = (true, None, <[output_path := stego_of img data]> fs).
Proof.
  intros Hread [Hlen _] Hw Hcap.
  unfold embed_data_in_image, embed_try, imread, imwrite. rewrite Hread.
  cbv zeta. rewrite bool_decide_eq_false_2
    by (rewrite length_binary_data; lia).
  rewrite embed_loop_fits
    by (rewrite length_binary_data, Hlen; unfold total_pixels in Hcap; lia).
  by rewrite Hw.
Qed.

Lemma embed_too_small fs image_path data output_path img :
  fs !! image_path = Some img →
  (total_pixels img < 8 * length data + 16)%nat →
  embed_data_in_image can_write fs image_path data output_path
  = (false, Some (ValueError "Image too small to hold the data"), fs).
Proof.
  intros Hread Hcap.
  unfold embed_data_in_image, embed_try, imread. rewrite Hread. cbv zeta.
  by rewrite bool_decide_eq_true_2 by (rewrite length_binary_data; lia).
Qed.

Lemma fmap_lsb_stego (img : image) (data : list byte) :
  (8 * length data + 16 ≤ length (flat img))%nat →
  lsb <$> flat (stego_of img data)
  = (to_binary data ++ replicate 15 true) ++
    false :: (lsb <$> drop (8 * length data + 16) (flat img)).
Proof.
  intros Hcap. unfold stego_of. cbn [flat].
  rewrite fmap_app, fmap_lsb_zip
    by (rewrite length_take, length_binary_data; lia).
  rewrite length_binary_data. unfold delimiter.
  by rewrite <- !app_assoc.
Qed.

(** C5: embedding succeeds exactly when the payload digits plus the 16
    delimiter digits fit in width*height*channels values; beyond that it
    fails with the capacity error, raised before any value is written, and
    the files (the carrier among them) are as they were. *)
Theorem capacity_boundary fs image_path data output_path img :
  fs !! image_path = Some img →
  wf_image img →
  can_write output_path = true →
  ((8 * length data + 16 ≤ rows img * cols img * channels img)%nat →
     ∃ fs', embed_data_in_image can_write fs image_path data output_path
            = (true, None, fs')) ∧
  ((rows img * cols img * channels img < 8 * length data + 16)%nat →
     embed_data_in_image can_write fs image_path data output_path
     = (false, Some (ValueError "Image too small to hold the data"), fs)).
Proof.
  intros Hread Hwf Hw. split; intros Hcap.
  - eexists. by apply (embed_fits fs image_path data output_path img).
  - by apply (embed_too_small fs image_path data output_path img).
Qed.

(** C9: a fitting embed writes an image of the carrier's dimensions and
    channel count; in the first payloadBits+16 values only the least
    significant bit can differ, and every later value is the carrier's. *)
Theorem embed_frame fs image_path data output_path img :
  fs !! image_path = Some img →
  wf_image img →
  can_write output_path = true →
  (8 * length data + 16 ≤ rows img * cols img * channels img)%nat →
  ∃ stego,
    embed_data_in_image can_write fs image_path data output_path
    = (true, None, <[output_path := stego]> fs) ∧
    rows stego = rows img ∧ cols stego = cols img ∧
    channels stego = channels img ∧
    length (flat stego) = length (flat img) ∧
    ∀ i p q, flat img !! i = Some p → flat stego !! i = Some q →
      (∀ j, 0 < j → Z.testbit q j = Z.testbit p j) ∧
      ((8 * length data + 16 ≤ i)%nat → q = p).
Proof.
  intros Hread Hwf Hw Hcap. exists (stego_of img data).
  split; [by apply embed_fits|]. do 3 (split; [done|]).
  destruct Hwf as [Hlen Hrange].
  assert (8 * length data + 16 ≤ length (flat img))%nat as Hcap' by lia.
  unfold stego_of. cbn [flat]. rewrite length_binary_data.
  set (n := (8 * length data + 16)%nat) in *.
  set (bits := to_binary data ++ delimiter).
  assert (length bits = n) as Hbits by apply length_binary_data.
  assert (length (zip_with set_lsb (take n (flat img)) bits) = n) as Hz.
  { rewrite length_zip_with, length_take. lia. }
  split.
  - rewrite length_app, Hz, length_drop. lia.
  - intros i p q Hp Hq. destruct (decide (i < n)%nat) as [Hi|Hi].
    + split; [|lia]. intros j Hj.
      rewrite lookup_app_l in Hq by lia.
      apply lookup_zip_with_Some in Hq as (p' & b & -> & Hp' & _).
      rewrite lookup_take_lt in Hp' by done.
      assert (p' = p) as -> by congruence.
      apply testbit_set_lsb; [|done].
      eapply Forall_lookup_1 in Hrange; [|exact Hp]. done.
    + rewrite lookup_app_r in Hq by lia. rewrite Hz, lookup_drop in Hq.
      replace (n + (i - n))%nat with i in Hq by lia.
      assert (q = p) as -> by congruence. done.
Qed.

Lemma extract_stego (img : image) (data : list byte) :
  (8 * length data + 16 ≤ length (flat img))%nat →
  ¬ occurs_in delimiter (to_binary data) →
  extract_loop (flat (stego_of img data)) [] = to_binary data.
Proof.
  intros Hcap Hno.
  rewrite (extract_loop_found (to_binary data ++ replicate 15 true)
             _ [] _ false (fmap_lsb_stego img data Hcap)).
  - cbn [app]. rewrite <- app_assoc.
    change (replicate 15 true ++ [false]) with delimiter.
    apply take_app_length'. rewrite length_app. cbn. lia.
  - intros k _. cbn [app]. by apply no_early_delimiter.
  - cbn [app]. apply endswith_suffix. rewrite <- app_assoc.
    by exists (to_binary data).
Qed.

(** C1 (as amended): a payload whose binary digits do not contain the
    delimiter pattern, embedded in any carrier with room for its digits and
    the 16 delimiter digits, is extracted again byte for byte, whatever the
    carrier holds. *)
Theorem embed_extract_roundtrip fs image_path data output_path img :
  fs !! image_path = Some img →
  wf_image img →
  can_write output_path = true →
  (8 * length data + 16 ≤ rows img * cols img * channels img)%nat →
  ¬ occurs_in delimiter (to_binary data) →
  ∃ fs',
    embed_data_in_image can_write fs image_path data output_path
    = (true, None, fs') ∧
    extract_data_from_image fs' output_path = Some data.
Proof.
  intros Hread Hwf Hw Hcap Hno.
  exists (<[output_path := stego_of img data]> fs).
  split; [by apply embed_fits|].
  unfold extract_data_from_image, imread. rewrite lookup_insert_eq.
  cbv zeta. rewrite extract_stego; [|destruct Hwf; lia|done].
  by rewrite pad_to_binary, bytes_of_to_binary.
Qed.

(** The condition of the round trip cannot be dropped: a payload whose
    digits do contain the delimiter pattern embeds, and comes back
    shorter. *)
Lemma embed_extract_truncates fs image_path data output_path img :
  fs !! image_path = Some img →
  wf_image img →
  can_write output_path = true →
  (8 * length data + 16 ≤ rows img * cols img * channels img)%nat →
  occurs_in delimiter (to_binary data) →
  ∃ fs' out,
    embed_data_in_image can_write fs image_path data output_path
    = (true, None, fs') ∧
    extract_data_from_image fs' output_path = Some out ∧
    (length out < length data)%nat.
Proof.
  intros Hread Hwf Hw Hcap (l1 & l2 & Hocc).
  exists (<[output_path := stego_of img data]> fs). eexists.
  split; [by apply embed_fits|].
  unfold extract_data_from_image, imread. rewrite lookup_insert_eq.
  split; [reflexivity|].
  assert (8 * length data + 16 ≤ length (flat img))%nat as Hcap'
    by (destruct Hwf; lia).
  pose proof (length_to_binary data) as Hlen.
  assert (length l1 + 16 ≤ 8 * length data)%nat as Hk.
  { rewrite <- Hlen, Hocc, !length_app. cbn. lia. }
  pose proof (extract_loop_bound (flat (stego_of img data)) []
                (length l1 + 16)%nat) as Hb.
  rewrite fmap_lsb_stego in Hb by done. cbn [app length] in Hb.
  rewrite <- app_assoc, take_app_le, Hocc in Hb by lia.
  rewrite app_assoc, take_app_length' in Hb by (rewrite length_app; done).
  specialize (Hb ltac:(unfold stego_of; cbn [flat];
                       rewrite length_app, length_zip_with, length_take,
                         length_drop, length_binary_data; lia)
                 ltac:(apply endswith_suffix; by exists l1)).
  pose proof (length_bytes_of_binary
                (pad_to_byte (extract_loop (flat (stego_of img data)) []))).
  pose proof (length_pad_to_byte (extract_loop (flat (stego_of img data)) [])).
  lia.
Qed.

End FileProperties.

(** C4 (as amended): when the LSBs of a stego image never contain the
    delimiter pattern, extraction does not fail: it returns every LSB of
    the image, filled up with zero digits to a whole number of bytes. *)
Theorem extract_without_delimiter fs image_path img :
  fs !! image_path = Some img →
  ¬ occurs_in delimiter (lsb <$> flat img) →
  extract_data_from_image fs image_path
  = Some (bytes_of_binary (pad_to_byte (lsb <$> flat img))).
Proof.
  intros Hread Hno. unfold extract_data_from_image, imread. rewrite Hread.
  cbv zeta. rewrite extract_loop_exhausted; [done|].
  intros k _. cbn [app]. apply endswith_false_not_suffix. intros [l1 Hl1].
  apply Hno. exists l1, (drop k (lsb <$> flat img)).
  by rewrite app_assoc, <- Hl1, take_drop.
Qed.

Lemma wf_carrier_4x4 : wf_image carrier_4x4.
Proof. split; [reflexivity|]. repeat constructor; vm_compute; congruence. Qed.

Lemma capacity_boundary_witness :
  (∃ fs', embed_data_in_image any_path {[ "carrier.png" := carrier_4x4 ]}
            "carrier.png" ["001"; "002"; "003"; "004"]%byte "stego.png"
          = (true, None, fs')) ∧
  embed_data_in_image any_path {[ "carrier.png" := carrier_4x4 ]}
    "carrier.png" ["001"; "002"; "003"; "004"; "005"]%byte "stego.png"
  = (false, Some (ValueError "Image too small to hold the data"),
     {[ "carrier.png" := carrier_4x4 ]}).
Proof.
  split.
  - apply (capacity_boundary any_path {[ "carrier.png" := carrier_4x4 ]}
             "carrier.png" ["001"; "002"; "003"; "004"]%byte "stego.png"
             carrier_4x4);
      [reflexivity | exact wf_carrier_4x4 | reflexivity | vm_compute; lia].
  - apply (capacity_boundary any_path {[ "carrier.png" := carrier_4x4 ]}
             "carrier.png" ["001"; "002"; "003"; "004"; "005"]%byte "stego.png"
             carrier_4x4);
      [reflexivity | exact wf_carrier_4x4 | reflexivity | vm_compute; lia].
Defined.

Lemma embed_frame_witness :
  ∃ stego,
    embed_data_in_image any_path {[ "carrier.png" := carrier_4x4 ]}
      "carrier.png" ["001"; "002"]%byte "stego.png"
    = (true, None,
       <["stego.png" := stego]> {[ "carrier.png" := carrier_4x4 ]}) ∧
    rows stego = rows carrier_4x4 ∧ cols stego = cols carrier_4x4 ∧
    channels stego = channels carrier_4x4 ∧
    length (flat stego) = length (flat carrier_4x4) ∧
    ∀ i p q, flat carrier_4x4 !! i = Some p → flat stego !! i = Some q →
      (∀ j, 0 < j → Z.testbit q j = Z.testbit p j) ∧
      ((8 * length ["001"; "002"]%byte + 16 ≤ i)%nat → q = p).
Proof.
  apply (embed_frame any_path {[ "carrier.png" := carrier_4x4 ]}
           "carrier.png" ["001"; "002"]%byte "stego.png" carrier_4x4).
  - reflexivity.
  - exact wf_carrier_4x4.
  - reflexivity.
  - vm_compute. lia.
Defined.

Lemma embed_extract_roundtrip_witness :
  ∃ fs',
    embed_data_in_image any_path {[ "carrier.png" := carrier_4x4 ]}
      "carrier.png" ["001"; "255"; "255"]%byte "stego.png"
    = (true, None, fs') ∧
    extract_data_from_image fs' "stego.png" = Some ["001"; "255"; "255"]%byte.
Proof.
  apply (embed_extract_roundtrip any_path {[ "carrier.png" := carrier_4x4 ]}
           "carrier.png" ["001"; "255"; "255"]%byte "stego.png" carrier_4x4).
  - reflexivity.
  - exact wf_carrier_4x4.
  - reflexivity.
  - vm_compute. lia.
  - apply occurs_inb_false. vm_compute. reflexivity.
Defined.

(** The payload FF FE is itself the delimiter pattern: it fits in the 4x4
    carrier, the embed succeeds, and the extraction stops at the payload's
    own digits and returns no byte at all. *)
Lemma roundtrip_counterexample :
  wf_image carrier_4x4 ∧
  (8 * length ["255"; "254"]%byte + 16 ≤ 4 * 4 * 3)%nat ∧
  (embed_data_in_image any_path {[ "carrier.png" := carrier_4x4 ]}
     "carrier.png" ["255"; "254"]%byte "stego.png").1 = (true, None) ∧
  extract_data_from_image
    (embed_data_in_image any_path {[ "carrier.png" := carrier_4x4 ]}
       "carrier.png" ["255"; "254"]%byte "stego.png").2 "stego.png"
  = Some [] ∧
  Some [] ≠ Some ["255"; "254"]%byte.
Proof.
  split; [exact wf_carrier_4x4|]. split; [vm_compute; lia|].
  split; [vm_compute; reflexivity|]. split; [vm_compute; reflexivity|].
  discriminate.
Qed.

Lemma extract_without_delimiter_witness :
  extract_data_from_image {[ "stego.png" := pixel_1x1 ]} "stego.png"
  = Some (bytes_of_binary (pad_to_byte (lsb <$> flat pixel_1x1))).
Proof.
  apply (extract_without_delimiter {[ "stego.png" := pixel_1x1 ]}
           "stego.png" pixel_1x1).
  - reflexivity.
  - apply occurs_inb_false. vm_compute. reflexivity.
Defined.

(** The three LSBs 0, 0, 1 of a 1x1 image hold no delimiter; extraction
    still succeeds and returns the byte 00100000, five digits of which are
    filler. *)
Lemma delimiter_not_found_counterexample :
  ¬ occurs_in delimiter (lsb <$> flat pixel_1x1) ∧
  extract_data_from_image {[ "stego.png" := pixel_1x1 ]} "stego.png"
  = Some ["032"%byte].
Proof.
  split; [apply occurs_inb_false; vm_compute; reflexivity|].
  vm_compute. reflexivity.
Qed.

End CodecProofs.

Module BiometricProofs.
Import Biometric.

Local Open Scope float_scope.
Local Set Warnings "-inexact-float".

Lemma cosine_sums_step (vec1 vec2 : list float) (n : nat) :
  ∀ (k : nat) (d n1 n2 : float),
    (k + n ≤ length vec1)%nat → (k + n ≤ length vec2)%nat →
    ∃ d',
      foldl (cosine_step vec1 vec2) (d, n1, n2) (seq k n)
      = (d', foldl (fun acc x => acc + x * x) n1 (take n (drop k vec1)),
             foldl (fun acc x => acc + x * x) n2 (take n (drop k vec2))).
Proof.
  induction n as [|n IH]; intros k d n1 n2 H1 H2.
  - exists d. reflexivity.
  - destruct (lookup_lt_is_Some_2 vec1 k) as [a Ha]; [lia|].
    destruct (lookup_lt_is_Some_2 vec2 k) as [b Hb]; [lia|].
    cbn [seq foldl]. unfold cosine_step at 2. rewrite Ha, Hb. cbn [default].
    rewrite (drop_S _ _ _ Ha), (drop_S _ _ _ Hb). cbn [take foldl].
    apply IH; lia.
Qed.

Lemma cosine_sums_norms (vec1 vec2 : list float) :
  length vec1 = length vec2 →
  ∃ d, cosine_sums vec1 vec2
       = (d, foldl (fun acc x => acc + x * x) 0 vec1,
             foldl (fun acc x => acc + x * x) 0 vec2).
Proof.
  intros Hlen. unfold cosine_sums.
  destruct (cosine_sums_step vec1 vec2 (length vec1) 0%nat 0 0 0) as [d Hd];
    [lia|lia|].
  exists d. rewrite Hd, !drop_0, firstn_all. rewrite Hlen at 1.
  by rewrite firstn_all.
Qed.

(** C10: on vectors of equal length of which one has norm zero,
    [compareFeatures] succeeds with similarity exactly 0 and no match; the
    division is not reached, and 0 is below both thresholds. *)
Theorem compareFeatures_zero_norm (v1 v2 : list float) (type : string) :
  length v1 = length v2 →
  (norm v1 =? 0) = true ∨ (norm v2 =? 0) = true →
  compareFeatures (Some v1) (Some v2) type
  = Success (Comparison 0 (if String.eqb type "fingerprint" then 0.85 else 0.90)
               false 0)
  ∧ (0.85 <=? 0) = false ∧ (0.90 <=? 0) = false.
Proof.
  intros Hlen Hzero. split; [|split; reflexivity].
  unfold compareFeatures. rewrite Hlen, Nat.eqb_refl. cbn [negb].
  unfold cosineSimilarity.
  destruct (cosine_sums_norms v1 v2 Hlen) as [d ->].
  fold (norm v1) (norm v2).
  replace ((norm v1 =? 0) || (norm v2 =? 0)) with true
    by (symmetry; apply orb_true_iff; exact Hzero).
  by destruct (String.eqb type "fingerprint").
Qed.

Lemma norm_zero_vector (n : nat) : norm (replicate n 0) = 0.
Proof.
  unfold norm. replace (foldl _ 0 (replicate n 0)) with 0; [reflexivity|].
  induction n as [|n IH]; [reflexivity|]. exact IH.
Qed.

Lemma compareFeatures_zero_norm_witness :
  compareFeatures (Some [0; 0; 0]) (Some [0.5; -1; 2]) "face"
  = Success (Comparison 0 (if String.eqb "face" "fingerprint" then 0.85 else 0.90)
               false 0)
  ∧ (0.85 <=? 0) = false ∧ (0.90 <=? 0) = false.
Proof.
  apply (compareFeatures_zero_norm [0; 0; 0] [0.5; -1; 2] "face").
  - reflexivity.
  - left. reflexivity.
Defined.

(** *** The quality gate *)

(** A vector of 512 copies of the feature one digest byte gives has
    quality exactly 0: the 512 equal single-precision values add up
    without rounding, so the mean is the value itself. *)
Lemma quality_of_constant_byte (b : byte) (type : string) :
  assessQuality (replicate 512 (fround (float_of_byte b / 255 * 2 - 1))) type = 0.
Proof. destruct b; vm_compute; reflexivity. Qed.

Section ServiceProperties.

Variable sha256 : list byte → list byte.
Variable hash_features : list float → string.

Lemma length_generateMockFeatures (data : list byte) (type : string) :
  length (generateMockFeatures sha256 data type) = 512%nat.
Proof. unfold generateMockFeatures. by rewrite length_fmap, length_seq. Qed.

Lemma quality_of_equal_features (data : list byte) (type : string) (x : float) :
  length (sha256 data) = 32%nat →
  generateMockFeatures sha256 data type = replicate 512 x →
  assessQuality (generateMockFeatures sha256 data type) type = 0.
Proof.
  intros Hlen Heq. rewrite Heq.
  destruct (sha256 data) as [|b rest] eqn:Hd; [discriminate|].
  assert (x = fround (float_of_byte b / 255 * 2 - 1)) as ->.
  { assert (generateMockFeatures sha256 data type !! 0%nat = Some x) as H0
      by (by rewrite Heq).
    unfold generateMockFeatures in H0. rewrite Hd in H0.
    change (seq 0 512) with (0%nat :: seq 1 511) in H0.
    rewrite fmap_cons, Nat.Div0.mod_0_l in H0.
    cbn [lookup list_lookup] in H0. congruence. }
  apply quality_of_constant_byte.
Qed.

(** C8 (as amended): [verifyBiometric] checks in this order: the
    integrity hash of the stored template, the comparison of the two
    vectors, the quality of the extracted one.  A stored template whose
    hash does not match is refused with the integrity error, and one whose
    dimension is not that of the extracted vector with the dimension error
    of the comparison, whatever the quality score is; when both pass, a
    quality score below 0.5 rejects with the low-quality error, whatever
    the similarity, and a score that is not below 0.5 gives the verdict of
    the comparison; and an extracted vector whose components are all equal
    has quality score 0, so it is rejected in that way. *)
Theorem quality_gate (data : list byte) (tmpl : template) (type : string)
    (now : Z) :
  let feats := generateMockFeatures sha256 data type in
  let sim := cosineSimilarity feats (features tmpl) in
  let thr := if String.eqb type "fingerprint" then 0.85 else 0.90 in
  (hash_features (features tmpl) ≠ hash tmpl →
     verifyBiometric sha256 hash_features data tmpl type now
     = Failed "Template integrity check failed" None)
  ∧
  (hash_features (features tmpl) = hash tmpl →
   length (features tmpl) ≠ 512%nat →
     verifyBiometric sha256 hash_features data tmpl type now
     = Failed "Feature vector dimension mismatch" None)
  ∧
  (hash_features (features tmpl) = hash tmpl →
   length (features tmpl) = 512%nat →
   (assessQuality feats type <? 0.5) = true →
     verifyBiometric sha256 hash_features data tmpl type now
     = Failed "Biometric quality too low" (Some (assessQuality feats type)))
  ∧
  (hash_features (features tmpl) = hash tmpl →
   length (features tmpl) = 512%nat →
   (assessQuality feats type <? 0.5) = false →
     verifyBiometric sha256 hash_features data tmpl type now
     = Success (Verification (thr <=? sim) sim sim thr
                  (assessQuality feats type) now))
  ∧
  (length (sha256 data) = 32%nat → (∃ x, feats = replicate 512 x) →
     assessQuality feats type = 0 ∧
     (hash_features (features tmpl) = hash tmpl →
      length (features tmpl) = 512%nat →
        verifyBiometric sha256 hash_features data tmpl type now
        = Failed "Biometric quality too low" (Some 0))).
Proof.
  intros feats sim thr.
  assert (hash_features (features tmpl) = hash tmpl →
          length (features tmpl) = 512%nat →
          verifyBiometric sha256 hash_features data tmpl type now
          = if assessQuality feats type <? 0.5
            then Failed "Biometric quality too low"
                   (Some (assessQuality feats type))
            else Success (Verification (thr <=? sim) sim sim thr
                            (assessQuality feats type) now)) as Hgate.
  { intros Hhash Hdim. unfold verifyBiometric, extractFeatures. fold feats.
    rewrite Hhash, String.eqb_refl. cbn [negb].
    unfold compareFeatures. unfold feats at 1.
    rewrite length_generateMockFeatures, Hdim. cbn [Nat.eqb negb].
    cbv zeta. cbn [is_match confidence similarity threshold]. reflexivity. }
  split; [|split; [|split; [|split]]].
  - intros Hne. unfold verifyBiometric, extractFeatures.
    by rewrite (proj2 (String.eqb_neq _ _) Hne).
  - intros Hhash Hdim. unfold verifyBiometric, extractFeatures.
    rewrite Hhash, String.eqb_refl. cbn [negb].
    unfold compareFeatures. rewrite length_generateMockFeatures.
    assert ((512 =? length (features tmpl))%nat = false) as ->
      by (apply Nat.eqb_neq; congruence).
    reflexivity.
  - intros Hhash Hdim Hq. by rewrite Hgate, Hq.
  - intros Hhash Hdim Hq. by rewrite Hgate, Hq.
  - intros Hlen [x Hx].
    pose proof (quality_of_equal_features data type x Hlen Hx) as Hq0.
    fold feats in Hq0. split; [exact Hq0|].
    intros Hhash Hdim. rewrite Hgate by done. by rewrite Hq0.
Qed.

End ServiceProperties.

Lemma quality_gate_witness :
  let good := Template (replicate 512 1) (count_hash (replicate 512 1)) in
  let forged := Template (replicate 512 1) "other" in
  let short := Template [1] (count_hash [1]) in
  let feats := generateMockFeatures zero_digest [] "face" in
  let feats' := generateMockFeatures narrow_digest [] "face" in
  verifyBiometric zero_digest count_hash [] forged "face" 1000
  = Failed "Template integrity check failed" None
  ∧ verifyBiometric zero_digest count_hash [] short "face" 1000
    = Failed "Feature vector dimension mismatch" None
  ∧ verifyBiometric zero_digest count_hash [] good "face" 1000
    = Failed "Biometric quality too low" (Some (assessQuality feats "face"))
  ∧ assessQuality feats "face" = 0
  ∧ verifyBiometric zero_digest count_hash [] good "face" 1000
    = Failed "Biometric quality too low" (Some 0)
  ∧ (0 <? assessQuality feats' "face") = true
  ∧ verifyBiometric narrow_digest count_hash [] good "face" 1000
    = Failed "Biometric quality too low" (Some (assessQuality feats' "face")).
Proof.
  intros good forged short feats feats'.
  split; [|split; [|split; [|split; [|split; [|split]]]]].
  - apply (proj1 (quality_gate zero_digest count_hash [] forged "face" 1000)).
    vm_compute. discriminate.
  - apply (proj1 (proj2 (quality_gate zero_digest count_hash [] short "face"
                           1000))).
    + reflexivity.
    + vm_compute. discriminate.
  - apply (proj1 (proj2 (proj2 (quality_gate zero_digest count_hash [] good
                                  "face" 1000)))).
    + reflexivity.
    + reflexivity.
    + vm_compute. reflexivity.
  - apply (proj2 (proj2 (proj2 (proj2 (quality_gate zero_digest count_hash []
                                         good "face" 1000))))).
    + reflexivity.
    + exists (-1). vm_compute. reflexivity.
  - apply (proj2 (proj2 (proj2 (proj2 (quality_gate zero_digest count_hash []
                                         good "face" 1000))))).
    + reflexivity.
    + exists (-1). vm_compute. reflexivity.
    + reflexivity.
    + reflexivity.
  - vm_compute. reflexivity.
  - apply (proj1 (proj2 (proj2 (quality_gate narrow_digest count_hash [] good
                                  "face" 1000)))).
    + reflexivity.
    + reflexivity.
    + vm_compute. reflexivity.
Defined.

(** The extracted vector has all components equal and quality 0.  Against
    a stored template whose hash is intact and which has a single feature,
    the comparison runs first and its dimension error is what is returned;
    against one whose hash does not match, the integrity error is. *)
Lemma quality_gate_counterexample :
  let tmpl := Template [1] (count_hash [1]) in
  let forged := Template (replicate 512 1) "other" in
  let feats := generateMockFeatures zero_digest [] "face" in
  feats = replicate 512 (-1) ∧
  assessQuality feats "face" = 0 ∧
  verifyBiometric zero_digest count_hash [] tmpl "face" 1000
  = Failed "Feature vector dimension mismatch" None ∧
  verifyBiometric zero_digest count_hash [] forged "face" 1000
  = Failed "Template integrity check failed" None.
Proof. vm_compute. repeat split; reflexivity. Qed.

End BiometricProofs.

Module BufferProofs.
Import Buffer.

Lemma to_N_byte_of_N (n : N) : Byte.to_N (byte_of_N n) = (n mod 256)%N.
Proof.
  unfold byte_of_N.
  destruct (Byte.of_N (n mod 256)) as [b|] eqn:Hb.
  - by apply Byte.to_of_N.
  - apply Byte.of_N_None_iff in Hb.
    pose proof (N.mod_upper_bound n 256). lia.
Qed.

Lemma byte_of_N_to_N (b : byte) : byte_of_N (Byte.to_N b) = b.
Proof.
  unfold byte_of_N. rewrite N.mod_small.
  - by rewrite Byte.of_to_N.
  - pose proof (Byte.to_N_bounded b). lia.
Qed.

Lemma read_write_UInt32BE (n : N) (rest : list byte) :
  (n < 4294967296)%N →
  readUInt32BE (writeUInt32BE n ++ rest) = Some n.
Proof.
  intros Hn. unfold writeUInt32BE, readUInt32BE. cbn [app].
  rewrite !to_N_byte_of_N. f_equal.
  rewrite (N.mod_small (n / 16777216) 256)
    by (apply N.Div0.div_lt_upper_bound; lia).
  pose proof (N.div_mod n 256). pose proof (N.mod_upper_bound n 256).
  pose proof (N.div_mod (n / 256) 256).
  pose proof (N.mod_upper_bound (n / 256) 256).
  pose proof (N.div_mod (n / 65536) 256).
  pose proof (N.mod_upper_bound (n / 65536) 256).
  replace (n / 65536)%N with (n / 256 / 256)%N in *
    by (rewrite N.Div0.div_div; reflexivity).
  replace (n / 16777216)%N with (n / 256 / 256 / 256)%N
    by (rewrite !N.Div0.div_div; reflexivity).
  lia.
Qed.

Lemma length_writeUInt32BE (n : N) : length (writeUInt32BE n) = 4%nat.
Proof. reflexivity. Qed.

Example writeUInt32BE_258 :
  writeUInt32BE 258 = ["000"; "000"; "001"; "002"]%byte.
Proof. reflexivity. Qed.

Example to_hex_example : to_hex ["000"; "171"; "255"]%byte = "00abff".
Proof. reflexivity. Qed.

Lemma slice_middle (pre x post : list byte) (a b : nat) :
  a = length pre → b = (a + length x)%nat →
  slice a b (pre ++ x ++ post) = x.
Proof.
  intros -> ->. unfold slice.
  rewrite drop_app_length. apply take_app_length'. lia.
Qed.

Lemma slice_from_app (pre post : list byte) (a : nat) :
  a = length pre → slice_from a (pre ++ post) = post.
Proof. intros ->. apply drop_app_length. Qed.

Lemma of_utf8_utf8 (s : string) : of_utf8 (utf8 s) = s.
Proof. apply string_of_list_byte_of_string. Qed.

Lemma hex_value_digit (n : N) :
  (n < 16)%N → hex_value (hex_digit n) = Some n.
Proof.
  intros Hn.
  destruct n as [|p]; [reflexivity|].
  do 4 (try destruct p as [p|p|]); try reflexivity; lia.
Qed.

Lemma from_hex_to_hex (buf : list byte) : from_hex (to_hex buf) = buf.
Proof.
  induction buf as [|b buf IH]; [done|]. cbn [to_hex from_hex].
  pose proof (Byte.to_N_bounded b) as Hb.
  rewrite !hex_value_digit, IH.
  - f_equal. rewrite <- (byte_of_N_to_N b) at 3. f_equal.
    pose proof (N.div_mod (Byte.to_N b) 16). lia.
  - apply N.mod_upper_bound. lia.
  - apply N.Div0.div_lt_upper_bound. lia.
Qed.

End BufferProofs.

Module EncryptionProofs.
Import Buffer BufferProofs Encryption.

(** The strings hashed into the key differ as soon as the clock readings
    differ. *)
Lemma document_key_input_inj (userId documentId : string) (t t' : Z) :
  t ≠ t' →
  utf8 (userId +:+ ":" +:+ documentId +:+ ":" +:+ pretty t)
  ≠ utf8 (userId +:+ ":" +:+ documentId +:+ ":" +:+ pretty t').
Proof.
  intros Hne Heq. apply (f_equal of_utf8) in Heq.
  rewrite !of_utf8_utf8 in Heq.
  do 4 apply (inj (String.app _)) in Heq.
  by apply (inj pretty) in Heq.
Qed.

Section RuntimeProperties.

Variable cipher : string → list byte → list byte → list byte → list byte * list byte.
Variable decipher : string → list byte → list byte → list byte → list byte → option (list byte).

(** [decrypt] cuts the first sixteen bytes off and never looks at them. *)
Lemma decrypt_ignores_iv (key iv iv' rest : list byte) :
  length iv = 16%nat → length iv' = 16%nat →
  decrypt decipher (iv' ++ rest) key = decrypt decipher (iv ++ rest) key.
Proof.
  intros Hiv Hiv'. unfold decrypt, slice, slice_from, ivLength, tagLength.
  rewrite !(drop_app_ge iv'), !(drop_app_ge iv), Hiv, Hiv' by lia.
  reflexivity.
Qed.

Lemma decrypt_encrypt (plain key iv : list byte) :
  length iv = 16%nat →
  length (cipher algorithm key [] plain).2 = 16%nat →
  decipher algorithm key [] (cipher algorithm key [] plain).2
    (cipher algorithm key [] plain).1 = Some plain →
  ∃ r, encrypt cipher plain key iv = Success r ∧
       decrypt decipher (data r) key = Success plain.
Proof.
  intros Hiv Htag Hdec. unfold encrypt.
  destruct (cipher algorithm key [] plain) as [ct tag] eqn:Hc.
  cbn [fst snd] in *. eexists. split; [reflexivity|]. cbn [data].
  unfold decrypt, ivLength, tagLength.
  rewrite (slice_middle iv tag ct 16 (16 + 16)) by (rewrite ?Htag; done).
  rewrite app_assoc, slice_from_app by (rewrite length_app; lia).
  by rewrite Hdec.
Qed.

Variable pbkdf2 : string → list byte → N → nat → list byte.
Variable sha256 : list byte → list byte.
Variable JSON_stringify : metadata → string.
Variable JSON_parse : string → option metadata.

(** With one and the same clock reading in the key at both ends, and a
    runtime whose decipher undoes its cipher and whose JSON parser reads
    back what was written, the document comes back. *)
Lemma decryptDocument_same_clock (doc : list byte) (userId documentId : string)
    (now t : Z) (salt iv : list byte) (r : encrypted_document) :
  let m := Metadata userId documentId now (length doc) (createHash sha256 doc) in
  let M := utf8 (JSON_stringify m) in
  let combined := writeUInt32BE (N.of_nat (length M)) ++ M ++ doc in
  let key := generateDocumentKey sha256 userId documentId t in
  length iv = 16%nat →
  length (cipher algorithm key [] combined).2 = 16%nat →
  decipher algorithm key [] (cipher algorithm key [] combined).2
    (cipher algorithm key [] combined).1 = Some combined →
  JSON_parse (JSON_stringify m) = Some m →
  encryptDocument cipher pbkdf2 sha256 JSON_stringify doc userId documentId
    None now t salt iv = Success r →
  decryptDocument decipher pbkdf2 sha256 JSON_parse (encryptedData r)
    userId documentId None t = Success (DecryptedDocument doc m).
Proof.
  intros m M combined key Hiv Htag Hdec Hjson. unfold encryptDocument.
  fold m. fold M.
  destruct (4294967296 <=? N.of_nat (length M))%N eqn:Hlen; [discriminate|].
  apply N.leb_gt in Hlen. fold combined. fold key.
  destruct (decrypt_encrypt combined key iv Hiv Htag Hdec) as (e & He & Hd).
  rewrite He. intros Hr.
  assert (encryptedData r = data e) as -> by (injection Hr as <-; reflexivity).
  unfold decryptDocument. fold key. rewrite Hd.
  unfold combined at 1. rewrite read_write_UInt32BE by done.
  rewrite Nat2N.id.
  unfold combined at 1.
  rewrite (slice_middle (writeUInt32BE (N.of_nat (length M))) M doc 4) by done.
  unfold M at 1. rewrite of_utf8_utf8, Hjson.
  unfold combined. rewrite app_assoc, slice_from_app
    by (rewrite length_app; reflexivity).
  cbn [checksum Encryption.userId m]. by rewrite !String.eqb_refl.
Qed.

End RuntimeProperties.

(** C2 (the code at the failing input): a document encrypted for user u1
    and document d1 when the clock reads 1000 decrypts for the same two
    identifiers while the clock still reads 1000, and fails to decrypt when
    it reads 1001: the key derived at decryption time is another one. *)
Theorem document_key_follows_clock :
  ∃ r,
    encryptDocument Standin.cipher Standin.pbkdf2 Standin.sha256
      Standin.stringify_metadata (utf8 "secret") "u1" "d1" None 1000 1000
      [] Standin.draw16 = Success r ∧
    decryptDocument Standin.decipher Standin.pbkdf2 Standin.sha256
      Standin.parse_metadata (encryptedData r) "u1" "d1" None 1000
    = Success (DecryptedDocument (utf8 "secret") (doc_metadata r)) ∧
    generateDocumentKey Standin.sha256 "u1" "d1" 1001
    ≠ generateDocumentKey Standin.sha256 "u1" "d1" 1000 ∧
    decryptDocument Standin.decipher Standin.pbkdf2 Standin.sha256
      Standin.parse_metadata (encryptedData r) "u1" "d1" None 1001
    = Failure "Unsupported state or unable to authenticate data".
Proof.
  eexists. split; [vm_compute; reflexivity|].
  split; [vm_compute; reflexivity|].
  split; [vm_compute; discriminate|].
  vm_compute. reflexivity.
Qed.

End EncryptionProofs.

Module PackageProofs.
Import Buffer BufferProofs PackageEncryption.

Lemma slice_at (pre x post buf : list byte) (a : nat) :
  buf = pre ++ x ++ post → a = length pre →
  slice a (a + length x) buf = x.
Proof. intros -> ->. by apply slice_middle. Qed.

(** Side conditions of [slice_at]: two groupings of one concatenation, and
    the length of what precedes the field. *)
Ltac fields := rewrite <- ?app_assoc, ?length_app, ?app_nil_r; try done; lia.

Section RuntimeProperties.

Variable cipher : string → list byte → list byte → list byte → list byte * list byte.
Variable decipher : string → list byte → list byte → list byte → list byte → option (list byte).
Variable pbkdf2 : string → list byte → N → nat → list byte.
Variable JSON_stringify : package_metadata → string.
Variable JSON_parse : string → option package_metadata.

(** A package that was serialized is read back field for field, the key
    and the salt included when they are there. *)
Lemma deserialize_serialize (pkg : encrypted_package) (buf : list byte) :
  JSON_parse (JSON_stringify (metadata_of pkg)) = Some (metadata_of pkg) →
  serializeEncryptedPackage JSON_stringify pkg = Success buf →
  deserializeEncryptedPackage JSON_parse buf = Success pkg.
Proof.
  intros Hjson. unfold serializeEncryptedPackage.
  set (M := utf8 (JSON_stringify (metadata_of pkg))).
  destruct (4294967296 <=? N.of_nat (length M))%N eqn:Hlen; [discriminate|].
  apply N.leb_gt in Hlen. intros Hbuf.
  set (L := writeUInt32BE (N.of_nat (length M))) in *.
  assert (buf = L ++ M ++ iv pkg ++ tag pkg ++ encrypted pkg
                ++ from_option id [] (key pkg) ++ from_option id [] (salt pkg))
    as -> by congruence.
  clear Hbuf. unfold deserializeEncryptedPackage.
  unfold L at 1. rewrite read_write_UInt32BE by done. rewrite Nat2N.id.
  cbv zeta.
  rewrite (slice_at L M _ _ 4 eq_refl eq_refl).
  unfold M at 1. rewrite of_utf8_utf8, Hjson.
  destruct pkg as [E IV T K S alg ts]. cbn [metadata_of iv tag encrypted key
    salt algorithm timestamp ivLength tagLength encryptedLength hasKey hasSalt
    keyLength saltLength m_algorithm m_timestamp] in *.
  assert (length L = 4%nat) as HL by reflexivity.
  rewrite (slice_at (L ++ M) IV (T ++ E ++ from_option id [] K
                                   ++ from_option id [] S))
    by fields.
  rewrite (slice_at (L ++ M ++ IV) T (E ++ from_option id [] K
                                        ++ from_option id [] S))
    by fields.
  rewrite (slice_at (L ++ M ++ IV ++ T) E (from_option id [] K
                                             ++ from_option id [] S))
    by fields.
  destruct K as [k|], S as [s|]; cbn [from_option id length].
  - rewrite (slice_at (L ++ M ++ IV ++ T ++ E) k s)
      by fields.
    rewrite (slice_at (L ++ M ++ IV ++ T ++ E ++ k) s [])
      by fields.
    reflexivity.
  - rewrite (slice_at (L ++ M ++ IV ++ T ++ E) k [])
      by fields.
    reflexivity.
  - rewrite (slice_at (L ++ M ++ IV ++ T ++ E) s [])
      by fields.
    reflexivity.
  - reflexivity.
Qed.

(** [decryptDocument] reads the IV out of the package and does nothing
    with it: a package that differs in its IV bytes only gives the same
    result. *)
Lemma decryptDocument_ignores_iv (pkg : encrypted_package) (iv' : list byte)
    (buf buf' : list byte) (hexkey userPassword : option string) :
  length iv' = length (iv pkg) →
  JSON_parse (JSON_stringify (metadata_of pkg)) = Some (metadata_of pkg) →
  serializeEncryptedPackage JSON_stringify pkg = Success buf →
  serializeEncryptedPackage JSON_stringify (with_iv pkg iv') = Success buf' →
  decryptDocument decipher pbkdf2 JSON_parse buf' hexkey userPassword
  = decryptDocument decipher pbkdf2 JSON_parse buf hexkey userPassword.
Proof.
  intros Hlen Hjson Hbuf Hbuf'.
  assert (metadata_of (with_iv pkg iv') = metadata_of pkg) as Hm.
  { unfold metadata_of, with_iv. cbn. by rewrite Hlen. }
  unfold decryptDocument.
  rewrite (deserialize_serialize pkg buf Hjson Hbuf).
  rewrite (deserialize_serialize (with_iv pkg iv') buf')
    by (rewrite ?Hm; done).
  reflexivity.
Qed.

(** Without a password the key drawn is the cipher key, it is returned in
    hex, and the serialized package ends with it. *)
Lemma encryptDocument_appends_key (doc : list byte) (userPassword : option string)
    (draw1 draw2 draw3 : list byte) (now : Z) (r : encryption_result) :
  truthy userPassword = false →
  encryptDocument cipher pbkdf2 JSON_stringify doc userPassword
    draw1 draw2 draw3 now = Success r →
  key_hex r = to_hex draw1 ∧
  serializeEncryptedPackage JSON_stringify
    (Package (cipher aes_256_gcm draw1 AAD doc).1 draw2
       (cipher aes_256_gcm draw1 AAD doc).2 (Some draw1) None aes_256_gcm now)
  = Success (encryptedData r) ∧
  ∃ front, encryptedData r = front ++ draw1.
Proof.
  intros Hpw. unfold encryptDocument. rewrite Hpw.
  assert (match userPassword with
          | Some pw => draw1
          | None => draw1
          end = draw1) as -> by (by destruct userPassword).
  destruct (cipher aes_256_gcm draw1 AAD doc) as [ct tg]. cbn [fst snd].
  destruct (serializeEncryptedPackage _ _) as [buf|e] eqn:Hs; [|discriminate].
  intros [= <-]. cbn [key_hex encryptedData]. split; [done|]. split; [done|].
  unfold serializeEncryptedPackage in Hs.
  destruct (_ <=? _)%N; [discriminate|].
  match type of Hs with
  | Success ?x = _ => assert (buf = x) as -> by congruence
  end.
  cbn [iv tag encrypted key salt from_option id].
  eexists. rewrite app_nil_r, !app_assoc. reflexivity.
Qed.

(** With a password the package has no key entry. *)
Lemma encryptDocument_password_no_key (doc : list byte) (pw : string)
    (draw1 draw2 draw3 : list byte) (now : Z) (r : encryption_result) :
  truthy (Some pw) = true →
  encryptDocument cipher pbkdf2 JSON_stringify doc (Some pw)
    draw1 draw2 draw3 now = Success r →
  ∃ pkg,
    serializeEncryptedPackage JSON_stringify pkg = Success (encryptedData r) ∧
    key pkg = None ∧ hasKey (metadata_of pkg) = false ∧
    keyLength (metadata_of pkg) = 0%nat ∧
    encrypted pkg = (cipher aes_256_gcm (pbkdf2 pw draw1 100000 32%nat) AAD doc).1.
Proof.
  intros Hpw. unfold encryptDocument. rewrite Hpw.
  destruct (cipher aes_256_gcm _ AAD doc) as [ct tg]. cbn [fst snd].
  destruct (serializeEncryptedPackage _ _) as [buf|e] eqn:Hs; [|discriminate].
  intros [= <-]. cbn [encryptedData]. eexists. split; [exact Hs|]. done.
Qed.

End RuntimeProperties.

End PackageProofs.

Module TamperProofs.
Import Buffer.

(** C3 (the code at the failing input): one bit of the IV is flipped in an
    encrypted package, and decryption returns the whole plaintext all the
    same; in both services, the IV written into the package is not an input
    of the decipher. *)
Theorem iv_bit_flip_not_detected :
  (∃ r,
     Encryption.encrypt Standin.cipher (utf8 "secret") Standin.draw32
       Standin.draw16 = Encryption.Success r ∧
     slice 0 16 (Encryption.data r) = Standin.draw16 ∧
     Standin.flip 3 (Encryption.data r) ≠ Encryption.data r ∧
     Encryption.decrypt Standin.decipher (Standin.flip 3 (Encryption.data r))
       Standin.draw32 = Encryption.Success (utf8 "secret")) ∧
  (∃ r,
     PackageEncryption.encryptDocument Standin.cipher Standin.pbkdf2
       Standin.stringify_package (utf8 "secret") None Standin.draw32
       Standin.draw16 [] 1000 = PackageEncryption.Success r ∧
     slice 157 (157 + 16) (PackageEncryption.encryptedData r) = Standin.draw16 ∧
     Standin.flip (8 * 157 + 3) (PackageEncryption.encryptedData r)
     ≠ PackageEncryption.encryptedData r ∧
     PackageEncryption.decryptDocument Standin.decipher Standin.pbkdf2
       Standin.parse_package
       (Standin.flip (8 * 157 + 3) (PackageEncryption.encryptedData r))
       None None
     = PackageEncryption.Success
         (PackageEncryption.DecryptionResult (utf8 "secret") "aes-256-gcm"
            1000 6)).
Proof.
  split; eexists; (split; [vm_compute; reflexivity|]);
    (split; [vm_compute; reflexivity|]);
    (split; [vm_compute; discriminate|]); vm_compute; reflexivity.
Qed.

End TamperProofs.

Module GateProofs.
Import Gate.

Lemma single_Some {A : Type} (rows : list A) (row : A) :
  single rows = Some row → rows = [row].
Proof. destruct rows as [|r [|r' rows]]; cbn; congruence. Qed.

Lemma selected_document (db : database) (documentId userId : string)
    (d : document_row) :
  single (filter (fun d => doc_id d = documentId ∧ doc_user_id d = userId)
            (documents db)) = Some d →
  d ∈ documents db ∧ doc_id d = documentId ∧ doc_user_id d = userId.
Proof.
  intros Hs. apply single_Some in Hs.
  assert (d ∈ filter (fun d => doc_id d = documentId ∧ doc_user_id d = userId)
                (documents db)) as Hin by (rewrite Hs; apply list_elem_of_here).
  apply list_elem_of_filter in Hin. tauto.
Qed.

(** The document a request selects makes its id one that [documents]
    carries. *)
Lemma selected_document_known (db : database) (documentId userId : string)
    (d : document_row) :
  single (filter (fun d => doc_id d = documentId ∧ doc_user_id d = userId)
            (documents db)) = Some d →
  documentId ∈ doc_id <$> documents db.
Proof.
  intros Hs. destruct (selected_document db _ _ d Hs) as (Hin & Hid & _).
  apply list_elem_of_fmap. by exists d.
Qed.

(** The two answers of the database to an insert. *)
Lemma insert_access_log_known (row : access_log) (db : database) :
  log_document_id row ∈ doc_id <$> documents db →
  insert_access_log row db = (inr tt, add_log db row).
Proof.
  intros Hin. unfold insert_access_log, references_document.
  by rewrite bool_decide_eq_true_2.
Qed.


(** The error of the route is the error of its [try] block: the [catch]
    block throws what it caught. *)
Lemma verify_catch_rethrows (req : request) (now : Z) (error : exception)
    (db : database) :
  (verify_catch req now error db).1 = inl error.
Proof.
  unfold verify_catch, mbind, M_bind, mret, M_ret, throw, insert_access_log.
  by repeat case_match.
Qed.

Lemma verify_route_result (svc : services) (req : request) (now : Z)
    (db : database) (bd : string) (ch : challenge_t) :
  biometricData req = Some bd →
  challenge req = Some ch →
  (verify_route svc req now db).1 = (verify_try svc req bd ch now db).1.
Proof.
  intros Hbd Hch. unfold verify_route, try_catch. rewrite Hbd, Hch.
  destruct (verify_try svc req bd ch now db) as [[e|r] db1]; [|done].
  apply verify_catch_rethrows.
Qed.

(** The [try] block ends in one of three ways: it throws without having
    written a record; it writes the mismatch record and throws the mismatch
    error; or it writes the success record and returns.  In the last two
    the document was found, so its id is one that [documents] carries. *)
Lemma verify_try_outcome svc req biometricData challenge now db :
  (∃ e, verify_try svc req biometricData challenge now db = (inl e, db) ∧
        e ≠ mismatch_error) ∨
  (∃ c, verify_try svc req biometricData challenge now db
        = (inl mismatch_error,
           add_log db (AccessLog (userId req) (documentId req)
                         "biometric_verification" false
                         (Some "biometric_mismatch") (Some c) now)) ∧
        documentId req ∈ doc_id <$> documents db) ∨
  (∃ resp c, verify_try svc req biometricData challenge now db
        = (inr resp,
           add_log db (AccessLog (userId req) (documentId req)
                         "biometric_verification" true None (Some c) now)) ∧
        documentId req ∈ doc_id <$> documents db).
Proof.
  unfold verify_try, mbind, M_bind, mret, M_ret, select_document,
    select_template, throw, mismatch_error.
  destruct (validateChallenge svc _ _); cbn [negb];
    [|left; eexists; split; [reflexivity|discriminate]].
  destruct (single (filter _ (documents db))) as [d|] eqn:Hd;
    [|left; eexists; split; [reflexivity|discriminate]].
  pose proof (selected_document_known db _ _ d Hd) as Hin.
  destruct (now <? start_time d);
    [left; eexists; split; [reflexivity|discriminate]|].
  destruct (end_time d <? now);
    [left; eexists; split; [reflexivity|discriminate]|].
  destruct (String.eqb (document_status d) "active"); cbn [negb];
    [|left; eexists; split; [reflexivity|discriminate]].
  destruct (single (filter _ (biometric_templates db))) as [t|];
    [|left; eexists; split; [reflexivity|discriminate]].
  destruct (processWebAuthnData svc _ _) as [processed|];
    [|left; eexists; split; [reflexivity|discriminate]].
  destruct (verifyBiometric svc processed _ _) as [v|];
    [|left; eexists; split; [reflexivity|discriminate]].
  destruct (Biometric.verified v); cbn [negb].
  - destruct (downloadFromS3 svc _) as [body|];
      [|left; eexists; split; [reflexivity|discriminate]].
    destruct (extractDocument svc body) as [extracted|];
      [|left; eexists; split; [reflexivity|discriminate]].
    destruct (decryptDocument svc extracted _ _) as [dec|];
      [|left; eexists; split; [reflexivity|discriminate]].
    rewrite insert_access_log_known by exact Hin.
    right. right. eexists _, _. split; [reflexivity|exact Hin].
  - rewrite insert_access_log_known by exact Hin.
    right. left. eexists. split; [reflexivity|exact Hin].
Qed.




End GateProofs.

Module ColocationProofs.
Import Buffer BufferProofs.

Section RuntimeProperties.

Variable cipher : string → list byte → list byte → list byte → list byte * list byte.
Variable pbkdf2 : string → list byte → N → nat → list byte.
Variable JSON_stringify : PackageEncryption.package_metadata → string.
Variable JSON_parse : string → option PackageEncryption.package_metadata.
Variable sha256 : list byte → list byte.
Variable join_comma : list float → string.
Variable JSON_stringify_template : list float → string.
Variable base64 : list byte → string.

(** A registration that carries credential data answers with the row it
    wrote; that row is in the table, and its [encryption_key] is the hex
    text of the key its [template_data] was encrypted with. *)
Lemma register_row_holds_key (req : Registration.request) (c : string)
    (encryptionKey iv : list byte) (now : string)
    (table : list Registration.template_row) :
  Registration.credentialData req = Some c →
  ∃ resp,
    (Registration.register_route sha256 join_comma JSON_stringify_template
       cipher base64 req encryptionKey iv now table).1 = inr resp ∧
    Registration.res_row resp ∈
      (Registration.register_route sha256 join_comma JSON_stringify_template
         cipher base64 req encryptionKey iv now table).2 ∧
    Registration.encryption_key (Registration.res_row resp)
    = to_hex encryptionKey ∧
    from_hex (Registration.encryption_key (Registration.res_row resp))
    = encryptionKey ∧
    Registration.template_data (Registration.res_row resp)
    = Registration.encryptTemplate JSON_stringify_template cipher base64
        (Registration.template
           (Registration.processWebAuthnCredential sha256 join_comma c))
        encryptionKey iv.
Proof.
  intros Hc. unfold Registration.register_route. rewrite Hc. cbv zeta.
  destruct (Gate.single _) as [existing|] eqn:Hex.
  - eexists. split; [reflexivity|]. cbn [fst snd Registration.res_row].
    split.
    + apply list_elem_of_fmap. exists existing.
      assert (existing ∈ filter
                (fun row => Registration.matches (Registration.userId req)
                              (Registration.req_biometricType req) row = true)
                table) as Hin.
      { destruct (filter _ table) as [|x [|y l]]; try discriminate.
        injection Hex as ->. apply list_elem_of_here. }
      apply list_elem_of_filter in Hin as [Hm Hin]. by rewrite Hm.
    + unfold Registration.update_row.
      cbn [Registration.encryption_key Registration.template_data].
      by rewrite from_hex_to_hex.
  - eexists. split; [reflexivity|]. cbn [fst snd Registration.res_row].
    split.
    + apply elem_of_app. right. apply list_elem_of_here.
    + cbn [Registration.encryption_key Registration.template_data].
      by rewrite from_hex_to_hex.
Qed.

(** C7 (as amended): [encryptDocument] called with a password serializes
    exactly the 4-byte length of the metadata, the metadata (with [hasKey]
    false and [keyLength] 0), the IV drawn, the tag, the ciphertext and the
    salt drawn last, one after another and nothing else, and
    deserialization reads back a package without a key: the key is in no
    field of it.  Called without a password it returns the cipher key in
    hex and appends the raw key to the serialized package, from which
    deserialization reads it back next to the ciphertext; and the template
    row written at registration holds, in [encryption_key], the hex text of
    the raw key that encrypts its [template_data]. *)
Theorem key_stored_beside_ciphertext (doc : list byte)
    (userPassword : option string) (draw1 draw2 draw3 : list byte) (now : Z)
    (r : PackageEncryption.encryption_result)
    (req : Registration.request) (c : string) (encryptionKey iv : list byte)
    (now' : string) (table : list Registration.template_row) :
  PackageEncryption.encryptDocument cipher pbkdf2 JSON_stringify doc
    userPassword draw1 draw2 draw3 now = PackageEncryption.Success r →
  Registration.credentialData req = Some c →
  (∀ pw, userPassword = Some pw → truthy userPassword = true →
     let sealed :=
       cipher PackageEncryption.aes_256_gcm (pbkdf2 pw draw1 100000 32%nat)
         PackageEncryption.AAD doc in
     let pkg :=
       PackageEncryption.Package sealed.1 draw2 sealed.2 None (Some draw3)
         PackageEncryption.aes_256_gcm now in
     let M := utf8 (JSON_stringify (PackageEncryption.metadata_of pkg)) in
     PackageEncryption.encryptedData r
     = writeUInt32BE (N.of_nat (length M)) ++ M ++ draw2 ++ sealed.2
       ++ sealed.1 ++ draw3 ∧
     PackageEncryption.hasKey (PackageEncryption.metadata_of pkg) = false ∧
     PackageEncryption.keyLength (PackageEncryption.metadata_of pkg) = 0%nat ∧
     PackageEncryption.serializeEncryptedPackage JSON_stringify pkg
     = PackageEncryption.Success (PackageEncryption.encryptedData r) ∧
     (JSON_parse (JSON_stringify (PackageEncryption.metadata_of pkg))
      = Some (PackageEncryption.metadata_of pkg) →
      PackageEncryption.deserializeEncryptedPackage JSON_parse
        (PackageEncryption.encryptedData r) = PackageEncryption.Success pkg)) ∧
  (truthy userPassword = false →
     let pkg :=
       PackageEncryption.Package
         (cipher PackageEncryption.aes_256_gcm draw1 PackageEncryption.AAD doc).1
         draw2
         (cipher PackageEncryption.aes_256_gcm draw1 PackageEncryption.AAD doc).2
         (Some draw1) None PackageEncryption.aes_256_gcm now in
     PackageEncryption.key_hex r = to_hex draw1 ∧
     (∃ front, PackageEncryption.encryptedData r = front ++ draw1) ∧
     (JSON_parse (JSON_stringify (PackageEncryption.metadata_of pkg))
      = Some (PackageEncryption.metadata_of pkg) →
      PackageEncryption.deserializeEncryptedPackage JSON_parse
        (PackageEncryption.encryptedData r) = PackageEncryption.Success pkg)) ∧
  (∃ resp,
     (Registration.register_route sha256 join_comma JSON_stringify_template
        cipher base64 req encryptionKey iv now' table).1 = inr resp ∧
     Registration.res_row resp ∈
       (Registration.register_route sha256 join_comma JSON_stringify_template
          cipher base64 req encryptionKey iv now' table).2 ∧
     Registration.encryption_key (Registration.res_row resp)
     = to_hex encryptionKey ∧
     from_hex (Registration.encryption_key (Registration.res_row resp))
     = encryptionKey ∧
     Registration.template_data (Registration.res_row resp)
     = Registration.encryptTemplate JSON_stringify_template cipher base64
         (Registration.template
            (Registration.processWebAuthnCredential sha256 join_comma c))
         encryptionKey iv).
Proof.
  intros Henc Hc. split; [|split].
  - intros pw -> Hpw. cbv zeta. revert Henc.
    unfold PackageEncryption.encryptDocument. rewrite Hpw.
    destruct (cipher PackageEncryption.aes_256_gcm _ PackageEncryption.AAD doc)
      as [ct tg]. cbn [fst snd].
    destruct (PackageEncryption.serializeEncryptedPackage _ _) as [buf|e] eqn:Hs;
      [|discriminate].
    intros [= <-]. cbn [PackageEncryption.encryptedData].
    split; [|split; [done|split; [done|split; [reflexivity|]]]].
    + unfold PackageEncryption.serializeEncryptedPackage in Hs.
      destruct (_ <=? _)%N; [discriminate|].
      match type of Hs with
      | PackageEncryption.Success ?x = _ => assert (buf = x) as -> by congruence
      end.
      reflexivity.
    + intros Hjson.
      by apply (PackageProofs.deserialize_serialize JSON_stringify JSON_parse
                  (PackageEncryption.Package ct draw2 tg None (Some draw3)
                     PackageEncryption.aes_256_gcm now)).
  - intros Hpw pkg.
    destruct (PackageProofs.encryptDocument_appends_key cipher pbkdf2
                JSON_stringify doc userPassword draw1 draw2 draw3 now r Hpw Henc)
      as (Hhex & Hs & Hfront).
    split; [done|]. split; [done|]. intros Hjson.
    by apply (PackageProofs.deserialize_serialize JSON_stringify JSON_parse pkg).
  - by apply register_row_holds_key.
Qed.

End RuntimeProperties.

Lemma key_stored_beside_ciphertext_witness :
  (∃ r,
     PackageEncryption.encryptDocument Standin.cipher Standin.pbkdf2
       Standin.stringify_package (utf8 "secret") None Standin.draw32
       Standin.draw16 [] 1000 = PackageEncryption.Success r ∧
     PackageEncryption.key_hex r = to_hex Standin.draw32 ∧
     (∃ front, PackageEncryption.encryptedData r = front ++ Standin.draw32) ∧
     (∃ pkg,
        PackageEncryption.deserializeEncryptedPackage Standin.parse_package
          (PackageEncryption.encryptedData r) = PackageEncryption.Success pkg ∧
        PackageEncryption.key pkg = Some Standin.draw32) ∧
     (∃ resp,
        (Registration.register_route Standin.sha256 Standin.join_comma
           Standin.stringify_floats Standin.cipher Standin.base64
           (Registration.Request (Some "{}") "fingerprint" "u1" None)
           Standin.draw32' Standin.draw16 "2024-01-01T00:00:00.000Z" []).1
        = inr resp ∧
        from_hex (Registration.encryption_key (Registration.res_row resp))
        = Standin.draw32')) ∧
  (∃ r,
     PackageEncryption.encryptDocument Standin.cipher Standin.pbkdf2
       Standin.stringify_package (utf8 "secret") (Some "pw") Standin.draw32
       Standin.draw16 Standin.draw32' 1000 = PackageEncryption.Success r ∧
     let sealed :=
       Standin.cipher PackageEncryption.aes_256_gcm
         (Standin.pbkdf2 "pw" Standin.draw32 100000 32%nat)
         PackageEncryption.AAD (utf8 "secret") in
     let pkg :=
       PackageEncryption.Package sealed.1 Standin.draw16 sealed.2 None
         (Some Standin.draw32') PackageEncryption.aes_256_gcm 1000 in
     let M := utf8 (Standin.stringify_package (PackageEncryption.metadata_of pkg)) in
     PackageEncryption.encryptedData r
     = writeUInt32BE (N.of_nat (length M)) ++ M ++ Standin.draw16 ++ sealed.2
       ++ sealed.1 ++ Standin.draw32' ∧
     PackageEncryption.deserializeEncryptedPackage Standin.parse_package
       (PackageEncryption.encryptedData r) = PackageEncryption.Success pkg).
Proof.
  split.
  - eexists. split; [vm_compute; reflexivity|].
    match goal with
    | |- PackageEncryption.key_hex ?r = _ ∧ _ =>
        destruct (key_stored_beside_ciphertext Standin.cipher Standin.pbkdf2
                    Standin.stringify_package Standin.parse_package Standin.sha256
                    Standin.join_comma Standin.stringify_floats Standin.base64
                    (utf8 "secret") None Standin.draw32 Standin.draw16 [] 1000 r
                    (Registration.Request (Some "{}") "fingerprint" "u1" None)
                    "{}" Standin.draw32' Standin.draw16
                    "2024-01-01T00:00:00.000Z" [])
          as (_ & Hkey & resp & Hresp & _ & _ & Hhex & _);
          [vm_compute; reflexivity | reflexivity |]
    end.
    destruct (Hkey eq_refl) as (Hh & Hfront & Hde).
    split; [exact Hh|]. split; [exact Hfront|]. split.
    + eexists. split; [apply Hde; vm_compute; reflexivity|]. reflexivity.
    + exists resp. split; [exact Hresp|exact Hhex].
  - eexists. split; [vm_compute; reflexivity|].
    match goal with
    | |- let _ := _ in let _ := _ in let _ := _ in
         PackageEncryption.encryptedData ?r = _ ∧ _ =>
        destruct (key_stored_beside_ciphertext Standin.cipher Standin.pbkdf2
                    Standin.stringify_package Standin.parse_package Standin.sha256
                    Standin.join_comma Standin.stringify_floats Standin.base64
                    (utf8 "secret") (Some "pw") Standin.draw32 Standin.draw16
                    Standin.draw32' 1000 r
                    (Registration.Request (Some "{}") "fingerprint" "u1" None)
                    "{}" Standin.draw32' Standin.draw16
                    "2024-01-01T00:00:00.000Z" [])
          as (Hpw & _);
          [vm_compute; reflexivity | reflexivity |]
    end.
    destruct (Hpw "pw" eq_refl eq_refl) as (Hbytes & _ & _ & _ & Hde).
    split; [exact Hbytes|]. apply Hde. vm_compute. reflexivity.
Defined.

(** Without a password the last 32 bytes of the serialized package are
    the key, and they open the ciphertext that precedes them; and the row
    registered for a template holds the key that encrypts it, in hex. *)
Lemma raw_key_counterexample :
  (∃ r pkg,
     PackageEncryption.encryptDocument Standin.cipher Standin.pbkdf2
       Standin.stringify_package (utf8 "secret") None Standin.draw32
       Standin.draw16 [] 1000 = PackageEncryption.Success r ∧
     drop (length (PackageEncryption.encryptedData r) - 32)
       (PackageEncryption.encryptedData r) = Standin.draw32 ∧
     PackageEncryption.deserializeEncryptedPackage Standin.parse_package
       (PackageEncryption.encryptedData r) = PackageEncryption.Success pkg ∧
     PackageEncryption.key pkg = Some Standin.draw32 ∧
     Standin.decipher "aes-256-gcm" Standin.draw32 PackageEncryption.AAD
       (PackageEncryption.tag pkg) (PackageEncryption.encrypted pkg)
     = Some (utf8 "secret")) ∧
  (∃ row,
     (Registration.register_route Standin.sha256 Standin.join_comma
        Standin.stringify_floats Standin.cipher Standin.base64
        (Registration.Request (Some "{}") "fingerprint" "u1" None)
        Standin.draw32' Standin.draw16 "2024-01-01T00:00:00.000Z" []).2
     = [row] ∧
     from_hex (Registration.encryption_key row) = Standin.draw32' ∧
     Registration.template_data row
     = Registration.encryptTemplate Standin.stringify_floats Standin.cipher
         Standin.base64
         (Registration.createMockBiometricTemplate Standin.sha256 "{}")
         Standin.draw32' Standin.draw16).
Proof.
  split.
  - do 2 eexists. split; [vm_compute; reflexivity|].
    split; [vm_compute; reflexivity|]. split; [vm_compute; reflexivity|].
    split; vm_compute; reflexivity.
  - eexists. split; [reflexivity|]. split; [vm_compute; reflexivity|].
    reflexivity.
Qed.

End ColocationProofs.

(** * Further properties of the codec *)

Module CodecExtras.
Import Codec CodecProofs.

Lemma set_lsb_range (p : Z) (bit : bool) :
  0 ≤ p < 256 → 0 ≤ set_lsb p bit < 256.
Proof.
  intros Hp.
  assert (0 ≤ set_lsb p bit) as Hlow.
  { apply Z.lor_nonneg. split; [apply Z.land_nonneg; lia|by destruct bit]. }
  split; [done|].
  destruct (decide (set_lsb p bit = 0)) as [->|Hne]; [lia|].
  apply Z.log2_lt_cancel. change (Z.log2 256) with 8.
  destruct (Z.le_gt_cases 8 (Z.log2 (set_lsb p bit))) as [Hge|Hlt]; [|lia].
  exfalso.
  pose proof (Z.bit_log2 (set_lsb p bit) ltac:(lia)) as Hbit.
  rewrite testbit_set_lsb in Hbit by lia.
  rewrite Z.bits_above_log2 in Hbit; [discriminate|lia|].
  destruct (decide (p = 0)) as [->|Hp0]; [cbn; lia|].
  assert (Z.log2 p < 8) by (apply Z.log2_lt_pow2; lia). lia.
Qed.

Lemma set_lsb_idem (p : Z) (bit : bool) :
  set_lsb (set_lsb p bit) bit = set_lsb p bit.
Proof.
  unfold set_lsb. apply Z.bits_inj'. intros n Hn.
  rewrite !Z.lor_spec, !Z.land_spec, !Z.lor_spec, !Z.land_spec.
  destruct (Z.testbit p n), (Z.testbit 254 n), (Z.testbit (Z.b2z bit) n);
    reflexivity.
Qed.

Lemma zip_set_lsb_range (mid : list Z) (bits : bitstring) :
  Forall (fun p => 0 ≤ p < 256) mid →
  Forall (fun p => 0 ≤ p < 256) (zip_with set_lsb mid bits).
Proof.
  intros Hmid. revert bits.
  induction Hmid as [|p mid Hp _ IH]; intros [|b bits]; cbn; try constructor.
  - by apply set_lsb_range.
  - apply IH.
Qed.

Lemma wf_stego_of (img : image) (data : list byte) :
  wf_image img →
  (8 * length data + 16 ≤ rows img * cols img * channels img)%nat →
  wf_image (stego_of img data).
Proof.
  intros [Hlen Hrange] Hcap. unfold wf_image, stego_of. cbn [flat rows cols channels].
  rewrite length_binary_data. split.
  - rewrite length_app, length_zip_with, length_take, length_drop,
      length_binary_data. lia.
  - apply Forall_app. split; [|by apply Forall_drop].
    apply zip_set_lsb_range. by apply Forall_take.
Qed.

Lemma zip_set_lsb_idem (mid : list Z) (bits : bitstring) :
  length mid = length bits →
  zip_with set_lsb (zip_with set_lsb mid bits) bits = zip_with set_lsb mid bits.
Proof.
  revert mid. induction bits as [|b bits IH]; intros [|p mid] Hlen; try done.
  cbn. rewrite set_lsb_idem. f_equal. apply IH. cbn in Hlen. lia.
Qed.

Section FileExtras.

Variable can_write : string → bool.

Lemma embed_cases fs image_path data output_path :
  (∀ img, fs !! image_path = Some img → wf_image img) →
  embed_data_in_image can_write fs image_path data output_path
  = match fs !! image_path with
    | None => (false, Some (ValueError "Could not read image file"), fs)
    | Some img =>
        if bool_decide (rows img * cols img * channels img
                        < 8 * length data + 16)%nat
        then (false, Some (ValueError "Image too small to hold the data"), fs)
        else if can_write output_path
        then (true, None, <[output_path := stego_of img data]> fs)
        else (false, Some (ValueError "Could not save steganographic image"), fs)
    end.
Proof.
  intros Hwf. destruct (fs !! image_path) as [img|] eqn:Hread.
  - case_bool_decide as Hcap.
    + by apply (embed_too_small can_write fs image_path data output_path img).
    + apply Nat.nlt_ge in Hcap. destruct (can_write output_path) eqn:Hw.
      * by apply embed_fits; [|apply Hwf| |].
      * unfold embed_data_in_image, embed_try, imread, imwrite, total_pixels.
        rewrite Hread. cbv zeta.
        rewrite bool_decide_eq_false_2 by (rewrite length_binary_data; lia).
        rewrite embed_loop_fits.
        -- by rewrite Hw.
        -- rewrite length_binary_data. destruct (Hwf img eq_refl). lia.
  - unfold embed_data_in_image, embed_try, imread. by rewrite Hread.
Qed.

(** The outcomes of [embed_data_in_image] on well-formed image files: it
    fails when the carrier cannot be read, else when the digits do not fit,
    else when the output cannot be written, in that order, each time with
    its own message and with the files as they were; the loop never
    indexes past the end; and on success the one file written is the
    output. *)
Theorem embed_outcomes fs image_path data output_path :
  (∀ img, fs !! image_path = Some img → wf_image img) →
  embed_data_in_image can_write fs image_path data output_path
  = match fs !! image_path with
    | None => (false, Some (ValueError "Could not read image file"), fs)
    | Some img =>
        if bool_decide (rows img * cols img * channels img
                        < 8 * length data + 16)%nat
        then (false, Some (ValueError "Image too small to hold the data"), fs)
        else if can_write output_path
        then (true, None, <[output_path := stego_of img data]> fs)
        else (false, Some (ValueError "Could not save steganographic image"), fs)
    end.
Proof. exact (embed_cases fs image_path data output_path). Qed.

(** After a fitting embed, the least significant bits of the first
    payloadBits+16 values of the image written spell the payload's binary
    digits followed by the delimiter, for every payload. *)
Theorem stego_lsb_prefix fs image_path data output_path img :
  fs !! image_path = Some img →
  wf_image img →
  can_write output_path = true →
  (8 * length data + 16 ≤ rows img * cols img * channels img)%nat →
  ∃ stego,
    (embed_data_in_image can_write fs image_path data output_path).2
      !! output_path = Some stego ∧
    take (8 * length data + 16) (lsb <$> flat stego)
    = to_binary data ++ delimiter.
Proof.
  intros Hread Hwf Hw Hcap. exists (stego_of img data).
  rewrite (embed_fits can_write fs image_path data output_path img) by done.
  cbn [snd]. rewrite lookup_insert_eq. split; [done|].
  rewrite fmap_lsb_stego by (destruct Hwf; lia).
  rewrite <- app_assoc. cbn [app].
  change (replicate 15 true ++ false :: ?l) with (delimiter ++ l).
  rewrite app_assoc. apply take_app_length'. by rewrite length_binary_data.
Qed.

(** The image a fitting embed writes is a well-formed 8-bit image again:
    as many values as its shape says, each between 0 and 255. *)
Theorem stego_well_formed fs image_path data output_path img fs' :
  fs !! image_path = Some img →
  wf_image img →
  embed_data_in_image can_write fs image_path data output_path
  = (true, None, fs') →
  ∃ stego, fs' !! output_path = Some stego ∧ wf_image stego.
Proof.
  intros Hread Hwf. rewrite embed_cases, Hread
    by (intros img' Himg; congruence).
  case_bool_decide as Hcap; [discriminate|].
  destruct (can_write output_path); [|discriminate].
  intros [= <-]. exists (stego_of img data). rewrite lookup_insert_eq.
  split; [done|]. apply wf_stego_of; [done|lia].
Qed.

(** Embedding a second payload into an image that already carries one
    replaces it: what is extracted afterwards is the second payload (when
    its digits are free of the delimiter pattern), whatever the first one
    was. *)
Theorem reembed_replaces fs image_path data1 data2 out1 out2 img :
  fs !! image_path = Some img →
  wf_image img →
  can_write out1 = true → can_write out2 = true →
  (8 * length data1 + 16 ≤ rows img * cols img * channels img)%nat →
  (8 * length data2 + 16 ≤ rows img * cols img * channels img)%nat →
  ¬ occurs_in delimiter (to_binary data2) →
  ∃ fs1 fs2,
    embed_data_in_image can_write fs image_path data1 out1 = (true, None, fs1) ∧
    embed_data_in_image can_write fs1 out1 data2 out2 = (true, None, fs2) ∧
    extract_data_from_image fs2 out2 = Some data2.
Proof.
  intros Hread Hwf Hw1 Hw2 Hcap1 Hcap2 Hno.
  pose proof (wf_stego_of img data1 Hwf Hcap1) as Hwf1.
  exists (<[out1 := stego_of img data1]> fs).
  exists (<[out2 := stego_of (stego_of img data1) data2]>
            (<[out1 := stego_of img data1]> fs)).
  split; [by apply embed_fits|]. split.
  - apply embed_fits; [by rewrite lookup_insert_eq|done|done|done].
  - unfold extract_data_from_image, imread. rewrite lookup_insert_eq. cbv zeta.
    rewrite extract_stego; [|destruct Hwf1 as [Hl _]; cbn in Hl |- *; lia|done].
    by rewrite pad_to_binary, bytes_of_to_binary.
Qed.

(** Embedding is idempotent: embedding a payload into the image that
    already carries it writes that image again. *)
Theorem reembed_same fs image_path data out1 out2 img :
  fs !! image_path = Some img →
  wf_image img →
  can_write out1 = true → can_write out2 = true →
  (8 * length data + 16 ≤ rows img * cols img * channels img)%nat →
  ∃ stego fs1 fs2,
    embed_data_in_image can_write fs image_path data out1 = (true, None, fs1) ∧
    fs1 !! out1 = Some stego ∧
    embed_data_in_image can_write fs1 out1 data out2 = (true, None, fs2) ∧
    fs2 !! out2 = Some stego.
Proof.
  intros Hread Hwf Hw1 Hw2 Hcap.
  pose proof (wf_stego_of img data Hwf Hcap) as Hwf1.
  exists (stego_of img data), (<[out1 := stego_of img data]> fs).
  exists (<[out2 := stego_of (stego_of img data) data]>
            (<[out1 := stego_of img data]> fs)).
  split; [by apply embed_fits|]. split; [by rewrite lookup_insert_eq|].
  split; [apply embed_fits; [by rewrite lookup_insert_eq|done|done|done]|].
  rewrite lookup_insert_eq. f_equal.
  unfold stego_of. cbn [rows cols channels flat]. f_equal.
  set (n := length (to_binary data ++ delimiter)).
  set (z := zip_with set_lsb (take n (flat img)) (to_binary data ++ delimiter)).
  assert (length z = n) as Hz.
  { unfold z. rewrite length_zip_with, length_take. destruct Hwf as [Hl _].
    unfold n at 2. rewrite length_binary_data. fold n.
    assert (n = 8 * length data + 16)%nat by apply length_binary_data. lia. }
  rewrite take_app_length', drop_app_length' by done.
  f_equal. unfold z. apply zip_set_lsb_idem.
  rewrite length_take. destruct Hwf as [Hl _].
  assert (n = 8 * length data + 16)%nat by apply length_binary_data. lia.
Qed.

End FileExtras.

(** Extraction cuts at the first occurrence of the delimiter: when the
    LSBs of an image are some digits, then the delimiter, then anything,
    and the delimiter does not show up earlier, what is returned is those
    digits, filled with zero digits to whole bytes when their number is
    not a multiple of eight. *)
Theorem extract_first_delimiter fs image_path img (s tail : bitstring) :
  fs !! image_path = Some img →
  lsb <$> flat img = s ++ delimiter ++ tail →
  ¬ occurs_in delimiter (s ++ replicate 15 true) →
  extract_data_from_image fs image_path
  = Some (bytes_of_binary (pad_to_byte s)).
Proof.
  intros Hread Hflat Hno. unfold extract_data_from_image, imread.
  rewrite Hread. cbv zeta. do 3 f_equal.
  rewrite (extract_loop_found (s ++ replicate 15 true) (flat img) [] tail false).
  - cbn [app]. rewrite <- app_assoc.
    change (replicate 15 true ++ [false]) with delimiter.
    apply take_app_length'. rewrite length_app. cbn. lia.
  - rewrite Hflat. unfold delimiter. by rewrite <- !app_assoc.
  - intros k _. cbn [app]. apply endswith_false_not_suffix. intros [l1 Hl1].
    apply Hno. exists l1, (drop k (s ++ replicate 15 true)).
    by rewrite app_assoc, <- Hl1, take_drop.
  - cbn [app]. apply endswith_suffix. rewrite <- app_assoc. by exists s.
Qed.

Lemma embed_outcomes_witness :
  embed_data_in_image (fun _ => false) {[ "carrier.png" := carrier_4x4 ]}
    "carrier.png" ["001"; "002"]%byte "stego.png"
  = (false, Some (ValueError "Could not save steganographic image"),
     {[ "carrier.png" := carrier_4x4 ]}).
Proof.
  rewrite (embed_outcomes (fun _ => false) {[ "carrier.png" := carrier_4x4 ]}
             "carrier.png" ["001"; "002"]%byte "stego.png").
  - reflexivity.
  - intros img Himg. rewrite lookup_singleton_eq in Himg.
    injection Himg as <-. exact wf_carrier_4x4.
Defined.

Lemma stego_lsb_prefix_witness :
  ∃ stego,
    (embed_data_in_image any_path {[ "carrier.png" := carrier_4x4 ]}
       "carrier.png" ["255"; "254"]%byte "stego.png").2 !! "stego.png"
    = Some stego ∧
    take (8 * length ["255"; "254"]%byte + 16) (lsb <$> flat stego)
    = to_binary ["255"; "254"]%byte ++ delimiter.
Proof.
  apply (stego_lsb_prefix any_path {[ "carrier.png" := carrier_4x4 ]}
           "carrier.png" ["255"; "254"]%byte "stego.png" carrier_4x4).
  - reflexivity.
  - exact wf_carrier_4x4.
  - reflexivity.
  - vm_compute. lia.
Defined.

Lemma stego_well_formed_witness :
  ∃ stego,
    (embed_data_in_image any_path {[ "carrier.png" := carrier_4x4 ]}
       "carrier.png" ["001"; "002"]%byte "stego.png").2 !! "stego.png"
    = Some stego ∧ wf_image stego.
Proof.
  apply (stego_well_formed any_path {[ "carrier.png" := carrier_4x4 ]}
           "carrier.png" ["001"; "002"]%byte "stego.png" carrier_4x4).
  - reflexivity.
  - exact wf_carrier_4x4.
  - vm_compute. reflexivity.
Defined.

Lemma reembed_replaces_witness :
  ∃ fs1 fs2,
    embed_data_in_image any_path {[ "carrier.png" := carrier_4x4 ]}
      "carrier.png" ["255"; "254"; "007"]%byte "first.png" = (true, None, fs1) ∧
    embed_data_in_image any_path fs1 "first.png" ["h"; "i"]%byte "second.png"
    = (true, None, fs2) ∧
    extract_data_from_image fs2 "second.png" = Some ["h"; "i"]%byte.
Proof.
  apply (reembed_replaces any_path {[ "carrier.png" := carrier_4x4 ]}
           "carrier.png" ["255"; "254"; "007"]%byte ["h"; "i"]%byte
           "first.png" "second.png" carrier_4x4).
  - reflexivity.
  - exact wf_carrier_4x4.
  - reflexivity.
  - reflexivity.
  - vm_compute. lia.
  - vm_compute. lia.
  - apply occurs_inb_false. vm_compute. reflexivity.
Defined.

Lemma reembed_same_witness :
  ∃ stego fs1 fs2,
    embed_data_in_image any_path {[ "carrier.png" := carrier_4x4 ]}
      "carrier.png" ["h"; "i"]%byte "first.png" = (true, None, fs1) ∧
    fs1 !! "first.png" = Some stego ∧
    embed_data_in_image any_path fs1 "first.png" ["h"; "i"]%byte "second.png"
    = (true, None, fs2) ∧
    fs2 !! "second.png" = Some stego.
Proof.
  apply (reembed_same any_path {[ "carrier.png" := carrier_4x4 ]}
           "carrier.png" ["h"; "i"]%byte "first.png" "second.png" carrier_4x4).
  - reflexivity.
  - exact wf_carrier_4x4.
  - reflexivity.
  - reflexivity.
  - vm_compute. lia.
Defined.

Lemma extract_first_delimiter_witness :
  extract_data_from_image {[ "tagged.png" := tagged_2x5 ]} "tagged.png"
  = Some (bytes_of_binary (pad_to_byte [true; false; true])).
Proof.
  apply (extract_first_delimiter {[ "tagged.png" := tagged_2x5 ]} "tagged.png"
           tagged_2x5 [true; false; true] [true]).
  - reflexivity.
  - reflexivity.
  - apply occurs_inb_false. vm_compute. reflexivity.
Defined.

Example extract_tagged :
  extract_data_from_image {[ "tagged.png" := tagged_2x5 ]} "tagged.png"
  = Some ["160"%byte].
Proof. reflexivity. Qed.

End CodecExtras.

(** * Further properties of the identity-keyed encryption service *)

Module EncryptionExtras.
Import Buffer BufferProofs Encryption EncryptionProofs.

Section RuntimeProperties.

Variable cipher : string → list byte → list byte → list byte → list byte * list byte.
Variable decipher : string → list byte → list byte → list byte → list byte → option (list byte).
Variable pbkdf2 : string → list byte → N → nat → list byte.
Variable sha256 : list byte → list byte.
Variable JSON_stringify : metadata → string.
Variable JSON_parse : string → option metadata.

Lemma encryptWithPassword_decrypt (plain : list byte) (password : string)
    (salt iv : list byte) :
  let key := pbkdf2 password salt 100000 keyLength in
  length salt = 32%nat →
  length iv = 16%nat →
  length (cipher algorithm key [] plain).2 = 16%nat →
  decipher algorithm key [] (cipher algorithm key [] plain).2
    (cipher algorithm key [] plain).1 = Some plain →
  ∃ r,
    encryptWithPassword cipher pbkdf2 plain password salt iv = Success r ∧
    data r = salt ++ iv ++ (cipher algorithm key [] plain).2
                  ++ (cipher algorithm key [] plain).1 ∧
    decryptWithPassword decipher pbkdf2 (data r) password = Success plain.
Proof.
  intros key Hsalt Hiv Htag Hdec. unfold encryptWithPassword. fold key.
  destruct (decrypt_encrypt cipher decipher plain key iv Hiv Htag Hdec)
    as (e & He & Hd).
  rewrite He. eexists. split; [reflexivity|]. cbn [data].
  assert (data e = iv ++ (cipher algorithm key [] plain).2
                      ++ (cipher algorithm key [] plain).1) as Hdata.
  { unfold encrypt in He. destruct (cipher algorithm key [] plain).
    by injection He as <-. }
  split; [by rewrite Hdata|].
  unfold decryptWithPassword, saltLength, slice, slice_from.
  rewrite drop_0, Nat.sub_0_r, (take_app_length' salt) by done.
  rewrite drop_app_length' by done. fold key. exact Hd.
Qed.

(** What [decryptDocument] makes of a plaintext that [encryptDocument]
    put together, once the decryption step has given it back. *)
Lemma decryptDocument_reads_metadata (doc : list byte)
    (userId documentId : string) (now : Z) (encryptedData : list byte)
    (userId' documentId' : string) (password : option string) (now_key : Z) :
  let m := Metadata userId documentId now (length doc) (createHash sha256 doc) in
  let M := utf8 (JSON_stringify m) in
  let combined := writeUInt32BE (N.of_nat (length M)) ++ M ++ doc in
  (N.of_nat (length M) < 4294967296)%N →
  JSON_parse (JSON_stringify m) = Some m →
  match password with
  | Some pw =>
      if truthy password
      then decryptWithPassword decipher pbkdf2 encryptedData pw
      else decrypt decipher encryptedData
             (generateDocumentKey sha256 userId' documentId' now_key)
  | None =>
      decrypt decipher encryptedData
        (generateDocumentKey sha256 userId' documentId' now_key)
  end = Success combined →
  decryptDocument decipher pbkdf2 sha256 JSON_parse encryptedData
    userId' documentId' password now_key
  = if String.eqb userId userId'
    then Success (DecryptedDocument doc m)
    else Failure "Document ownership verification failed".
Proof.
  intros m M combined Hlen Hjson Hstep. unfold decryptDocument.
  rewrite Hstep. unfold combined at 1. rewrite read_write_UInt32BE by done.
  rewrite Nat2N.id. unfold combined at 1.
  rewrite (slice_middle (writeUInt32BE (N.of_nat (length M))) M doc 4) by done.
  unfold M at 1. rewrite of_utf8_utf8, Hjson.
  unfold combined. rewrite app_assoc, slice_from_app
    by (rewrite length_app; reflexivity).
  cbn [checksum Encryption.userId m]. rewrite String.eqb_refl. cbn [negb].
  by destruct (String.eqb userId userId').
Qed.

(** [encryptWithPassword] lays its output out as the 32-byte salt, the
    16-byte IV, the 16-byte tag and the ciphertext, and
    [decryptWithPassword] with the same password gets the plaintext back
    from it, re-deriving the key from the salt in front. *)
Theorem password_roundtrip (plain : list byte) (password : string)
    (salt iv : list byte) :
  let key := pbkdf2 password salt 100000 keyLength in
  length salt = 32%nat →
  length iv = 16%nat →
  length (cipher algorithm key [] plain).2 = 16%nat →
  decipher algorithm key [] (cipher algorithm key [] plain).2
    (cipher algorithm key [] plain).1 = Some plain →
  ∃ r,
    encryptWithPassword cipher pbkdf2 plain password salt iv = Success r ∧
    data r = salt ++ iv ++ (cipher algorithm key [] plain).2
                  ++ (cipher algorithm key [] plain).1 ∧
    decryptWithPassword decipher pbkdf2 (data r) password = Success plain.
Proof. exact (encryptWithPassword_decrypt plain password salt iv). Qed.

Lemma password_document_decrypts (doc : list byte)
    (userId documentId userId' documentId' pw : string)
    (now now_key now_key' : Z) (salt iv : list byte) (r : encrypted_document) :
  let m := Metadata userId documentId now (length doc) (createHash sha256 doc) in
  let M := utf8 (JSON_stringify m) in
  let combined := writeUInt32BE (N.of_nat (length M)) ++ M ++ doc in
  let key := pbkdf2 pw salt 100000 keyLength in
  truthy (Some pw) = true →
  length salt = 32%nat →
  length iv = 16%nat →
  length (cipher algorithm key [] combined).2 = 16%nat →
  decipher algorithm key [] (cipher algorithm key [] combined).2
    (cipher algorithm key [] combined).1 = Some combined →
  JSON_parse (JSON_stringify m) = Some m →
  encryptDocument cipher pbkdf2 sha256 JSON_stringify doc userId documentId
    (Some pw) now now_key salt iv = Success r →
  decryptDocument decipher pbkdf2 sha256 JSON_parse (encryptedData r)
    userId' documentId' (Some pw) now_key'
  = if String.eqb userId userId'
    then Success (DecryptedDocument doc m)
    else Failure "Document ownership verification failed".
Proof.
  intros m M combined key Hpw Hsalt Hiv Htag Hdec Hjson.
  unfold encryptDocument. fold m. fold M.
  destruct (4294967296 <=? N.of_nat (length M))%N eqn:Hlen; [discriminate|].
  apply N.leb_gt in Hlen. fold combined. rewrite Hpw.
  destruct (encryptWithPassword_decrypt combined pw salt iv Hsalt Hiv Htag Hdec)
    as (e & He & _ & Hd).
  rewrite He. intros Hr.
  assert (encryptedData r = data e) as -> by (injection Hr as <-; reflexivity).
  apply (decryptDocument_reads_metadata doc userId documentId now); [done|done|].
  by rewrite Hpw.
Qed.

(** A document encrypted with a password decrypts with that password for
    the user it was encrypted for, whatever the clock reads at either end
    and whatever document identifier is passed at decryption. *)
Theorem password_document_roundtrip (doc : list byte)
    (userId documentId documentId' pw : string)
    (now now_key now_key' : Z) (salt iv : list byte) (r : encrypted_document) :
  let m := Metadata userId documentId now (length doc) (createHash sha256 doc) in
  let M := utf8 (JSON_stringify m) in
  let combined := writeUInt32BE (N.of_nat (length M)) ++ M ++ doc in
  let key := pbkdf2 pw salt 100000 keyLength in
  truthy (Some pw) = true →
  length salt = 32%nat →
  length iv = 16%nat →
  length (cipher algorithm key [] combined).2 = 16%nat →
  decipher algorithm key [] (cipher algorithm key [] combined).2
    (cipher algorithm key [] combined).1 = Some combined →
  JSON_parse (JSON_stringify m) = Some m →
  encryptDocument cipher pbkdf2 sha256 JSON_stringify doc userId documentId
    (Some pw) now now_key salt iv = Success r →
  decryptDocument decipher pbkdf2 sha256 JSON_parse (encryptedData r)
    userId documentId' (Some pw) now_key'
  = Success (DecryptedDocument doc m).
Proof.
  intros m M combined key Hpw Hsalt Hiv Htag Hdec Hjson Henc.
  rewrite (password_document_decrypts doc userId documentId userId documentId'
             pw now now_key now_key' salt iv r) by done.
  by rewrite String.eqb_refl.
Qed.

(** The same package, decrypted with the right password on behalf of
    another user, is refused after decryption, by the ownership check on
    the metadata inside. *)
Theorem password_document_other_user (doc : list byte)
    (userId documentId userId' documentId' pw : string)
    (now now_key now_key' : Z) (salt iv : list byte) (r : encrypted_document) :
  let m := Metadata userId documentId now (length doc) (createHash sha256 doc) in
  let M := utf8 (JSON_stringify m) in
  let combined := writeUInt32BE (N.of_nat (length M)) ++ M ++ doc in
  let key := pbkdf2 pw salt 100000 keyLength in
  userId ≠ userId' →
  truthy (Some pw) = true →
  length salt = 32%nat →
  length iv = 16%nat →
  length (cipher algorithm key [] combined).2 = 16%nat →
  decipher algorithm key [] (cipher algorithm key [] combined).2
    (cipher algorithm key [] combined).1 = Some combined →
  JSON_parse (JSON_stringify m) = Some m →
  encryptDocument cipher pbkdf2 sha256 JSON_stringify doc userId documentId
    (Some pw) now now_key salt iv = Success r →
  decryptDocument decipher pbkdf2 sha256 JSON_parse (encryptedData r)
    userId' documentId' (Some pw) now_key'
  = Failure "Document ownership verification failed".
Proof.
  intros m M combined key Hne Hpw Hsalt Hiv Htag Hdec Hjson Henc.
  rewrite (password_document_decrypts doc userId documentId userId' documentId'
             pw now now_key now_key' salt iv r) by done.
  by rewrite (proj2 (String.eqb_neq _ _) Hne).
Qed.

(** Without a password the key is the digest of the user, the document
    and a clock reading: when decryption reads the clock value that
    encryption read for the key, the same user and document identifiers
    get the document and its metadata back. *)
Theorem identity_key_roundtrip (doc : list byte) (userId documentId : string)
    (now t : Z) (salt iv : list byte) (r : encrypted_document) :
  let m := Metadata userId documentId now (length doc) (createHash sha256 doc) in
  let M := utf8 (JSON_stringify m) in
  let combined := writeUInt32BE (N.of_nat (length M)) ++ M ++ doc in
  let key := generateDocumentKey sha256 userId documentId t in
  length iv = 16%nat →
  length (cipher algorithm key [] combined).2 = 16%nat →
  decipher algorithm key [] (cipher algorithm key [] combined).2
    (cipher algorithm key [] combined).1 = Some combined →
  JSON_parse (JSON_stringify m) = Some m →
  encryptDocument cipher pbkdf2 sha256 JSON_stringify doc userId documentId
    None now t salt iv = Success r →
  decryptDocument decipher pbkdf2 sha256 JSON_parse (encryptedData r)
    userId documentId None t = Success (DecryptedDocument doc m).
Proof.
  exact (decryptDocument_same_clock cipher decipher pbkdf2 sha256
           JSON_stringify JSON_parse doc userId documentId now t salt iv r).
Qed.

End RuntimeProperties.

Lemma password_roundtrip_witness :
  ∃ r,
    encryptWithPassword Standin.cipher Standin.pbkdf2 (utf8 "secret") "pw"
      Standin.draw32 Standin.draw16 = Success r ∧
    data r = Standin.draw32 ++ Standin.draw16
             ++ (Standin.cipher algorithm
                   (Standin.pbkdf2 "pw" Standin.draw32 100000 keyLength) []
                   (utf8 "secret")).2
             ++ (Standin.cipher algorithm
                   (Standin.pbkdf2 "pw" Standin.draw32 100000 keyLength) []
                   (utf8 "secret")).1 ∧
    decryptWithPassword Standin.decipher Standin.pbkdf2 (data r) "pw"
    = Success (utf8 "secret").
Proof.
  apply (password_roundtrip Standin.cipher Standin.decipher Standin.pbkdf2
           (utf8 "secret") "pw" Standin.draw32 Standin.draw16);
    vm_compute; reflexivity.
Defined.

Lemma password_document_roundtrip_witness :
  ∃ r,
    encryptDocument Standin.cipher Standin.pbkdf2 Standin.sha256
      Standin.stringify_metadata (utf8 "secret") "u1" "d1" (Some "pw")
      1000 1001 Standin.draw32 Standin.draw16 = Success r ∧
    decryptDocument Standin.decipher Standin.pbkdf2 Standin.sha256
      Standin.parse_metadata (encryptedData r) "u1" "other" (Some "pw") 999999
    = Success (DecryptedDocument (utf8 "secret")
                 (Metadata "u1" "d1" 1000 (length (utf8 "secret"))
                    (createHash Standin.sha256 (utf8 "secret")))).
Proof.
  eexists. split; [vm_compute; reflexivity|].
  apply (password_document_roundtrip Standin.cipher Standin.decipher
           Standin.pbkdf2 Standin.sha256 Standin.stringify_metadata
           Standin.parse_metadata (utf8 "secret") "u1" "d1" "other" "pw"
           1000 1001 999999 Standin.draw32 Standin.draw16);
    vm_compute; reflexivity.
Defined.

Lemma password_document_other_user_witness :
  ∃ r,
    encryptDocument Standin.cipher Standin.pbkdf2 Standin.sha256
      Standin.stringify_metadata (utf8 "secret") "u1" "d1" (Some "pw")
      1000 1001 Standin.draw32 Standin.draw16 = Success r ∧
    decryptDocument Standin.decipher Standin.pbkdf2 Standin.sha256
      Standin.parse_metadata (encryptedData r) "u2" "d1" (Some "pw") 1000
    = Failure "Document ownership verification failed".
Proof.
  eexists. split; [vm_compute; reflexivity|].
  apply (password_document_other_user Standin.cipher Standin.decipher
           Standin.pbkdf2 Standin.sha256 Standin.stringify_metadata
           Standin.parse_metadata (utf8 "secret") "u1" "d1" "u2" "d1" "pw"
           1000 1001 1000 Standin.draw32 Standin.draw16);
    try (vm_compute; reflexivity).
  discriminate.
Defined.

Lemma identity_key_roundtrip_witness :
  ∃ r,
    encryptDocument Standin.cipher Standin.pbkdf2 Standin.sha256
      Standin.stringify_metadata (utf8 "secret") "u1" "d1" None
      1000 1001 [] Standin.draw16 = Success r ∧
    decryptDocument Standin.decipher Standin.pbkdf2 Standin.sha256
      Standin.parse_metadata (encryptedData r) "u1" "d1" None 1001
    = Success (DecryptedDocument (utf8 "secret")
                 (Metadata "u1" "d1" 1000 (length (utf8 "secret"))
                    (createHash Standin.sha256 (utf8 "secret")))).
Proof.
  eexists. split; [vm_compute; reflexivity|].
  apply (identity_key_roundtrip Standin.cipher Standin.decipher
           Standin.pbkdf2 Standin.sha256 Standin.stringify_metadata
           Standin.parse_metadata (utf8 "secret") "u1" "d1" 1000 1001 []
           Standin.draw16);
    vm_compute; reflexivity.
Defined.

End EncryptionExtras.

(** * Further properties of the package-based encryption service *)

Module PackageExtras.
Import Buffer BufferProofs PackageEncryption PackageProofs.

Section RuntimeProperties.

Variable cipher : string → list byte → list byte → list byte → list byte * list byte.
Variable decipher : string → list byte → list byte → list byte → list byte → option (list byte).
Variable pbkdf2 : string → list byte → N → nat → list byte.
Variable JSON_stringify : package_metadata → string.
Variable JSON_parse : string → option package_metadata.

(** The package [encryptDocument] builds, and what it returns beside the
    serialized bytes. *)
Lemma encryptDocument_package (doc : list byte) (userPassword : option string)
    (draw1 draw2 draw3 : list byte) (now : Z) (r : encryption_result) :
  let k :=
    match userPassword with
    | Some pw => if truthy userPassword then pbkdf2 pw draw1 100000 32%nat else draw1
    | None => draw1
    end in
  let pkg :=
    Package (cipher aes_256_gcm k AAD doc).1 draw2
      (cipher aes_256_gcm k AAD doc).2
      (if truthy userPassword then None else Some k)
      (if truthy userPassword then Some draw3 else None) aes_256_gcm now in
  encryptDocument cipher pbkdf2 JSON_stringify doc userPassword
    draw1 draw2 draw3 now = Success r →
  serializeEncryptedPackage JSON_stringify pkg = Success (encryptedData r) ∧
  key_hex r = to_hex k ∧ e_timestamp r = now ∧
  e_size r = length (encryptedData r).
Proof.
  intros k pkg. unfold encryptDocument. fold k.
  destruct (cipher aes_256_gcm k AAD doc) as [ct tg] eqn:Hc.
  subst pkg. cbn [fst snd].
  destruct (serializeEncryptedPackage _ _) as [buf|e] eqn:Hs; [|discriminate].
  intros [= <-]. cbn [encryptedData key_hex e_timestamp e_size]. done.
Qed.

(** What [serializeEncryptedPackage] writes, [deserializeEncryptedPackage]
    reads back field for field: ciphertext, IV, tag, algorithm and
    timestamp, and the key and the salt when the package has them. *)
Theorem package_roundtrip (pkg : encrypted_package) (buf : list byte) :
  JSON_parse (JSON_stringify (metadata_of pkg)) = Some (metadata_of pkg) →
  serializeEncryptedPackage JSON_stringify pkg = Success buf →
  deserializeEncryptedPackage JSON_parse buf = Success pkg.
Proof. exact (deserialize_serialize JSON_stringify JSON_parse pkg buf). Qed.

(** The serialized package is the 4-byte length, the metadata and the
    fields one after another, so its length is the sum of theirs. *)
Theorem package_length (pkg : encrypted_package) (buf : list byte) :
  serializeEncryptedPackage JSON_stringify pkg = Success buf →
  length buf
  = (4 + length (utf8 (JSON_stringify (metadata_of pkg)))
     + ivLength (metadata_of pkg) + tagLength (metadata_of pkg)
     + encryptedLength (metadata_of pkg) + keyLength (metadata_of pkg)
     + saltLength (metadata_of pkg))%nat.
Proof.
  unfold serializeEncryptedPackage.
  destruct (_ <=? _)%N; [discriminate|]. intros Hs.
  match type of Hs with
  | Success ?x = _ => assert (buf = x) as -> by congruence
  end.
  rewrite !length_app, length_writeUInt32BE.
  destruct pkg as [E IV T [k|] [s|] alg ts]; cbn; lia.
Qed.

(** A document encrypted without a password is decrypted from the package
    alone: no key and no password are passed, the key is read out of the
    package. *)
Theorem keyless_decrypt (doc : list byte) (userPassword : option string)
    (draw1 draw2 draw3 : list byte) (now : Z) (r : encryption_result) :
  let pkg :=
    Package (cipher aes_256_gcm draw1 AAD doc).1 draw2
      (cipher aes_256_gcm draw1 AAD doc).2 (Some draw1) None aes_256_gcm now in
  truthy userPassword = false →
  JSON_parse (JSON_stringify (metadata_of pkg)) = Some (metadata_of pkg) →
  decipher aes_256_gcm draw1 AAD (cipher aes_256_gcm draw1 AAD doc).2
    (cipher aes_256_gcm draw1 AAD doc).1 = Some doc →
  encryptDocument cipher pbkdf2 JSON_stringify doc userPassword
    draw1 draw2 draw3 now = Success r →
  decryptDocument decipher pbkdf2 JSON_parse (encryptedData r) None None
  = Success (DecryptionResult doc aes_256_gcm now (length doc)).
Proof.
  intros pkg Hpw Hjson Hdec Henc.
  apply encryptDocument_package in Henc as (Hs & _). rewrite Hpw in Hs.
  assert (match userPassword with
          | Some pw => draw1
          | None => draw1
          end = draw1) as Hk by (by destruct userPassword).
  rewrite Hk in Hs. fold pkg in Hs.
  unfold decryptDocument.
  rewrite (deserialize_serialize _ _ pkg _ Hjson Hs).
  cbn [truthy salt key tag encrypted algorithm timestamp pkg].
  by rewrite Hdec.
Qed.

(** With a password, the cipher key is derived from one random salt and
    another random salt is stored: decryption with the password derives
    its key from the stored one, so the outcome is that of the decipher
    under the key of the second salt, whatever hex key is passed along. *)
Theorem password_decrypt_uses_stored_salt (doc : list byte) (pw : string)
    (hexkey : option string)
    (draw1 draw2 draw3 : list byte) (now : Z) (r : encryption_result) :
  let k := pbkdf2 pw draw1 100000 32%nat in
  let pkg :=
    Package (cipher aes_256_gcm k AAD doc).1 draw2
      (cipher aes_256_gcm k AAD doc).2 None (Some draw3) aes_256_gcm now in
  truthy (Some pw) = true →
  JSON_parse (JSON_stringify (metadata_of pkg)) = Some (metadata_of pkg) →
  encryptDocument cipher pbkdf2 JSON_stringify doc (Some pw)
    draw1 draw2 draw3 now = Success r →
  decryptDocument decipher pbkdf2 JSON_parse (encryptedData r) hexkey (Some pw)
  = match decipher aes_256_gcm (pbkdf2 pw draw3 100000 32%nat) AAD
            (cipher aes_256_gcm k AAD doc).2 (cipher aes_256_gcm k AAD doc).1 with
    | Some decrypted =>
        Success (DecryptionResult decrypted aes_256_gcm now (length decrypted))
    | None => Failure "Unsupported state or unable to authenticate data"
    end.
Proof.
  intros k pkg Hpw Hjson Henc.
  apply encryptDocument_package in Henc as (Hs & _). rewrite Hpw in Hs.
  fold k in Hs. fold pkg in Hs.
  unfold decryptDocument.
  rewrite (deserialize_serialize _ _ pkg _ Hjson Hs).
  cbn [salt key tag encrypted algorithm timestamp pkg]. rewrite Hpw.
  reflexivity.
Qed.

(** The hex key returned by [encryptDocument] decrypts the package when no
    password is passed, also for a package that was encrypted with a
    password. *)
Theorem returned_key_decrypts (doc : list byte) (userPassword : option string)
    (draw1 draw2 draw3 : list byte) (now : Z) (r : encryption_result) :
  let k :=
    match userPassword with
    | Some pw => if truthy userPassword then pbkdf2 pw draw1 100000 32%nat else draw1
    | None => draw1
    end in
  let pkg :=
    Package (cipher aes_256_gcm k AAD doc).1 draw2
      (cipher aes_256_gcm k AAD doc).2
      (if truthy userPassword then None else Some k)
      (if truthy userPassword then Some draw3 else None) aes_256_gcm now in
  k ≠ [] →
  JSON_parse (JSON_stringify (metadata_of pkg)) = Some (metadata_of pkg) →
  decipher aes_256_gcm k AAD (cipher aes_256_gcm k AAD doc).2
    (cipher aes_256_gcm k AAD doc).1 = Some doc →
  encryptDocument cipher pbkdf2 JSON_stringify doc userPassword
    draw1 draw2 draw3 now = Success r →
  decryptDocument decipher pbkdf2 JSON_parse (encryptedData r)
    (Some (key_hex r)) None
  = Success (DecryptionResult doc aes_256_gcm now (length doc)).
Proof.
  intros k pkg Hk Hjson Hdec Henc.
  apply encryptDocument_package in Henc as (Hs & Hhex & _).
  fold k in Hs, Hhex. fold pkg in Hs.
  unfold decryptDocument.
  rewrite (deserialize_serialize _ _ pkg _ Hjson Hs), Hhex.
  assert (truthy (Some (to_hex k)) = true) as ->.
  { destruct k as [|b k']; [done|]. reflexivity. }
  cbn [from_option id]. rewrite from_hex_to_hex.
  cbn [tag encrypted algorithm timestamp pkg]. by rewrite Hdec.
Qed.

(** A package encrypted with a password carries no key: decryption with
    neither a key nor a password stops with an error before the decipher
    is reached. *)
Theorem password_package_needs_key (doc : list byte) (pw : string)
    (hexkey userPassword : option string)
    (draw1 draw2 draw3 : list byte) (now : Z) (r : encryption_result) :
  let k := pbkdf2 pw draw1 100000 32%nat in
  let pkg :=
    Package (cipher aes_256_gcm k AAD doc).1 draw2
      (cipher aes_256_gcm k AAD doc).2 None (Some draw3) aes_256_gcm now in
  truthy (Some pw) = true →
  truthy hexkey = false →
  truthy userPassword = false →
  JSON_parse (JSON_stringify (metadata_of pkg)) = Some (metadata_of pkg) →
  encryptDocument cipher pbkdf2 JSON_stringify doc (Some pw)
    draw1 draw2 draw3 now = Success r →
  decryptDocument decipher pbkdf2 JSON_parse (encryptedData r) hexkey userPassword
  = Failure "No valid decryption key provided".
Proof.
  intros k pkg Hpw Hkey Hup Hjson Henc.
  apply encryptDocument_package in Henc as (Hs & _). rewrite Hpw in Hs.
  fold k in Hs. fold pkg in Hs.
  unfold decryptDocument.
  rewrite (deserialize_serialize _ _ pkg _ Hjson Hs).
  cbn [salt key pkg]. rewrite Hup, Hkey.
  by destruct userPassword.
Qed.

End RuntimeProperties.

Lemma package_roundtrip_witness :
  ∃ buf,
    serializeEncryptedPackage Standin.stringify_package Standin.sample_package
    = Success buf ∧
    deserializeEncryptedPackage Standin.parse_package buf
    = Success Standin.sample_package.
Proof.
  eexists. split; [vm_compute; reflexivity|].
  apply (package_roundtrip Standin.stringify_package Standin.parse_package);
    vm_compute; reflexivity.
Defined.

Lemma package_length_witness :
  ∃ buf,
    serializeEncryptedPackage Standin.stringify_package Standin.sample_package
    = Success buf ∧
    length buf
    = (4 + length (utf8 (Standin.stringify_package (metadata_of Standin.sample_package)))
       + 16 + 16 + 10 + 32 + 32)%nat.
Proof.
  eexists. split; [vm_compute; reflexivity|].
  apply (package_length Standin.stringify_package Standin.sample_package).
  vm_compute; reflexivity.
Defined.

Lemma keyless_decrypt_witness :
  ∃ r,
    encryptDocument Standin.cipher Standin.pbkdf2 Standin.stringify_package
      (utf8 "secret") None Standin.draw32 Standin.draw16 [] 1000 = Success r ∧
    decryptDocument Standin.decipher Standin.pbkdf2 Standin.parse_package
      (encryptedData r) None None
    = Success (DecryptionResult (utf8 "secret") aes_256_gcm 1000 6).
Proof.
  eexists. split; [vm_compute; reflexivity|].
  apply (keyless_decrypt Standin.cipher Standin.decipher Standin.pbkdf2
           Standin.stringify_package Standin.parse_package (utf8 "secret")
           None Standin.draw32 Standin.draw16 [] 1000);
    vm_compute; reflexivity.
Defined.

Lemma password_decrypt_uses_stored_salt_witness :
  ∃ r,
    encryptDocument Standin.cipher Standin.pbkdf2 Standin.stringify_package
      (utf8 "secret") (Some "pw") Standin.draw32 Standin.draw16
      Standin.draw32' 1000 = Success r ∧
    decryptDocument Standin.decipher Standin.pbkdf2 Standin.parse_package
      (encryptedData r) None (Some "pw")
    = Failure "Unsupported state or unable to authenticate data".
Proof.
  eexists. split; [vm_compute; reflexivity|].
  etrans.
  - apply (password_decrypt_uses_stored_salt Standin.cipher Standin.decipher
             Standin.pbkdf2 Standin.stringify_package Standin.parse_package
             (utf8 "secret") "pw" None Standin.draw32 Standin.draw16
             Standin.draw32' 1000);
      vm_compute; reflexivity.
  - vm_compute; reflexivity.
Defined.

Lemma returned_key_decrypts_witness :
  ∃ r,
    encryptDocument Standin.cipher Standin.pbkdf2 Standin.stringify_package
      (utf8 "secret") (Some "pw") Standin.draw32 Standin.draw16
      Standin.draw32' 1000 = Success r ∧
    decryptDocument Standin.decipher Standin.pbkdf2 Standin.parse_package
      (encryptedData r) (Some (key_hex r)) None
    = Success (DecryptionResult (utf8 "secret") aes_256_gcm 1000 6).
Proof.
  eexists. split; [vm_compute; reflexivity|].
  apply (returned_key_decrypts Standin.cipher Standin.decipher Standin.pbkdf2
           Standin.stringify_package Standin.parse_package (utf8 "secret")
           (Some "pw") Standin.draw32 Standin.draw16 Standin.draw32' 1000);
    [vm_compute; discriminate|vm_compute; reflexivity..].
Defined.

Lemma password_package_needs_key_witness :
  ∃ r,
    encryptDocument Standin.cipher Standin.pbkdf2 Standin.stringify_package
      (utf8 "secret") (Some "pw") Standin.draw32 Standin.draw16
      Standin.draw32' 1000 = Success r ∧
    decryptDocument Standin.decipher Standin.pbkdf2 Standin.parse_package
      (encryptedData r) None None
    = Failure "No valid decryption key provided".
Proof.
  eexists. split; [vm_compute; reflexivity|].
  apply (password_package_needs_key Standin.cipher Standin.decipher
           Standin.pbkdf2 Standin.stringify_package Standin.parse_package
           (utf8 "secret") "pw" None None Standin.draw32 Standin.draw16
           Standin.draw32' 1000);
    vm_compute; reflexivity.
Defined.

End PackageExtras.

(** * Further properties of the document-access route *)

Module GateExtras.
Import Gate GateProofs.

(** The route returns a document only when every gate was open: data and
    challenge present, the challenge accepted, exactly one document with
    the requested id owned by the caller, the clock inside its window, its
    status active, exactly one template of the caller for the type, and a
    biometric comparison that succeeded and matched; and then the success
    record is the one record it wrote. *)
Theorem release_requires_open_gate (svc : services) (req : request) (now : Z)
    (db db' : database) (resp : response) :
  verify_route svc req now db = (inr resp, db') →
  ∃ bd ch d t processed v,
    biometricData req = Some bd ∧ challenge req = Some ch ∧
    validateChallenge svc (challenge_value ch) (challenge_timestamp ch) = true ∧
    single (filter (fun d => doc_id d = documentId req ∧ doc_user_id d = userId req)
              (documents db)) = Some d ∧
    d ∈ documents db ∧ doc_id d = documentId req ∧ doc_user_id d = userId req ∧
    start_time d ≤ now ≤ end_time d ∧
    document_status d = "active" ∧
    single (filter (fun t => tpl_user_id t = userId req ∧
                             tpl_biometric_type t = type req)
              (biometric_templates db)) = Some t ∧
    processWebAuthnData svc bd (type req) = Biometric.Success processed ∧
    verifyBiometric svc processed (template_data t) (type req)
    = Biometric.Success v ∧
    Biometric.verified v = true ∧
    res_id resp = documentId req ∧
    db' = add_log db (AccessLog (userId req) (documentId req)
                        "biometric_verification" true None
                        (Some (Biometric.v_confidence v)) now).
Proof.
  unfold verify_route.
  destruct (biometricData req) as [bd|] eqn:Hbd; [|discriminate].
  destruct (challenge req) as [ch|] eqn:Hch; [|discriminate].
  unfold try_catch.
  destruct (verify_try svc req bd ch now db) as [[e|r] db1] eqn:Htry.
  { intros Hc. pose proof (verify_catch_rethrows req now e db1) as He.
    rewrite Hc in He. discriminate. }
  intros [= -> ->]. revert Htry.
  unfold verify_try, mbind, M_bind, mret, M_ret, select_document,
    select_template, throw.
  destruct (validateChallenge svc _ _) eqn:Hval; cbn [negb]; [|discriminate].
  destruct (single (filter _ (documents db))) as [d|] eqn:Hd; [|discriminate].
  destruct (now <? start_time d) eqn:Hstart; [discriminate|].
  destruct (end_time d <? now) eqn:Hend; [discriminate|].
  destruct (String.eqb (document_status d) "active") eqn:Hact; cbn [negb];
    [|discriminate].
  destruct (single (filter _ (biometric_templates db))) as [t|] eqn:Ht;
    [|discriminate].
  destruct (processWebAuthnData svc bd (type req)) as [processed|] eqn:Hp;
    [|discriminate].
  destruct (verifyBiometric svc processed _ _) as [v|] eqn:Hv; [|discriminate].
  destruct (Biometric.verified v) eqn:Hver; cbn [negb];
    [|by rewrite insert_access_log_known
        by exact (selected_document_known db _ _ d Hd)].
  destruct (downloadFromS3 svc _) as [body|]; [|discriminate].
  destruct (extractDocument svc body) as [extracted|]; [|discriminate].
  destruct (decryptDocument svc extracted _ _) as [dec|]; [|discriminate].
  rewrite insert_access_log_known by exact (selected_document_known db _ _ d Hd).
  intros [= <- <-].
  destruct (selected_document db _ _ d Hd) as (Hin & Hid & Huid).
  apply Z.ltb_ge in Hstart, Hend. apply String.eqb_eq in Hact.
  exists bd, ch, d, t, processed, v. cbn [res_id].
  repeat split; try done.
Qed.

(** The route never changes the documents or the templates, and never
    removes or rewrites an access record: it appends at most two. *)
Theorem verify_route_frame (svc : services) (req : request) (now : Z)
    (db : database) :
  documents (verify_route svc req now db).2 = documents db ∧
  biometric_templates (verify_route svc req now db).2 = biometric_templates db ∧
  ∃ rows,
    access_logs (verify_route svc req now db).2 = access_logs db ++ rows ∧
    (length rows ≤ 2)%nat ∧
    Forall (fun row => log_user_id row = userId req ∧
                       log_document_id row = documentId req ∧
                       log_timestamp row = now) rows.
Proof.
  assert (∀ l : list access_log, ∃ rows, l = l ++ rows ∧
            (length rows ≤ 2)%nat ∧
            Forall (fun row => log_user_id row = userId req ∧
                               log_document_id row = documentId req ∧
                               log_timestamp row = now) rows) as Hnone.
  { intros l. exists []. rewrite app_nil_r. repeat split; [cbn; lia|constructor]. }
  unfold verify_route.
  destruct (biometricData req) as [bd|]; [|by cbn].
  destruct (challenge req) as [ch|]; [|by cbn].
  unfold try_catch, verify_catch, mbind, M_bind, mret, M_ret, throw,
    insert_access_log.
  destruct (verify_try_outcome svc req bd ch now db)
    as [(e & -> & Hne)|[(c & -> & _)|(resp & c & -> & _)]].
  - destruct (truthy_string _ && truthy_string _);
      [destruct (references_document _ _)|]; cbn;
      (split; [done|]); (split; [done|]); [|done..].
    eexists [_]. repeat split; [cbn; lia|by repeat constructor].
  - destruct (truthy_string _ && truthy_string _);
      [destruct (references_document _ _)|]; cbn;
      (split; [done|]); (split; [done|]).
    + eexists [_; _]. rewrite <- app_assoc. repeat split; [cbn; lia|].
      by repeat constructor.
    + eexists [_]. repeat split; [cbn; lia|by repeat constructor].
    + eexists [_]. repeat split; [cbn; lia|by repeat constructor].
  - cbn. (split; [done|]); (split; [done|]).
    eexists [_]. repeat split; [cbn; lia|by repeat constructor].
Qed.



Lemma release_requires_open_gate_witness :
  ∃ resp db',
    verify_route (fixed_services true) full_request 1500 one_document_db
    = (inr resp, db') ∧
    ∃ bd ch d t processed v,
      biometricData full_request = Some bd ∧ challenge full_request = Some ch ∧
      validateChallenge (fixed_services true) (challenge_value ch)
        (challenge_timestamp ch) = true ∧
      single (filter (fun d => doc_id d = documentId full_request ∧
                               doc_user_id d = userId full_request)
                (documents one_document_db)) = Some d ∧
      d ∈ documents one_document_db ∧ doc_id d = documentId full_request ∧
      doc_user_id d = userId full_request ∧
      start_time d ≤ 1500 ≤ end_time d ∧
      document_status d = "active" ∧
      single (filter (fun t => tpl_user_id t = userId full_request ∧
                               tpl_biometric_type t = type full_request)
                (biometric_templates one_document_db)) = Some t ∧
      processWebAuthnData (fixed_services true) bd (type full_request)
      = Biometric.Success processed ∧
      verifyBiometric (fixed_services true) processed (template_data t)
        (type full_request) = Biometric.Success v ∧
      Biometric.verified v = true ∧
      res_id resp = documentId full_request ∧
      db' = add_log one_document_db
              (AccessLog (userId full_request) (documentId full_request)
                 "biometric_verification" true None
                 (Some (Biometric.v_confidence v)) 1500).
Proof.
  eexists _, _. split; [vm_compute; reflexivity|].
  apply (release_requires_open_gate (fixed_services true) full_request 1500
           one_document_db).
  vm_compute. reflexivity.
Defined.



End GateExtras.

(** * Further properties of the biometric service *)

Module BiometricExtras.
Import Biometric BiometricProofs.

Local Open Scope float_scope.
Local Set Warnings "-inexact-float".

(** The feature one digest byte gives lies in [-1, 1]. *)
Lemma feature_of_byte_range (b : byte) :
  (-1 <=? fround (float_of_byte b / 255 * 2 - 1)) = true ∧
  (fround (float_of_byte b / 255 * 2 - 1) <=? 1) = true.
Proof. destruct b; vm_compute; split; reflexivity. Qed.

Section ServiceExtras.

Variable sha256 : list byte → list byte.
Variable hash_features : list float → string.

(** With a digest that is not empty, [generateMockFeatures] gives 512
    numbers, each between -1 and 1 after the rounding to single
    precision. *)
Theorem mock_features_in_range (data : list byte) (type : string) :
  sha256 data ≠ [] →
  length (generateMockFeatures sha256 data type) = 512%nat ∧
  Forall (fun x => (-1 <=? x) = true ∧ (x <=? 1) = true)
    (generateMockFeatures sha256 data type).
Proof.
  intros Hne. split; [apply length_generateMockFeatures|].
  unfold generateMockFeatures. apply Forall_fmap, Forall_forall.
  intros i _. cbn.
  destruct (lookup_lt_is_Some_2 (sha256 data) (i mod length (sha256 data))%nat)
    as [b ->].
  { apply Nat.mod_upper_bound. by destruct (sha256 data). }
  apply feature_of_byte_range.
Qed.

Lemma verify_enrolled (userId type type' : string) (data data' : list byte)
    (now now' : Z) (t : enrolled_template) (q : float) :
  enrollBiometric sha256 hash_features userId data type now = Success (t, q) →
  let feats := generateMockFeatures sha256 data' type' in
  let sim := cosineSimilarity feats (t_features t) in
  let thr := if String.eqb type' "fingerprint" then 0.85 else 0.90 in
  t_features t = generateMockFeatures sha256 data type ∧
  q = assessQuality (t_features t) type ∧
  verifyBiometric sha256 hash_features data' (stored t) type' now'
  = if assessQuality feats type' <? 0.5
    then Failed "Biometric quality too low" (Some (assessQuality feats type'))
    else Success (Verification (thr <=? sim) sim sim thr
                    (assessQuality feats type') now').
Proof.
  unfold enrollBiometric, extractFeatures. intros [= <- <-]. cbn zeta.
  cbn [t_features stored]. split; [done|]. split; [done|].
  unfold verifyBiometric, extractFeatures. cbn [features hash t_hash].
  rewrite String.eqb_refl. cbn [negb].
  unfold compareFeatures. rewrite !length_generateMockFeatures.
  cbn [Nat.eqb negb]. cbv zeta.
  cbn [is_match confidence similarity threshold]. reflexivity.
Qed.

(** A template that [enrollBiometric] returned passes the integrity check
    and the dimension check of [verifyBiometric] for every sample: the
    outcome is the low-quality rejection or a verdict of the similarity
    against the threshold of the type, nothing else. *)
Theorem enrolled_template_verifies (userId type type' : string)
    (data data' : list byte) (now now' : Z) (t : enrolled_template) (q : float) :
  enrollBiometric sha256 hash_features userId data type now = Success (t, q) →
  let feats := generateMockFeatures sha256 data' type' in
  let sim := cosineSimilarity feats (t_features t) in
  let thr := if String.eqb type' "fingerprint" then 0.85 else 0.90 in
  verifyBiometric sha256 hash_features data' (stored t) type' now'
  = if assessQuality feats type' <? 0.5
    then Failed "Biometric quality too low" (Some (assessQuality feats type'))
    else Success (Verification (thr <=? sim) sim sim thr
                    (assessQuality feats type') now').
Proof.
  intros Henr.
  exact (proj2 (proj2 (verify_enrolled userId type type' data data' now now'
                         t q Henr))).
Qed.

(** Enrollment has no quality gate: a sample whose quality is below 0.5 is
    enrolled, with that quality reported, and the template it gives
    rejects the very sample it was made from. *)
Theorem enrollment_without_quality_gate (userId type : string)
    (data : list byte) (now now' : Z) :
  let feats := generateMockFeatures sha256 data type in
  (assessQuality feats type <? 0.5) = true →
  ∃ t,
    enrollBiometric sha256 hash_features userId data type now
    = Success (t, assessQuality feats type) ∧
    verifyBiometric sha256 hash_features data (stored t) type now'
    = Failed "Biometric quality too low" (Some (assessQuality feats type)).
Proof.
  intros feats Hq. eexists. split; [reflexivity|].
  destruct (verify_enrolled userId type type data data now now' _ _ eq_refl)
    as (_ & _ & ->).
  fold feats. by rewrite Hq.
Qed.

End ServiceExtras.

(** A challenge is accepted exactly while the clock is at most five
    minutes past its timestamp, whatever its text; one that
    [generateChallenge] issued is accepted until the [expires] it carries
    when the two clock readings of its issue are the same, and never after
    it when the clock does not run backwards. *)
Theorem challenge_lifetime (base64 : list byte → string) (draw : list byte)
    (now1 now2 now : Z) (text : string) :
  let c := generateChallenge base64 draw now1 now2 in
  (now1 ≤ now2)%Z →
  (validateChallenge text (c_timestamp c) now = true ↔ (now ≤ now1 + 300000)%Z) ∧
  (validateChallenge text (c_timestamp c) now = true → (now ≤ c_expires c)%Z) ∧
  (now1 = now2 →
   (now ≤ c_expires c)%Z → validateChallenge text (c_timestamp c) now = true).
Proof.
  intros c Hclock. unfold validateChallenge, c, generateChallenge.
  cbn [c_timestamp c_expires].
  rewrite Z.leb_le. repeat split; intros; lia.
Qed.

Lemma mock_features_in_range_witness :
  length (generateMockFeatures zero_digest [] "face") = 512%nat ∧
  Forall (fun x => (-1 <=? x) = true ∧ (x <=? 1) = true)
    (generateMockFeatures zero_digest [] "face").
Proof.
  apply (mock_features_in_range zero_digest [] "face"). discriminate.
Defined.

Lemma enrolled_template_verifies_witness :
  ∃ t q,
    enrollBiometric zero_digest count_hash "u1" [] "face" 1000 = Success (t, q) ∧
    verifyBiometric zero_digest count_hash [] (stored t) "fingerprint" 2000
    = let feats := generateMockFeatures zero_digest [] "fingerprint" in
      let sim := cosineSimilarity feats (t_features t) in
      let thr := if String.eqb "fingerprint" "fingerprint" then 0.85 else 0.90 in
      if assessQuality feats "fingerprint" <? 0.5
      then Failed "Biometric quality too low"
             (Some (assessQuality feats "fingerprint"))
      else Success (Verification (thr <=? sim) sim sim thr
                      (assessQuality feats "fingerprint") 2000).
Proof.
  eexists _, _. split; [reflexivity|].
  apply (enrolled_template_verifies zero_digest count_hash "u1" "face"
           "fingerprint" [] [] 1000 2000 _ _ eq_refl).
Defined.

Lemma enrollment_without_quality_gate_witness :
  ∃ t,
    enrollBiometric zero_digest count_hash "u1" [] "face" 1000
    = Success (t, assessQuality (generateMockFeatures zero_digest [] "face")
                    "face") ∧
    verifyBiometric zero_digest count_hash [] (stored t) "face" 2000
    = Failed "Biometric quality too low"
        (Some (assessQuality (generateMockFeatures zero_digest [] "face")
                 "face")).
Proof.
  apply (enrollment_without_quality_gate zero_digest count_hash "u1" "face" []
           1000 2000).
  vm_compute. reflexivity.
Defined.

Lemma challenge_lifetime_witness :
  (validateChallenge "any" 1000 301000 = true ↔ (301000 ≤ 1000 + 300000)%Z) ∧
  (validateChallenge "any" 1000 301000 = true → (301000 ≤ 1000 + 5 * 60 * 1000)%Z) ∧
  (1000%Z = 1000%Z →
   (301000 ≤ 1000 + 5 * 60 * 1000)%Z → validateChallenge "any" 1000 301000 = true).
Proof.
  apply (challenge_lifetime Standin.base64 Standin.draw32 1000 1000 301000 "any").
  lia.
Defined.

End BiometricExtras.

(** * Further properties of template registration *)

Module RegistrationExtras.
Import Buffer BufferProofs Registration.

Section RuntimeProperties.

Variable sha256 : list byte → list byte.
Variable join_comma : list float → string.
Variable JSON_stringify : list float → string.
Variable cipher : string → list byte → list byte → list byte → list byte * list byte.
Variable base64 : list byte → string.
Variable decipher : string → list byte → list byte → list byte → list byte → option (list byte).
Variable from_base64 : string → list byte.
Variable JSON_parse : string → option (list float).

Lemma decrypt_encrypted_template (template : list float) (key iv : list byte) :
  let sealed := cipher "aes-256-gcm" key [] (utf8 (JSON_stringify template)) in
  length iv = 16%nat →
  length sealed.2 = 16%nat →
  from_base64 (base64 (iv ++ sealed.2 ++ sealed.1)) = iv ++ sealed.2 ++ sealed.1 →
  decipher "aes-256-gcm" key [] sealed.2 sealed.1
  = Some (utf8 (JSON_stringify template)) →
  JSON_parse (JSON_stringify template) = Some template →
  decryptTemplate decipher from_base64 JSON_parse
    (encryptTemplate JSON_stringify cipher base64 template key iv) key
  = PackageEncryption.Success template.
Proof.
  intros sealed Hiv Htag Hb64 Hdec Hjson.
  unfold encryptTemplate, decryptTemplate. fold sealed.
  destruct sealed as [ct tg] eqn:Hs. cbn [fst snd] in *.
  rewrite Hb64.
  assert (slice 16 32 (iv ++ tg ++ ct) = tg) as ->.
  { replace 32%nat with (16 + length tg)%nat by lia.
    apply (PackageProofs.slice_at iv tg ct); done. }
  assert (slice_from 32 (iv ++ tg ++ ct) = ct) as ->.
  { unfold slice_from. rewrite app_assoc.
    apply drop_app_length'. rewrite length_app. lia. }
  by rewrite Hdec, of_utf8_utf8, Hjson.
Qed.

(** [decryptTemplate] undoes [encryptTemplate] under the same key: the
    text is cut into the sixteen bytes of the IV, the sixteen of the tag
    and the ciphertext, and the template is read back from the
    plaintext. *)
Theorem template_roundtrip (template : list float) (key iv : list byte) :
  let sealed := cipher "aes-256-gcm" key [] (utf8 (JSON_stringify template)) in
  length iv = 16%nat →
  length sealed.2 = 16%nat →
  from_base64 (base64 (iv ++ sealed.2 ++ sealed.1)) = iv ++ sealed.2 ++ sealed.1 →
  decipher "aes-256-gcm" key [] sealed.2 sealed.1
  = Some (utf8 (JSON_stringify template)) →
  JSON_parse (JSON_stringify template) = Some template →
  decryptTemplate decipher from_base64 JSON_parse
    (encryptTemplate JSON_stringify cipher base64 template key iv) key
  = PackageEncryption.Success template.
Proof. exact (decrypt_encrypted_template template key iv). Qed.

(** The row a registration writes decrypts by itself: [decryptTemplate]
    applied to its [template_data] under the key its [encryption_key]
    spells gives the template of the credential. *)
Theorem registered_row_decrypts (req : request) (c : string)
    (encryptionKey iv : list byte) (now : string) (table : list template_row) :
  let template := createMockBiometricTemplate sha256 c in
  let sealed :=
    cipher "aes-256-gcm" encryptionKey [] (utf8 (JSON_stringify template)) in
  credentialData req = Some c →
  length iv = 16%nat →
  length sealed.2 = 16%nat →
  from_base64 (base64 (iv ++ sealed.2 ++ sealed.1)) = iv ++ sealed.2 ++ sealed.1 →
  decipher "aes-256-gcm" encryptionKey [] sealed.2 sealed.1
  = Some (utf8 (JSON_stringify template)) →
  JSON_parse (JSON_stringify template) = Some template →
  ∃ resp,
    (register_route sha256 join_comma JSON_stringify cipher base64 req
       encryptionKey iv now table).1 = inr resp ∧
    res_row resp ∈
      (register_route sha256 join_comma JSON_stringify cipher base64 req
         encryptionKey iv now table).2 ∧
    decryptTemplate decipher from_base64 JSON_parse
      (template_data (res_row resp)) (from_hex (encryption_key (res_row resp)))
    = PackageEncryption.Success template.
Proof.
  intros template sealed Hc Hiv Htag Hb64 Hdec Hjson.
  destruct (ColocationProofs.register_row_holds_key cipher sha256 join_comma
              JSON_stringify base64 req c encryptionKey iv now table Hc)
    as (resp & Hres & Hin & _ & Hkey & Hdata).
  exists resp. split; [done|]. split; [done|].
  rewrite Hkey, Hdata.
  by apply decrypt_encrypted_template.
Qed.

Lemma update_row_matches (userId biometricType : string)
    (p : process_result) (e k now : string) (ua : option string)
    (row : template_row) :
  matches userId biometricType (update_row p e k now ua row)
  = matches userId biometricType row.
Proof. reflexivity. Qed.

Lemma filter_update (userId biometricType : string) (f : template_row → template_row)
    (table : list template_row) :
  (∀ row, matches userId biometricType (f row) = matches userId biometricType row) →
  length (filter (fun row => matches userId biometricType row = true)
            ((fun row => if matches userId biometricType row then f row else row)
               <$> table))
  = length (filter (fun row => matches userId biometricType row = true) table) ∧
  filter (fun row => matches userId biometricType row = false)
    ((fun row => if matches userId biometricType row then f row else row)
       <$> table)
  = filter (fun row => matches userId biometricType row = false) table.
Proof.
  intros Hf. induction table as [|row table [IH1 IH2]]; [done|].
  rewrite fmap_cons.
  destruct (matches userId biometricType row) eqn:Hm.
  - rewrite !filter_cons_True, !filter_cons_False by (rewrite ?Hf, Hm; done).
    cbn [length]. by rewrite IH1, IH2.
  - rewrite !filter_cons_False, !filter_cons_True by (rewrite Hm; done).
    by rewrite IH1, IH2.
Qed.

(** Registration keeps one template per user and type: on a table with at
    most one row of the caller's for the type, a registration that
    carries credential data leaves exactly one, and the rows of other
    users and types are as they were. *)
Theorem register_keeps_one_row (req : request) (c : string)
    (encryptionKey iv : list byte) (now : string) (table : list template_row) :
  let mine := fun row => matches (userId req) (req_biometricType req) row = true in
  let others := fun row => matches (userId req) (req_biometricType req) row = false in
  let table' :=
    (register_route sha256 join_comma JSON_stringify cipher base64 req
       encryptionKey iv now table).2 in
  credentialData req = Some c →
  (length (filter mine table) ≤ 1)%nat →
  length (filter mine table') = 1%nat ∧
  filter others table' = filter others table.
Proof.
  intros mine others table' Hc Hone. subst table'.
  unfold register_route. rewrite Hc. cbv zeta. fold mine.
  destruct (filter mine table) as [|x [|y l]] eqn:Hf; cbn [Gate.single snd].
  - rewrite !filter_app, Hf.
    rewrite filter_cons_True, filter_cons_False, !filter_nil.
    + by rewrite app_nil_r.
    + unfold others, matches. cbn [user_id biometric_type].
      by rewrite !String.eqb_refl.
    + unfold mine, matches. cbn [user_id biometric_type].
      by rewrite !String.eqb_refl.
  - destruct (filter_update (userId req) (req_biometricType req)
                (update_row (processWebAuthnCredential sha256 join_comma c)
                   (encryptTemplate JSON_stringify cipher base64
                      (template (processWebAuthnCredential sha256 join_comma c))
                      encryptionKey iv)
                   (to_hex encryptionKey) now (userAgent req)) table)
      as [H1 H2]; [intros; apply update_row_matches|].
    subst mine others. by rewrite H1, H2, Hf.
  - cbn in Hone. lia.
Qed.

End RuntimeProperties.

Lemma template_roundtrip_witness :
  Registration.decryptTemplate Standin.decipher Standin.from_base64
    Standin.parse_floats
    (encryptTemplate Standin.stringify_floats Standin.cipher Standin.base64
       [1; -1; 1]%float Standin.draw32 Standin.draw16) Standin.draw32
  = PackageEncryption.Success [1; -1; 1]%float.
Proof.
  apply (template_roundtrip Standin.stringify_floats Standin.cipher
           Standin.base64 Standin.decipher Standin.from_base64
           Standin.parse_floats [1; -1; 1]%float Standin.draw32 Standin.draw16);
    vm_compute; reflexivity.
Defined.

Lemma registered_row_decrypts_witness :
  let req := Request (Some "{}") "fingerprint" "u1" None in
  ∃ resp,
    (register_route Biometric.zero_digest Standin.join_comma
       Standin.stringify_floats Standin.cipher Standin.base64 req
       Standin.draw32 Standin.draw16 "2024" []).1 = inr resp ∧
    res_row resp ∈
      (register_route Biometric.zero_digest Standin.join_comma
         Standin.stringify_floats Standin.cipher Standin.base64 req
         Standin.draw32 Standin.draw16 "2024" []).2 ∧
    Registration.decryptTemplate Standin.decipher Standin.from_base64
      Standin.parse_floats (template_data (res_row resp))
      (from_hex (encryption_key (res_row resp)))
    = PackageEncryption.Success
        (createMockBiometricTemplate Biometric.zero_digest "{}").
Proof.
  intros req.
  apply (registered_row_decrypts Biometric.zero_digest Standin.join_comma
           Standin.stringify_floats Standin.cipher Standin.base64
           Standin.decipher Standin.from_base64 Standin.parse_floats req "{}"
           Standin.draw32 Standin.draw16 "2024" []);
    vm_compute; reflexivity.
Defined.

Lemma register_keeps_one_row_witness :
  let req := Request (Some "{}") "fingerprint" "u1" None in
  let table :=
    [TemplateRow 1 "u1" "fingerprint" "old" "id" "key" 0.5%float (Some true)
       (Some "2023") None "fingerprint" "2023" None;
     TemplateRow 2 "u2" "fingerprint" "other" "id" "key" 0.5%float (Some true)
       (Some "2023") None "fingerprint" "2023" None] in
  let table' :=
    (register_route Standin.sha256 Standin.join_comma Standin.stringify_floats
       Standin.cipher Standin.base64 req Standin.draw32 Standin.draw16
       "2024" table).2 in
  length (filter (fun row => matches "u1" "fingerprint" row = true) table')
  = 1%nat ∧
  filter (fun row => matches "u1" "fingerprint" row = false) table'
  = filter (fun row => matches "u1" "fingerprint" row = false) table.
Proof.
  intros req table table'.
  apply (register_keeps_one_row Standin.sha256 Standin.join_comma
           Standin.stringify_floats Standin.cipher Standin.base64 req "{}"
           Standin.draw32 Standin.draw16 "2024" table).
  - reflexivity.
  - vm_compute. lia.
Defined.

End RegistrationExtras.

(** * Further properties of the document routes *)

Module DocumentsExtras.
Import Gate GateProofs Documents.

(** [validateTimeWindow] returns the pair of times exactly when both dates
    parse, the start is at most five minutes before the clock, and the
    window is at least one minute and at most thirty days long; the end
    of an accepted window may lie up to four minutes in the past. *)
Theorem validateTimeWindow_accepts (start end_ : option Z) (now : Z) (w : Z * Z) :
  validateTimeWindow start end_ now = inr w ↔
  ∃ s e, start = Some s ∧ end_ = Some e ∧ w = (s, e) ∧
         now - 300000 ≤ s ∧ 60000 ≤ e - s ≤ 2592000000.
Proof.
  unfold validateTimeWindow. split.
  - destruct start as [s|], end_ as [e|]; try discriminate.
    destruct (e <=? s) eqn:H1; [discriminate|].
    destruct (s <? now - 5 * 60 * 1000) eqn:H2; [discriminate|].
    destruct (e - s <? 60 * 1000) eqn:H3; [discriminate|].
    destruct (30 * 24 * 60 * 60 * 1000 <? e - s) eqn:H4; [discriminate|].
    intros [= <-]. exists s, e.
    apply Z.leb_gt in H1. apply Z.ltb_ge in H2, H3, H4.
    repeat split; lia.
  - intros (s & e & -> & -> & -> & Hs & Hlo & Hhi).
    assert ((e <=? s) = false) as -> by (apply Z.leb_gt; lia).
    assert ((s <? now - 5 * 60 * 1000) = false) as -> by (apply Z.ltb_ge; lia).
    assert ((e - s <? 60 * 1000) = false) as -> by (apply Z.ltb_ge; lia).
    assert ((30 * 24 * 60 * 60 * 1000 <? e - s) = false) as ->
      by (apply Z.ltb_ge; lia).
    reflexivity.
Qed.


(** The access status and the verification route agree on the gate: for
    a request that carries data and a challenge the route accepts, a
    status that is not [accessible] means the route refuses, with the
    error of the same cause, whatever the biometric is; a missing
    document is [Document not found] in both; and on [accessible] the
    route gets past the document, the window and the status. *)
Theorem status_agrees_with_gate (svc : services) (req : request) (now : Z)
    (db : database) (bd : string) (ch : challenge_t) :
  biometricData req = Some bd →
  challenge req = Some ch →
  validateChallenge svc (challenge_value ch) (challenge_timestamp ch) = true →
  match (access_status_route (documentId req) (userId req) now db).1 with
  | inl e => (verify_route svc req now db).1 = inl e
  | inr st =>
      if String.eqb (status st) "pending"
      then (verify_route svc req now db).1
           = inl (Exception AuthorizationError "Document access not yet available")
      else if String.eqb (status st) "expired"
      then (verify_route svc req now db).1
           = inl (Exception AuthorizationError "Document access has expired")
      else if String.eqb (status st) "inactive"
      then (verify_route svc req now db).1
           = inl (Exception AuthorizationError "Document is not active")
      else
        isAccessible st = true ∧
        ∀ e, (verify_route svc req now db).1 = inl e →
             e ∉ [Exception NotFoundError "Document not found";
                  Exception AuthorizationError "Document access not yet available";
                  Exception AuthorizationError "Document access has expired";
                  Exception AuthorizationError "Document is not active"]
  end.
Proof.
  intros Hbd Hch Hval.
  rewrite (verify_route_result svc req now db bd ch Hbd Hch).
  unfold access_status_route, verify_try.
  unfold mbind, M_bind, mret, M_ret, select_document, select_template, throw.
  rewrite Hval. cbn [negb]. cbv beta.
  destruct (single _) as [d|] eqn:Hd; [|reflexivity].
  destruct (now <? start_time d) eqn:H1; [reflexivity|].
  destruct (end_time d <? now) eqn:H2; [reflexivity|].
  destruct (String.eqb (document_status d) "active") eqn:H3; cbn [negb];
    [|reflexivity].
  cbn [fst status isAccessible String.eqb Ascii.eqb Bool.eqb].
  split; [reflexivity|].
  intros e. rewrite !elem_of_cons, elem_of_nil.
  unfold insert_access_log.
  repeat case_match; simplify_eq; cbn; intros [= <-];
    intros [?|[?|[?|[?|[]]]]]; discriminate.
Qed.

(** The document of the examples, asked about inside its window. *)
Lemma access_status_in_window :
  (access_status_route "d1" "u1" 1500 one_document_db).1
  = inr (AccessStatus "accessible"
           "Document is accessible for biometric verification" true 500
           1000 2000).
Proof. reflexivity. Qed.

Lemma status_agrees_with_gate_witness :
  (verify_route (fixed_services true) full_request 2500 one_document_db).1
  = inl (Exception AuthorizationError "Document access has expired") ∧
  ((verify_route (fixed_services true) full_request 1500 one_document_db).1
   ≠ inl (Exception AuthorizationError "Document is not active")).
Proof.
  split.
  - exact (status_agrees_with_gate (fixed_services true) full_request 2500
             one_document_db "{}" (Challenge "c" 1500) eq_refl eq_refl eq_refl).
  - pose proof (status_agrees_with_gate (fixed_services true) full_request 1500
                  one_document_db "{}" (Challenge "c" 1500) eq_refl eq_refl
                  eq_refl) as [_ H].
    intros Heq. apply (H _ Heq). set_solver.
Defined.

End DocumentsExtras.
